(** * A shallow embedding of [bot.py]: the Telegram assistant bot

    The bot is a set of message handlers registered on a [TeleBot]; each
    handler talks to the Bot API, to the Gemini model, to SerpAPI, to two
    MongoDB collections and to the local file system.  The handlers are
    embedded as programs of a small state-and-exception monad over an
    explicit [World]; every call that leaves the process consults an oracle
    of the environment [Env] that decides whether the call succeeds and what
    it returns.

    Conventions.
    - A Python [str] is a [string]: the bytes of its UTF-8 encoding.
      [str.strip] and slicing work on code points, which the model reads
      off the bytes; the case table of [str.lower] belongs to the
      interpreter and is a parameter of the environment.
    - Python exceptions are values of [exn]; [try]/[except]/[finally] are
      combinators of the monad.
    - [logging] calls have no effect any handler can observe and are left
      out. *)

From Stdlib Require Import ZArith List String Ascii Lia Bool.
From Stdlib Require Import Decimal DecimalString Floats Permutation Sorted.
From stdpp Require Import base gmap strings.
Import ListNotations.

Local Open Scope string_scope.

(* ===================================================================== *)
(** ** Python string operations *)
(* ===================================================================== *)

Module PyStr.

Definition nl : string := String (ascii_of_nat 10) EmptyString.

(** [str.isspace] on a code point of one byte: TAB, LF, VT, FF, CR, the
    four separators FS, GS, RS, US, and the space. *)
Definition is_space (a : ascii) : bool :=
  let n := nat_of_ascii a in
  (((9 <=? n) && (n <=? 13)) || ((28 <=? n) && (n <=? 31)) || (n =? 32))%nat.

(** [str.isspace] on a code point of two bytes: U+0085 (C2 85) and the
    no-break space U+00A0 (C2 A0). *)
Definition is_space2 (a b : ascii) : bool :=
  let x := nat_of_ascii a in
  let y := nat_of_ascii b in
  ((x =? 194) && ((y =? 133) || (y =? 160)))%nat.

(** [str.isspace] on a code point of three bytes: U+1680 (E1 9A 80),
    U+2000 to U+200A (E2 80 80 to E2 80 8A), U+2028, U+2029, U+202F
    (E2 80 A8, E2 80 A9, E2 80 AF), U+205F (E2 81 9F) and U+3000
    (E3 80 80). *)
Definition is_space3 (a b c : ascii) : bool :=
  let x := nat_of_ascii a in
  let y := nat_of_ascii b in
  let z := nat_of_ascii c in
  (((x =? 225) && (y =? 154) && (z =? 128))
   || ((x =? 226) && (y =? 128) &&
       (((128 <=? z) && (z <=? 138)) || (z =? 168) || (z =? 169) || (z =? 175)))
   || ((x =? 226) && (y =? 129) && (z =? 159))
   || ((x =? 227) && (y =? 128) && (z =? 128)))%nat.

(** [s.lstrip()]: the whitespace code points at the head are dropped. *)
Fixpoint lstrip (s : string) : string :=
  match s with
  | EmptyString => EmptyString
  | String a s1 =>
      if is_space a then lstrip s1
      else
        match s1 with
        | EmptyString => s
        | String b s2 =>
            if is_space2 a b then lstrip s2
            else
              match s2 with
              | EmptyString => s
              | String c s3 => if is_space3 a b c then lstrip s3 else s
              end
        end
  end.

(** A string made of whitespace code points only (or empty). *)
Definition blank (s : string) : bool :=
  match lstrip s with EmptyString => true | _ => false end.

(** [s.rstrip()]: a byte is kept unless only whitespace follows from it
    on (a whitespace code point starts at its first byte, so the bytes of
    a kept code point are never followed by a blank rest). *)
Fixpoint rstrip (s : string) : string :=
  match s with
  | EmptyString => EmptyString
  | String a s' => if blank s then EmptyString else String a (rstrip s')
  end.

(** [s.strip()] *)
Definition strip (s : string) : string := rstrip (lstrip s).

Definition lower_ascii (a : ascii) : ascii :=
  let n := nat_of_ascii a in
  if ((65 <=? n) && (n <=? 90))%nat then ascii_of_nat (n + 32) else a.

(** [s.lower()] on ASCII text: the letters A to Z are lower-cased and
    every other byte is kept.  The handlers take the full function from
    the environment ([str_lower]); this one serves the samples, whose
    texts are ASCII. *)
Fixpoint lower (s : string) : string :=
  match s with
  | EmptyString => EmptyString
  | String a s' => String (lower_ascii a) (lower s')
  end.

(** [s.startswith(p)] *)
Fixpoint startswith (s p : string) {struct p} : bool :=
  match p, s with
  | EmptyString, _ => true
  | String _ _, EmptyString => false
  | String b p', String a s' => Ascii.eqb a b && startswith s' p'
  end.

(** [needle in s] *)
Fixpoint contains (needle s : string) : bool :=
  startswith s needle ||
  match s with
  | EmptyString => false
  | String _ s' => contains needle s'
  end.

(** A byte that continues a code point (10xxxxxx). *)
Definition is_continuation (a : ascii) : bool :=
  let n := nat_of_ascii a in ((128 <=? n) && (n <? 192))%nat.

(** [s[:n]]: the first [n] code points.  A byte that starts a code point
    is taken while code points are left to take; the bytes that continue
    a code point follow the byte that starts it. *)
Fixpoint take (n : nat) (s : string) : string :=
  match s with
  | EmptyString => EmptyString
  | String a s' =>
      if is_continuation a then String a (take n s')
      else
        match n with
        | 0 => EmptyString
        | S n' => String a (take n' s')
        end
  end.

(** [sep.join(l)] *)
Fixpoint join (sep : string) (l : list string) : string :=
  match l with
  | [] => EmptyString
  | [x] => x
  | x :: rest => x ++ sep ++ join sep rest
  end.

(** [str(n)] for an [int] *)
Definition of_nat (n : nat) : string := NilZero.string_of_uint (Nat.to_uint n).
Definition of_Z (z : Z) : string := NilZero.string_of_int (Z.to_int z).

(** [bool(s)]: a string is true when it is not empty. *)
Definition truthy (s : string) : bool :=
  match s with EmptyString => false | _ => true end.

End PyStr.

(* ===================================================================== *)
(** ** Python float division and the [.0%] format *)
(* ===================================================================== *)

Module PyFloat.

(** [int / int] on two non-negative ints small enough to be exact
    doubles: the IEEE quotient of the two conversions. *)
Definition of_nat (n : nat) : float := PrimFloat.of_uint63 (Uint63.of_Z (Z.of_nat n)).

Definition div (k n : nat) : float := PrimFloat.div (of_nat k) (of_nat n).

(** The integer nearest to [m * 2^e], ties to the even one: what the
    correctly rounded [%.0f] conversion prints. *)
Definition round_half_even (m e : Z) : Z :=
  if (0 <=? e)%Z then (m * 2 ^ e)%Z
  else
    let d := (2 ^ (- e))%Z in
    let q := (m / d)%Z in
    let r := (m mod d)%Z in
    if (2 * r <? d)%Z then q
    else if (d <? 2 * r)%Z then (q + 1)%Z
    else if Z.even q then q else (q + 1)%Z.

(** [format(x, '.0f')] *)
Definition format_f0 (x : float) : string :=
  match Prim2SF x with
  | S754_nan => "nan"
  | S754_infinity s => if s then "-inf" else "inf"
  | S754_zero s => if s then "-0" else "0"
  | S754_finite s m e =>
      (if s then "-" else "") ++ PyStr.of_Z (round_half_even (Z.pos m) e)
  end.

(** [format(x, '.0%')]: the value is multiplied by 100 as a double,
    printed with no decimals and followed by the percent sign. *)
Definition format_pct0 (x : float) : string :=
  format_f0 (PrimFloat.mul x (of_nat 100)) ++ "%".

(** The same percentage in exact integer arithmetic: [100 * k / n]
    rounded to the nearest integer, ties to even. *)
Definition percent_exact (k n : nat) : nat :=
  let q := ((100 * k) / n)%nat in
  let r := ((100 * k) mod n)%nat in
  if (2 * r <? n)%nat then q
  else if (n <? 2 * r)%nat then (q + 1)%nat
  else if Nat.even q then q else (q + 1)%nat.

End PyFloat.

(* ===================================================================== *)
(** ** Exceptions and the handler monad *)
(* ===================================================================== *)

(** The exceptions a handler can meet.  [SystemExit] is the one raised by
    [sys.exit]; it derives from [BaseException] only, so [except Exception]
    lets it through while a bare [except:] stops it. *)
Inductive exn : Type :=
  | ApiException          (* the Bot API refused or could not be reached *)
  | GatewayError          (* generate_content / resolve / .text raised *)
  | SearchError           (* SerpAPI raised *)
  | PyMongoError          (* a collection operation raised *)
  | OSError               (* open / write failed *)
  | FileNotFoundError     (* os.remove on a missing path *)
  | ImageError            (* PIL could not open the payload *)
  | PdfReadError          (* PyPDF2 could not read the file or a page *)
  | AttributeError        (* a method called on None *)
  | IndexError            (* message.photo[-1] on an empty list *)
  | UnboundLocalError     (* a local read before it was assigned *)
  | ZeroDivisionError
  | KeyError              (* a key missing from a dict *)
  | SystemExit.

Definition is_Exception (e : exn) : bool :=
  match e with SystemExit => false | _ => true end.

Inductive outcome (A : Type) : Type :=
  | Ret (a : A)
  | Raise (e : exn).
Arguments Ret {A} a.
Arguments Raise {A} e.

(** A computation over a state [St]: the state it leaves and how it ended. *)
Definition M (St A : Type) : Type := St -> St * outcome A.

Section Monad.
Context {St : Type}.

Definition ret {A} (a : A) : M St A := fun s => (s, Ret a).

Definition raise {A} (e : exn) : M St A := fun s => (s, Raise e).

Definition bind {A B} (m : M St A) (k : A -> M St B) : M St B :=
  fun s =>
    match m s with
    | (s', Ret a) => k a s'
    | (s', Raise e) => (s', Raise e)
    end.

Definition gets {A} (f : St -> A) : M St A := fun s => (s, Ret (f s)).

(** A step that only returns or raises. *)
Definition finish {A} (o : outcome A) : M St A := fun s => (s, o).

Definition modify (f : St -> St) : M St unit := fun s => (f s, Ret tt).

(** [try: body  except Exception as e: handler e] *)
Definition try_except {A} (body : M St A) (handler : exn -> M St A) : M St A :=
  fun s =>
    match body s with
    | (s', Raise e) => if is_Exception e then handler e s' else (s', Raise e)
    | r => r
    end.

(** [try: body  except: handler] (the bare form stops every exception) *)
Definition try_except_all {A} (body : M St A) (handler : M St A) : M St A :=
  fun s =>
    match body s with
    | (s', Raise _) => handler s'
    | r => r
    end.

(** [try: body  finally: fin]: [fin] runs however [body] ended; the way
    [body] ended stands unless [fin] raises itself. *)
Definition try_finally {A} (body : M St A) (fin : M St unit) : M St A :=
  fun s =>
    match body s with
    | (s', r) =>
        match fin s' with
        | (s'', Ret _) => (s'', r)
        | (s'', Raise e) => (s'', Raise e)
        end
    end.

End Monad.

Declare Scope py_scope.
Delimit Scope py_scope with py.
Notation "x <- c1 ;; c2" := (bind c1 (fun x => c2))
  (at level 100, c1 at next level, right associativity) : py_scope.
Notation "c1 ;; c2" := (bind c1 (fun _ => c2))
  (at level 100, right associativity) : py_scope.

(** A function body with local variables [L] runs over the pair of the
    outer state and its frame; the frame is dropped when the call ends. *)
Definition lift {St L A} (m : M St A) : M (St * L) A :=
  fun sl =>
    match m (fst sl) with
    | (s', r) => ((s', snd sl), r)
    end.

Definition with_frame {St L A} (init : L) (body : M (St * L) A) : M St A :=
  fun s =>
    match body (s, init) with
    | ((s', _), r) => (s', r)
    end.

(** Reading a local: [UnboundLocalError] when it was never assigned. *)
Definition read_local {St L A} (get : L -> option A) : M (St * L) A :=
  fun sl =>
    match get (snd sl) with
    | Some a => (sl, Ret a)
    | None => (sl, Raise UnboundLocalError)
    end.

Definition write_local {St L} (set : L -> L) : M (St * L) unit :=
  fun sl => ((fst sl, set (snd sl)), Ret tt).

(* ===================================================================== *)
(** ** Data model *)
(* ===================================================================== *)

(** A document of [users_collection]. *)
Record Profile : Type := mkProfile {
  p_chat_id : Z;
  p_first_name : string;
  p_username : option string;
  p_phone_number : option string;
  p_created_at : Z
}.

(** A document of [sentiments_collection]. *)
Record SentimentRecord : Type := mkSentiment {
  r_chat_id : Z;
  r_message : string;
  r_sentiment : string;
  r_timestamp : Z
}.

(** An organic result of the search gateway: a dict, of which the
    handler reads the entries ['title'] and ['link'], each there or not. *)
Record SearchResult : Type := mkResult {
  res_title : option string;
  res_link : option string
}.

Record Document : Type := mkDocument {
  mime_type : string;
  doc_file_id : string
}.

Inductive ContentType : Type :=
  | CText | CPhoto | CDocument | CContact | COther.

(** An incoming [telebot.types.Message]: [text] is [None] unless the
    content type is text; [photo] lists the file ids of the sizes, the
    largest last. *)
Record Message : Type := mkMessage {
  chat_id : Z;
  content_type : ContentType;
  text : option string;
  from_first_name : string;
  from_username : option string;
  document : option Document;
  photo : list string;
  contact_phone : option string
}.

(** Options of [send_message]. *)
Inductive SendOpts : Type :=
  | Plain
  | Markdown                                         (* parse_mode="Markdown" *)
  | ReplyKeyboard (one_time : bool) (rows : list (list string)).

(** A message the bot has sent. *)
Record Sent : Type := mkSent {
  message_id : nat;
  sent_chat : Z;
  sent_text : string;
  sent_opts : SendOpts
}.

(** What is handed to [model.generate_content]. *)
Inductive Prompt : Type :=
  | TextPrompt (p : string)
  | ImagePrompt (p : string) (image : string).

(** A page of a parsed PDF: the value of [page.extract_text()], or a page
    whose extraction raises. *)
Inductive Page : Type :=
  | PageText (t : option string)
  | PageBroken.

(** The functions registered with [register_next_step_handler]. *)
Inductive Continuation : Type :=
  | K_process_web_search
  | K_chat_with_gemini.

(** The state the handlers act on. *)
Record World : Type := mkWorld {
  users_collection : list Profile;
  sentiments_collection : list SentimentRecord;
  outbox : list Sent;               (* every message sent, oldest first *)
  deleted : list (Z * nat);         (* every (chat, message id) deleted *)
  next_message_id : nat;
  files : gmap string string;       (* the working directory *)
  next_step : gmap Z Continuation;  (* the pending next-step handlers *)
  gateway_calls : list Prompt;      (* every prompt handed to the model *)
  polling : bool;
  tick : nat                        (* number of oracle consultations *)
}.

Definition set_users (f : list Profile -> list Profile) (w : World) : World :=
  mkWorld (f (users_collection w)) (sentiments_collection w) (outbox w) (deleted w)
          (next_message_id w) (files w) (next_step w) (gateway_calls w) (polling w) (tick w).

Definition set_sentiments (f : list SentimentRecord -> list SentimentRecord) (w : World) : World :=
  mkWorld (users_collection w) (f (sentiments_collection w)) (outbox w) (deleted w)
          (next_message_id w) (files w) (next_step w) (gateway_calls w) (polling w) (tick w).

Definition push_sent (m : Sent) (w : World) : World :=
  mkWorld (users_collection w) (sentiments_collection w) (outbox w ++ [m])%list (deleted w)
          (S (next_message_id w)) (files w) (next_step w) (gateway_calls w) (polling w) (tick w).

Definition push_deleted (d : Z * nat) (w : World) : World :=
  mkWorld (users_collection w) (sentiments_collection w) (outbox w) (deleted w ++ [d])%list
          (next_message_id w) (files w) (next_step w) (gateway_calls w) (polling w) (tick w).

Definition set_files (f : gmap string string -> gmap string string) (w : World) : World :=
  mkWorld (users_collection w) (sentiments_collection w) (outbox w) (deleted w)
          (next_message_id w) (f (files w)) (next_step w) (gateway_calls w) (polling w) (tick w).

Definition set_next_step (f : gmap Z Continuation -> gmap Z Continuation) (w : World) : World :=
  mkWorld (users_collection w) (sentiments_collection w) (outbox w) (deleted w)
          (next_message_id w) (files w) (f (next_step w)) (gateway_calls w) (polling w) (tick w).

Definition push_gateway_call (p : Prompt) (w : World) : World :=
  mkWorld (users_collection w) (sentiments_collection w) (outbox w) (deleted w)
          (next_message_id w) (files w) (next_step w) (gateway_calls w ++ [p])%list (polling w) (tick w).

Definition set_polling (b : bool) (w : World) : World :=
  mkWorld (users_collection w) (sentiments_collection w) (outbox w) (deleted w)
          (next_message_id w) (files w) (next_step w) (gateway_calls w) b (tick w).

Definition bump_tick (w : World) : World :=
  mkWorld (users_collection w) (sentiments_collection w) (outbox w) (deleted w)
          (next_message_id w) (files w) (next_step w) (gateway_calls w) (polling w) (S (tick w)).

(** The environment: for the call made at oracle step [t], whether it
    succeeds and what it returns. *)
Record Env : Type := mkEnv {
  api_send : nat -> Z -> string -> bool;               (* sendMessage *)
  api_delete : nat -> Z -> nat -> bool;                (* deleteMessage *)
  api_get_file : nat -> string -> option string;       (* getFile: the file path *)
  api_download : nat -> string -> option string;       (* the payload *)
  gemini : nat -> Prompt -> option string;             (* the response text *)
  serp : nat -> string -> option (option (list SearchResult));
      (* the dict of the search: its 'organic_results' entry when present *)
  mongo_up : nat -> bool;                              (* the store answers *)
  os_open : nat -> string -> bool;                     (* open(path, 'wb') *)
  os_write : nat -> bool;                              (* f.write(data) *)
  image_open : string -> bool;                         (* PIL reads the payload *)
  pdf_reader : string -> option (list Page);           (* PyPDF2 on the bytes *)
  now : nat -> Z;                                      (* datetime.now() *)
  exn_str : exn -> string;                             (* str(e) *)
  str_lower : string -> string
      (* s.lower(), by the case table of the interpreter's Unicode data *)
}.

(* ===================================================================== *)
(** ** The collaborators: Bot API, model, search, store, file system *)
(* ===================================================================== *)

Local Open Scope py_scope.

(** [find(..., sort=[("timestamp", -1)])]: insertion of a record into a
    list already ordered by descending timestamp; among equal timestamps
    the order of the collection is kept. *)
Fixpoint insert_desc (r : SentimentRecord) (l : list SentimentRecord) : list SentimentRecord :=
  match l with
  | [] => [r]
  | x :: l' =>
      if (r_timestamp x <=? r_timestamp r)%Z then r :: l
      else x :: insert_desc r l'
  end.

Definition sort_desc (l : list SentimentRecord) : list SentimentRecord :=
  fold_right insert_desc [] l.

(** [sentiments_collection.find({"chat_id": c}, sort=[("timestamp", -1)],
    limit=n)] on the documents [l]. *)
Definition find_recent (c : Z) (n : nat) (l : list SentimentRecord) : list SentimentRecord :=
  firstn n (sort_desc (List.filter (fun r => (r_chat_id r =? c)%Z) l)).

(** [users_collection.update_one({"chat_id": c}, {"$set": {"phone_number":
    ph}})]: the first matching document is updated, none is created. *)
Fixpoint update_phone (c : Z) (ph : string) (l : list Profile) : list Profile :=
  match l with
  | [] => []
  | p :: l' =>
      if (p_chat_id p =? c)%Z
      then mkProfile (p_chat_id p) (p_first_name p) (p_username p) (Some ph) (p_created_at p) :: l'
      else p :: update_phone c ph l'
  end.

Section Bot.

Variable env : Env.

(** Every consultation of the environment takes the next oracle step. *)
Definition oracle_step : M World nat := fun w => (bump_tick w, Ret (tick w)).

(** [bot.send_message(chat, text, ...)]: returns the message sent. *)
Definition send_message (chat : Z) (txt : string) (opts : SendOpts) : M World Sent :=
  t <- oracle_step ;;
  if api_send env t chat txt then
    id <- gets next_message_id ;;
    let m := mkSent id chat txt opts in
    modify (push_sent m) ;;
    ret m
  else raise ApiException.

(** [bot.delete_message(chat, message_id)] *)
Definition delete_message (chat : Z) (id : nat) : M World unit :=
  t <- oracle_step ;;
  if api_delete env t chat id then modify (push_deleted (chat, id))
  else raise ApiException.

(** [bot.get_file(file_id).file_path] *)
Definition get_file (file_id : string) : M World string :=
  t <- oracle_step ;;
  match api_get_file env t file_id with
  | Some p => ret p
  | None => raise ApiException
  end.

(** [bot.download_file(file_path)] *)
Definition download_file (file_path : string) : M World string :=
  t <- oracle_step ;;
  match api_download env t file_path with
  | Some d => ret d
  | None => raise ApiException
  end.

(** [model.generate_content(p)] followed by the read of [response.text]
    (and, for an image, [response.resolve()] between the two): the call
    is recorded, then the gateway answers or raises. *)
Definition generate_content (p : Prompt) : M World string :=
  modify (push_gateway_call p) ;;
  t <- oracle_step ;;
  match gemini env t p with
  | Some r => ret r
  | None => raise GatewayError
  end.

(** [GoogleSearch(params).get_dict().get('organic_results', [])] *)
Definition organic_results (query : string) : M World (list SearchResult) :=
  t <- oracle_step ;;
  match serp env t query with
  | Some (Some l) => ret l
  | Some None => ret []
  | None => raise SearchError
  end.

(** [datetime.now()] *)
Definition datetime_now : M World Z :=
  t <- oracle_step ;; ret (now env t).

(** A call to the store: it raises when the store does not answer. *)
Definition mongo {A} (op : M World A) : M World A :=
  t <- oracle_step ;;
  if mongo_up env t then op else raise PyMongoError.

Definition users_find_one (c : Z) : M World (option Profile) :=
  mongo (gets (fun w => List.find (fun p => (p_chat_id p =? c)%Z) (users_collection w))).

Definition users_insert_one (p : Profile) : M World unit :=
  mongo (modify (set_users (fun l => (l ++ [p])%list))).

Definition users_update_phone (c : Z) (ph : string) : M World unit :=
  mongo (modify (set_users (update_phone c ph))).

Definition sentiments_insert_one (r : SentimentRecord) : M World unit :=
  mongo (modify (set_sentiments (fun l => (l ++ [r])%list))).

Definition sentiments_find (c : Z) (limit : nat) : M World (list SentimentRecord) :=
  mongo (gets (fun w => find_recent c limit (sentiments_collection w))).

(** [with open(path, 'wb') as f: f.write(data)]: opening creates (or
    truncates) the file, writing fills it. *)
Definition write_file (path data : string) : M World unit :=
  t <- oracle_step ;;
  if os_open env t path then
    modify (set_files (fun fs => <[path := EmptyString]> fs)) ;;
    t' <- oracle_step ;;
    if os_write env t' then modify (set_files (fun fs => <[path := data]> fs))
    else raise OSError
  else raise OSError.

(** [os.remove(path)] *)
Definition os_remove (path : string) : M World unit :=
  fs <- gets files ;;
  match fs !! path with
  | Some _ => modify (set_files (fun fs => delete path fs))
  | None => raise FileNotFoundError
  end.

(** [PdfReader(path).pages] *)
Definition pdf_pages (path : string) : M World (list Page) :=
  fs <- gets files ;;
  match fs !! path with
  | None => raise FileNotFoundError
  | Some bytes =>
      match pdf_reader env bytes with
      | Some pages => ret pages
      | None => raise PdfReadError
      end
  end.

(** [bot.register_next_step_handler(msg, k)]: the continuation is filed
    under the chat of [msg]. *)
Definition register_next_step_handler (msg : Sent) (k : Continuation) : M World unit :=
  modify (set_next_step (fun t => <[sent_chat msg := k]> t)).

(** [message.text.strip()]: [AttributeError] when the message has no text. *)
Definition text_strip (message : Message) : M World string :=
  match text message with
  | Some s => ret (PyStr.strip s)
  | None => raise AttributeError
  end.

(* ------------------------------------------------------------------- *)
(** *** Menus and profile *)
(* ------------------------------------------------------------------- *)

Definition main_menu_rows : list (list string) :=
  [ ["📷 Image Analysis"; "🌐 Web Search"];
    ["📊 Sentiment Report"; "👤 My Profile"];
    ["💬 Chat with Gemini"; "🛑 Stop Bot"] ].

Definition show_main_menu (message : Message) : M World unit :=
  send_message (chat_id message) "🔧 Main Menu - Select an option:"
               (ReplyKeyboard false main_menu_rows) ;;
  ret tt.

Definition request_phone_number (message : Message) : M World unit :=
  send_message (chat_id message) "🔐 Please share your phone number:"
               (ReplyKeyboard true [["📱 Share Phone Number"]]) ;;
  ret tt.

(** [@bot.message_handler(commands=['start'])] *)
Definition handle_start (message : Message) : M World unit :=
  let chat := chat_id message in
  user <- users_find_one chat ;;
  match user with
  | None =>
      created <- datetime_now ;;
      users_insert_one
        (mkProfile chat (from_first_name message) (from_username message) None created) ;;
      send_message chat "👋 Welcome! Please share your phone number to continue." Plain ;;
      request_phone_number message
  | Some _ => show_main_menu message
  end.

(** How an f-string prints a value that may be [None]. *)
Definition str_of_option (o : option string) : string :=
  match o with Some s => s | None => "None" end.

Definition show_user_profile (message : Message) : M World unit :=
  let chat := chat_id message in
  try_except
    (user <- users_find_one chat ;;
     match user with
     | Some u =>
         send_message chat
           ("👤 User Profile:" ++ PyStr.nl ++
            "├ Name: " ++ p_first_name u ++ PyStr.nl ++
            "├ Username: @" ++ str_of_option (p_username u) ++ PyStr.nl ++
            "└ Phone: " ++ str_of_option (p_phone_number u)) Plain ;;
         ret tt
     | None => send_message chat "❌ Profile not found" Plain ;; ret tt
     end)
    (fun _ => send_message chat "⚠️ Failed to load profile" Plain ;; ret tt).

(** [@bot.message_handler(content_types=['contact'])] *)
Definition save_phone_number (message : Message) : M World unit :=
  let chat := chat_id message in
  try_except
    (match contact_phone message with
     | Some ph =>
         users_update_phone chat ph ;;
         send_message chat "✅ Phone number saved!" Plain ;;
         show_main_menu message
     | None => ret tt
     end)
    (fun _ => send_message chat "⚠️ Failed to save contact" Plain ;; ret tt).

Definition stop_bot (message : Message) : M World unit :=
  send_message (chat_id message) "🛑 Session ended. Use /start to begin again!" Plain ;;
  modify (set_polling false) ;;
  raise SystemExit.

(* ------------------------------------------------------------------- *)
(** *** Chat with Gemini and web search *)
(* ------------------------------------------------------------------- *)

Definition chat_with_gemini (message : Message) : M World unit :=
  let chat := chat_id message in
  user_input <- text_strip message ;;
  if negb (PyStr.truthy user_input) then
    send_message chat "❌ Please enter a valid query." Plain ;; ret tt
  else
    try_except
      (send_message chat "🤖 Thinking..." Plain ;;
       response <- generate_content (TextPrompt user_input) ;;
       send_message chat ("💡 Gemini says:" ++ PyStr.nl ++ response) Plain ;;
       ret tt)
      (fun _ =>
         send_message chat "⚠️ Failed to fetch a response from Gemini." Plain ;; ret tt).

(** [f"{i+1}. [{res['title']}]({res['link']})"]: [KeyError] when the
    result has no title or no link. *)
Definition result_line (i : nat) (res : SearchResult) : outcome string :=
  match res_title res with
  | None => Raise KeyError
  | Some title =>
      match res_link res with
      | None => Raise KeyError
      | Some link => Ret (PyStr.of_nat (i + 1) ++ ". [" ++ title ++ "](" ++ link ++ ")")
      end
  end.

(** [[f(i, res) for i, res in enumerate(results)]], counting from [i]: the
    comprehension stops at the first result that raises. *)
Fixpoint result_lines (i : nat) (results : list SearchResult) : outcome (list string) :=
  match results with
  | [] => Ret []
  | res :: rest =>
      match result_line i res with
      | Raise e => Raise e
      | Ret line =>
          match result_lines (S i) rest with
          | Raise e => Raise e
          | Ret lines => Ret (line :: lines)
          end
      end
  end.

Definition process_web_search (message : Message) : M World unit :=
  let chat := chat_id message in
  try_except
    (query <- text_strip message ;;
     if negb (PyStr.truthy query) then
       send_message chat "❌ Search cancelled" Plain ;; ret tt
     else
       send_message chat "🔎 Searching the web..." Plain ;;
       found <- organic_results query ;;
       let results := firstn 3 found in
       match results with
       | _ :: _ =>
           lines <- finish (result_lines 0 results) ;;
           let response := PyStr.join PyStr.nl lines in
           send_message chat
             ("🌐 Top Results for '" ++ query ++ "':" ++ PyStr.nl ++ response) Markdown ;;
           ret tt
       | [] => send_message chat "❌ No results found" Plain ;; ret tt
       end)
    (fun _ => send_message chat "⚠️ Search failed. Please try again" Plain ;; ret tt).

(* ------------------------------------------------------------------- *)
(** *** PDF processing *)
(* ------------------------------------------------------------------- *)

(** The indentation the triple-quoted prompts carry on their lines. *)
Definition indent : string := "        ".

(** The loop over [reader.pages]: a page contributes its text and a
    newline when the text is neither [None] nor empty; a page that
    cannot be read raises. *)
Fixpoint pages_text (pages : list Page) (acc : string) : outcome string :=
  match pages with
  | [] => Ret acc
  | PageBroken :: _ => Raise PdfReadError
  | PageText None :: rest => pages_text rest acc
  | PageText (Some t) :: rest =>
      if PyStr.truthy t then pages_text rest (acc ++ t ++ PyStr.nl)
      else pages_text rest acc
  end.

Definition extract_text_from_pdf (pdf_path : string) : M World string :=
  try_except
    (pages <- pdf_pages pdf_path ;;
     txt <- finish (pages_text pages EmptyString) ;;
     ret (PyStr.strip txt))
    (fun _ => ret EmptyString).

Definition classify_prompt (txt : string) : string :=
  "Analyze this document and provide:" ++ PyStr.nl ++
  indent ++ "1. Document type (report, article, etc.)" ++ PyStr.nl ++
  indent ++ "2. Main topic" ++ PyStr.nl ++
  indent ++ "3. Key points (3-5 bullet points)" ++ PyStr.nl ++
  indent ++ "4. Overall sentiment" ++ PyStr.nl ++
  indent ++ PyStr.nl ++
  indent ++ "Document content: " ++ PyStr.take 10000 txt.

Definition classify_pdf_content (txt : string) : M World string :=
  try_except
    (generate_content (TextPrompt (classify_prompt txt)))
    (fun _ => ret "⚠️ Failed to analyze document content").

(** The locals of [handle_pdf] that its [finally] block reads. *)
Record PdfLocals : Type := mkPdfLocals {
  pdf_processing_msg : option Sent;
  pdf_path : option string
}.

(** [@bot.message_handler(content_types=['document'])] *)
Definition handle_pdf (message : Message) : M World unit :=
  let chat := chat_id message in
  with_frame (mkPdfLocals None None)
    (try_finally
       (try_except
          (doc <- match document message with
                  | Some d => ret d
                  | None => raise AttributeError
                  end ;;
           if negb (String.eqb (mime_type doc) "application/pdf") then
             lift (send_message chat "⚠️ Please send a PDF file" Plain) ;; ret tt
           else
             processing_msg <- lift (send_message chat "📄 Processing PDF..." Plain) ;;
             write_local (fun l => mkPdfLocals (Some processing_msg) (pdf_path l)) ;;
             file_path <- lift (get_file (doc_file_id doc)) ;;
             file_data <- lift (download_file file_path) ;;
             let path := "temp_" ++ PyStr.of_Z chat ++ ".pdf" in
             write_local (fun l => mkPdfLocals (pdf_processing_msg l) (Some path)) ;;
             lift (write_file path file_data) ;;
             txt <- lift (extract_text_from_pdf path) ;;
             if negb (PyStr.truthy txt) then
               lift (send_message chat "❌ No text found in PDF" Plain) ;; ret tt
             else
               classification <- lift (classify_pdf_content txt) ;;
               lift (send_message chat
                       ("📑 PDF Analysis:" ++ PyStr.nl ++ classification) Plain) ;;
               ret tt)
          (fun _ => lift (send_message chat "⚠️ Error processing PDF" Plain) ;; ret tt))
       (try_except_all
          (path <- read_local pdf_path ;;
           lift (os_remove path) ;;
           processing_msg <- read_local pdf_processing_msg ;;
           lift (delete_message chat (message_id processing_msg)))
          (ret tt))).

(* ------------------------------------------------------------------- *)
(** *** Image processing *)
(* ------------------------------------------------------------------- *)

(** [message.photo[-1]] *)
Definition last_photo (message : Message) : M World string :=
  match List.last (List.map Some (photo message)) None with
  | Some f => ret f
  | None => raise IndexError
  end.

(** [Image.open(BytesIO(image_data))] *)
Definition pil_open (image_data : string) : M World string :=
  if image_open env image_data then ret image_data else raise ImageError.

(** [@bot.message_handler(content_types=['photo'])]; its only local read
    by the [finally] block is [processing_msg]. *)
Definition handle_image (message : Message) : M World unit :=
  let chat := chat_id message in
  with_frame (@None Sent)
    (try_finally
       (try_except
          (processing_msg <- lift (send_message chat "🖼️ Analyzing image..." Plain) ;;
           write_local (fun _ => Some processing_msg) ;;
           file_id <- lift (last_photo message) ;;
           file_path <- lift (get_file file_id) ;;
           image_data <- lift (download_file file_path) ;;
           img <- lift (pil_open image_data) ;;
           response <- lift (generate_content
                               (ImagePrompt "Describe this image in detail" img)) ;;
           lift (send_message chat ("📸 Image Analysis:" ++ PyStr.nl ++ response) Plain) ;;
           lift (send_message chat "💡 Ask follow-up questions about the image" Plain) ;;
           ret tt)
          (fun e => lift (send_message chat ("⚠️ Error: " ++ exn_str env e) Plain) ;; ret tt))
       (try_except_all
          (processing_msg <- read_local (fun l : option Sent => l) ;;
           lift (delete_message chat (message_id processing_msg)))
          (ret tt))).

(* ------------------------------------------------------------------- *)
(** *** Sentiment analysis *)
(* ------------------------------------------------------------------- *)

Definition sentiment_prompt (txt : string) : string :=
  "Classify sentiment as Positive, Neutral, or Negative:" ++ PyStr.nl ++
  indent ++ "Message: " ++ txt.

Definition positive_reply : string := "😊 Positive vibes detected!".
Definition negative_reply : string := "😟 Negative sentiment noted".
Definition neutral_reply : string := "🤔 Neutral message recorded".

(** The [if]/[elif]/[else] on the stored label. *)
Definition sentiment_reply (sentiment : string) : string :=
  if PyStr.contains "positive" sentiment then positive_reply
  else if PyStr.contains "negative" sentiment then negative_reply
  else neutral_reply.

(** [@bot.message_handler(func=lambda msg: True)] *)
Definition analyze_sentiment (message : Message) : M World unit :=
  let chat := chat_id message in
  txt <- text_strip message ;;
  if negb (PyStr.truthy txt) || PyStr.startswith txt "/" then ret tt
  else
    try_except
      (response <- generate_content (TextPrompt (sentiment_prompt txt)) ;;
       let sentiment := str_lower env (PyStr.strip response) in
       stamp <- datetime_now ;;
       sentiments_insert_one (mkSentiment chat txt sentiment stamp) ;;
       send_message chat (sentiment_reply sentiment) Plain ;;
       ret tt)
      (fun _ => ret tt).

(** [sum(1 for r in records if word in r['sentiment'])] *)
Definition count_label (word : string) (records : list SentimentRecord) : nat :=
  List.length (List.filter (fun r => PyStr.contains word (r_sentiment r)) records).

(** [k / n] on ints *)
Definition true_div (k n : nat) : M World float :=
  if (n =? 0)%nat then raise ZeroDivisionError else ret (PyFloat.div k n).

Definition mood_pattern (positive negative : nat) : string :=
  if (negative <? positive)%nat then "😊 Mostly Positive"
  else if (positive <? negative)%nat then "😟 Needs Support"
  else "⚖️ Balanced Emotions".

(** The f-string of the report; its fields are evaluated left to right. *)
Definition render_report (positive neutral negative total : nat) : M World string :=
  p_pos <- true_div positive total ;;
  p_neu <- true_div neutral total ;;
  p_neg <- true_div negative total ;;
  ret (PyStr.nl ++
       "📈 Emotional Analysis (Last " ++ PyStr.of_nat total ++ " messages):" ++ PyStr.nl ++
       "✅ Positive: " ++ PyStr.of_nat positive ++
         " (" ++ PyFloat.format_pct0 p_pos ++ ")" ++ PyStr.nl ++
       "🔄 Neutral: " ++ PyStr.of_nat neutral ++
         " (" ++ PyFloat.format_pct0 p_neu ++ ")" ++ PyStr.nl ++
       "❌ Negative: " ++ PyStr.of_nat negative ++
         " (" ++ PyFloat.format_pct0 p_neg ++ ")" ++ PyStr.nl ++
       PyStr.nl ++
       "💡 Mood Pattern: " ++ mood_pattern positive negative ++ PyStr.nl ++
       indent).

Definition start_chatting : string := "📊 Start chatting to generate insights!".

(** The [try] block of [generate_sentiment_report]. *)
Definition sentiment_report_body (chat : Z) : M World unit :=
  records <- sentiments_find chat 10 ;;
  match records with
  | [] => send_message chat start_chatting Plain ;; ret tt
  | _ :: _ =>
      let positive := count_label "positive" records in
      let neutral := count_label "neutral" records in
      let negative := count_label "negative" records in
      let total := List.length records in
      report <- render_report positive neutral negative total ;;
      send_message chat report Plain ;;
      ret tt
  end.

Definition generate_sentiment_report (message : Message) : M World unit :=
  let chat := chat_id message in
  try_except
    (sentiment_report_body chat)
    (fun _ => send_message chat "⚠️ Failed to generate report" Plain ;; ret tt).

(* ------------------------------------------------------------------- *)
(** *** Menu selection *)
(* ------------------------------------------------------------------- *)

Definition text_is (message : Message) (label : string) : bool :=
  match text message with
  | Some s => String.eqb s label
  | None => false
  end.

(** The body of [handle_menu_selection]; the filter of its decorator is
    [is_menu_selection] below. *)
Definition handle_menu_selection (message : Message) : M World unit :=
  let chat := chat_id message in
  try_except
    (if text_is message "📷 Image Analysis" then
       send_message chat "📤 Please send an image for analysis" Plain ;; ret tt
     else if text_is message "🌐 Web Search" then
       msg <- send_message chat "🔍 What would you like to search for?" Plain ;;
       register_next_step_handler msg K_process_web_search
     else if text_is message "📊 Sentiment Report" then
       generate_sentiment_report message
     else if text_is message "👤 My Profile" then
       show_user_profile message
     else if text_is message "💬 Chat with Gemini" then
       msg <- send_message chat "🤖 Ask anything to Gemini AI:" Plain ;;
       register_next_step_handler msg K_chat_with_gemini
     else if text_is message "🛑 Stop Bot" then
       stop_bot message
     else ret tt)
    (fun _ => send_message chat "⚠️ Error processing your request" Plain ;; ret tt).

(* ------------------------------------------------------------------- *)
(** *** The dispatcher *)
(* ------------------------------------------------------------------- *)

Definition is_content (c : ContentType) (message : Message) : bool :=
  match c, content_type message with
  | CText, CText | CPhoto, CPhoto | CDocument, CDocument
  | CContact, CContact | COther, COther => true
  | _, _ => false
  end.

(** Modelled from the spec: the test behind [commands=['start']] is made
    by the [telebot] library, which is not part of the sources; the spec
    calls it "the message is the /start command".  The command of a text
    is its first word up to an [@]. *)
Fixpoint command_word (s : string) : string :=
  match s with
  | EmptyString => EmptyString
  | String a s' =>
      if PyStr.is_space a || Ascii.eqb a "@"%char then EmptyString
      else String a (command_word s')
  end.

Definition is_start_command (message : Message) : bool :=
  is_content CText message &&
  match text message with
  | Some s => String.eqb (command_word s) "/start"
  | None => false
  end.

(** [func=lambda msg: msg.text in [...]] on a text message *)
Definition is_menu_selection (message : Message) : bool :=
  is_content CText message &&
  existsb (text_is message) (List.concat main_menu_rows).

(** The handlers with the filters of their decorators, in the order the
    decorators register them. *)
Definition message_handlers : list ((Message -> bool) * (Message -> M World unit)) :=
  [ (is_start_command, handle_start);
    (is_menu_selection, handle_menu_selection);
    (is_content CDocument, handle_pdf);
    (is_content CPhoto, handle_image);
    (is_content CText, analyze_sentiment);
    (is_content CContact, save_phone_number) ].

(** Modelled from the spec: the routing engine is [telebot]'s, which is
    not part of the sources.  "Routing precedence, evaluated top to
    bottom, first match wins"; a message no rule matches causes no
    action. *)
Definition route (message : Message) : M World unit :=
  match List.find (fun h => fst h message) message_handlers with
  | Some h => snd h message
  | None => ret tt
  end.

Definition run_continuation (k : Continuation) : Message -> M World unit :=
  match k with
  | K_process_web_search => process_web_search
  | K_chat_with_gemini => chat_with_gemini
  end.

(** Modelled from the spec: the handling of pending steps is [telebot]'s,
    which is not part of the sources.  "If the chat identifier has a
    Pending Step registered, consume it and invoke its continuation with
    this message instead of any other rule; clear the pending entry
    first." *)
Definition dispatch (message : Message) : M World unit :=
  pending <- gets next_step ;;
  match pending !! chat_id message with
  | Some k =>
      modify (set_next_step (fun t => delete (chat_id message) t)) ;;
      run_continuation k message
  | None => route message
  end.

(** A run of [handle_start] on each message of a list, in turn; a run
    that raises leaves the state it reached and the next one starts from
    there. *)
Definition start_all (messages : list Message) (w : World) : World :=
  fold_left (fun w m => fst (handle_start m w)) messages w.

End Bot.

Arguments send_message env chat txt opts w : simpl never.

(* ===================================================================== *)
(** ** Vocabulary of the properties *)
(* ===================================================================== *)

(** [needle] occurs in [s] as a contiguous run of characters. *)
Definition is_substring (needle s : string) : Prop :=
  exists before after, s = before ++ needle ++ after.

(** A list of records ordered from the newest to the oldest. *)
Definition newest_first (l : list SentimentRecord) : Prop :=
  StronglySorted (fun a b => (r_timestamp b <= r_timestamp a)%Z) l.

Definition of_chat (c : Z) (l : list SentimentRecord) : list SentimentRecord :=
  List.filter (fun r => (r_chat_id r =? c)%Z) l.

(** [fetched] is made of the [n] most recent records of chat [c] in
    [all]: it is ordered newest first, it holds [n] records of the chat
    (all of them when there are fewer), and every record of the chat it
    leaves out is at most as recent as each record it holds. *)
Definition most_recent (c : Z) (n : nat) (all fetched : list SentimentRecord) : Prop :=
  newest_first fetched /\
  List.length fetched = Nat.min n (List.length (of_chat c all)) /\
  exists older,
    Permutation (fetched ++ older)%list (of_chat c all) /\
    forall r r', In r fetched -> In r' older -> (r_timestamp r' <= r_timestamp r)%Z.

(** The number of profiles filed under chat [c]. *)
Definition profiles_of (c : Z) (l : list Profile) : nat :=
  List.length (List.filter (fun p => (p_chat_id p =? c)%Z) l).

(** The text of a report, from the figures it shows. *)
Definition report_text (total positive pos_pct neutral neu_pct negative neg_pct : nat)
           (mood : string) : string :=
  PyStr.nl ++
  "📈 Emotional Analysis (Last " ++ PyStr.of_nat total ++ " messages):" ++ PyStr.nl ++
  "✅ Positive: " ++ PyStr.of_nat positive ++ " (" ++ PyStr.of_nat pos_pct ++ "%)" ++ PyStr.nl ++
  "🔄 Neutral: " ++ PyStr.of_nat neutral ++ " (" ++ PyStr.of_nat neu_pct ++ "%)" ++ PyStr.nl ++
  "❌ Negative: " ++ PyStr.of_nat negative ++ " (" ++ PyStr.of_nat neg_pct ++ "%)" ++ PyStr.nl ++
  PyStr.nl ++
  "💡 Mood Pattern: " ++ mood ++ PyStr.nl ++
  "        ".

(** The text [extract_text_from_pdf] draws from a file whose bytes are
    [data]: the trimmed text of the pages, or the empty string when the
    file or one of its pages cannot be read. *)
Definition extracted_text (env : Env) (data : string) : string :=
  match pdf_reader env data with
  | Some pages =>
      match pages_text pages EmptyString with
      | Ret txt => PyStr.strip txt
      | Raise _ => EmptyString
      end
  | None => EmptyString
  end.

(** The path of the temporary file of a chat. *)
Definition temp_pdf (chat : Z) : string := "temp_" ++ PyStr.of_Z chat ++ ".pdf".

(** The reply of the web search for [query] when the three best results
    have the titles [t1], [t2], [t3] and the links [l1], [l2], [l3]: a
    heading and three numbered lines, each made of the title and the link
    of its result. *)
Definition top_three_reply (query t1 l1 t2 l2 t3 l3 : string) : string :=
  "🌐 Top Results for '" ++ query ++ "':" ++ PyStr.nl ++
  "1. [" ++ t1 ++ "](" ++ l1 ++ ")" ++ PyStr.nl ++
  "2. [" ++ t2 ++ "](" ++ l2 ++ ")" ++ PyStr.nl ++
  "3. [" ++ t3 ++ "](" ++ l3 ++ ")".

(** A result that carries both a title and a link. *)
Definition well_formed (r : SearchResult) : Prop :=
  exists title link, res_title r = Some title /\ res_link r = Some link.

Definition searching_notice : string := "🔎 Searching the web...".
Definition no_results : string := "❌ No results found".

(** The profile [/start] files for the sender of [message] at time
    [created]: the phone number is not set. *)
Definition new_profile (message : Message) (created : Z) : Profile :=
  mkProfile (chat_id message) (from_first_name message) (from_username message) None created.

(** The main menu as it is sent to chat [c] under the message id [id]. *)
Definition main_menu_sent (id : nat) (c : Z) : Sent :=
  mkSent id c "🔧 Main Menu - Select an option:" (ReplyKeyboard false main_menu_rows).

Definition analyzing_image : string := "🖼️ Analyzing image...".
Definition processing_pdf : string := "📄 Processing PDF...".
Definition no_text_found : string := "❌ No text found in PDF".
Definition pdf_error : string := "⚠️ Error processing PDF".

(** The report the bot owes for the records [fetched]: the counters of
    the three words, each with its exact percentage of the number of
    records, and the mood line. *)
Definition report_of (fetched : list SentimentRecord) : string :=
  let total := List.length fetched in
  let positive := count_label "positive" fetched in
  let neutral := count_label "neutral" fetched in
  let negative := count_label "negative" fetched in
  report_text total
    positive (PyFloat.percent_exact positive total)
    neutral (PyFloat.percent_exact neutral total)
    negative (PyFloat.percent_exact negative total)
    (mood_pattern positive negative).

(** The report for two positive records and a negative one. *)
Definition report_two_to_one : string :=
  PyStr.nl ++
  "📈 Emotional Analysis (Last 3 messages):" ++ PyStr.nl ++
  "✅ Positive: 2 (67%)" ++ PyStr.nl ++
  "🔄 Neutral: 0 (0%)" ++ PyStr.nl ++
  "❌ Negative: 1 (33%)" ++ PyStr.nl ++
  PyStr.nl ++
  "💡 Mood Pattern: 😊 Mostly Positive" ++ PyStr.nl ++
  "        ".

(** On the figures a report can show (at most ten records), the double
    quotient printed with [.0%] agrees with the exact percentage. *)
Definition pct_table_ok : bool :=
  forallb (fun n =>
    forallb (fun k =>
      String.eqb (PyFloat.format_pct0 (PyFloat.div k n))
                 (PyStr.of_nat (PyFloat.percent_exact k n) ++ "%"))
      (seq 0 (S n)))
    (seq 1 10).

(* ===================================================================== *)
(** ** Sample inputs *)
(* ===================================================================== *)

(** An environment in which every call succeeds: the model answers
    [answer], the search returns [results], every PDF has the pages
    [pages], and the clock shows the oracle step. *)
Definition calm_env (answer : string) (results : list SearchResult) (pages : list Page) : Env :=
  mkEnv (fun _ _ _ => true) (fun _ _ _ => true)
        (fun _ _ => Some "documents/file_0") (fun _ _ => Some "payload")
        (fun _ _ => Some answer)
        (fun _ _ => Some (Some results))
        (fun _ => true) (fun _ _ => true) (fun _ => true)
        (fun _ => true) (fun _ => Some pages)
        (fun t => Z.of_nat t)
        (fun _ => "error")
        PyStr.lower.

Definition fresh_world : World :=
  mkWorld [] [] [] [] 0 ∅ ∅ [] true 0.

Definition four_results : list SearchResult :=
  [ mkResult (Some "Rust vs Go") (Some "https://a.example/1");
    mkResult (Some "Go or Rust") (Some "https://b.example/2");
    mkResult (Some "Choosing") (Some "https://c.example/3");
    mkResult (Some "More") (Some "https://d.example/4") ].

(** A world in which chat 7 has been asked what to search for. *)
Definition asked_to_search : World :=
  set_next_step (fun t => <[7%Z := K_process_web_search]> t) fresh_world.

(** [env] with a model that raises on every call. *)
Definition with_failing_gateway (env : Env) : Env :=
  mkEnv (api_send env) (api_delete env) (api_get_file env) (api_download env)
        (fun _ _ => None)
        (serp env) (mongo_up env) (os_open env) (os_write env)
        (image_open env) (pdf_reader env) (now env) (exn_str env) (str_lower env).

(** [env] with a Bot API that refuses to hand out files. *)
Definition with_failing_get_file (env : Env) : Env :=
  mkEnv (api_send env) (api_delete env) (fun _ _ => None) (api_download env)
        (gemini env)
        (serp env) (mongo_up env) (os_open env) (os_write env)
        (image_open env) (pdf_reader env) (now env) (exn_str env) (str_lower env).

Definition photo_message (c : Z) : Message :=
  mkMessage c CPhoto None "Ada" (Some "ada") None ["photo-small"; "photo-large"] None.

Definition pdf_message (c : Z) : Message :=
  mkMessage c CDocument None "Ada" (Some "ada")
            (Some (mkDocument "application/pdf" "doc-1")) [] None.

Definition text_message (c : Z) (s : string) : Message :=
  mkMessage c CText (Some s) "Ada" (Some "ada") None [] None.

(** A store holding, for chat 7, two positive records and a negative one
    (and a record of another chat). *)
Definition three_records : World :=
  set_sentiments
    (fun _ => [ mkSentiment 7 "awful" "negative" 10;
                mkSentiment 8 "meh" "neutral" 11;
                mkSentiment 7 "great" "positive" 12;
                mkSentiment 7 "lovely" "positive" 13 ])
    fresh_world.

(* ===================================================================== *)
(** ** Further vocabulary and sample inputs *)
(* ===================================================================== *)

Definition report_failed : string := "⚠️ Failed to generate report".

(** [env] with a store that never answers. *)
Definition with_store_down (env : Env) : Env :=
  mkEnv (api_send env) (api_delete env) (api_get_file env) (api_download env)
        (gemini env) (serp env) (fun _ => false) (os_open env) (os_write env)
        (image_open env) (pdf_reader env) (now env) (exn_str env) (str_lower env).

(** The world [w] after one more record was filed. *)
Definition with_record (r : SentimentRecord) (w : World) : World :=
  set_sentiments (fun l => (l ++ [r])%list) w.

(** Two profiles that differ at most by the phone number. *)
Definition same_but_phone (p q : Profile) : Prop :=
  p_chat_id p = p_chat_id q /\ p_first_name p = p_first_name q /\
  p_username p = p_username q /\ p_created_at p = p_created_at q.

(** The functions that can be handed a message: the handlers of the
    table and the two continuations. *)
Definition entry_points (env : Env) : list (Message -> M World unit) :=
  (List.map snd (message_handlers env) ++
   [process_web_search env; chat_with_gemini env])%list.

(** A profile with its phone number set to [ph]. *)
Definition with_phone (ph : string) (u : Profile) : Profile :=
  mkProfile (p_chat_id u) (p_first_name u) (p_username u) (Some ph) (p_created_at u).

(** The profile on file for chat [c], as [find_one] sees it. *)
Definition profile_of (c : Z) (l : list Profile) : option Profile :=
  List.find (fun p => (p_chat_id p =? c)%Z) l.

Definition phone_saved : string := "✅ Phone number saved!".
Definition profile_not_found : string := "❌ Profile not found".

(** The card of "My Profile" up to the phone number. *)
Definition profile_card_head (u : Profile) : string :=
  "👤 User Profile:" ++ PyStr.nl ++
  "├ Name: " ++ p_first_name u ++ PyStr.nl ++
  "├ Username: @" ++ str_of_option (p_username u) ++ PyStr.nl ++
  "└ Phone: ".

Definition contact_message (c : Z) (ph : string) : Message :=
  mkMessage c CContact None "Ada" (Some "ada") None [] (Some ph).

(** A store with the profile of chat 7, no phone number on it. *)
Definition one_profile : World :=
  set_users (fun _ => [mkProfile 7 "Ada" (Some "ada") None 1]) fresh_world.

Definition thinking_notice : string := "🤖 Thinking...".
Definition gemini_failed : string := "⚠️ Failed to fetch a response from Gemini.".
Definition invalid_query : string := "❌ Please enter a valid query.".
Definition search_cancelled : string := "❌ Search cancelled".
Definition search_failed : string := "⚠️ Search failed. Please try again".

(** What the chat flow answers, from what the model returned. *)
Definition gemini_answer (response : option string) : string :=
  match response with
  | Some r => "💡 Gemini says:" ++ PyStr.nl ++ r
  | None => gemini_failed
  end.

(** [env] with a search gateway that raises on every call. *)
Definition with_failing_search (env : Env) : Env :=
  mkEnv (api_send env) (api_delete env) (api_get_file env) (api_download env)
        (gemini env) (fun _ _ => None) (mongo_up env) (os_open env) (os_write env)
        (image_open env) (pdf_reader env) (now env) (exn_str env) (str_lower env).

Definition send_a_pdf : string := "⚠️ Please send a PDF file".
Definition classification_failed : string := "⚠️ Failed to analyze document content".

(** What the PDF flow reports as the analysis, from what the model
    returned. *)
Definition pdf_analysis (response : option string) : string :=
  "📑 PDF Analysis:" ++ PyStr.nl ++
  match response with Some r => r | None => classification_failed end.

(** What the image flow answers after the placeholder, from what the
    model returned: the description and the invitation, or the error. *)
Definition image_answer (env : Env) (response : option string) : list string :=
  match response with
  | Some r => ["📸 Image Analysis:" ++ PyStr.nl ++ r;
               "💡 Ask follow-up questions about the image"]
  | None => ["⚠️ Error: " ++ exn_str env GatewayError]
  end.

Definition word_message (c : Z) : Message :=
  mkMessage c CDocument None "Ada" (Some "ada")
            (Some (mkDocument "application/msword" "doc-2")) [] None.

(** The texts of the pages that have one, in the order of the pages: a
    page without text, or with the empty text, has none. *)
Definition page_texts (pages : list Page) : list string :=
  flat_map (fun pg => match pg with
                      | PageText (Some (String a t)) => [String a t]
                      | _ => []
                      end) pages.

(** The texts one after the other, each followed by a newline. *)
Definition joined_lines (texts : list string) : string :=
  fold_right (fun t rest => t ++ PyStr.nl ++ rest) EmptyString texts.

(** The number of code points of a text: the bytes that do not continue
    a code point. *)
Fixpoint code_points (s : string) : nat :=
  match s with
  | EmptyString => 0
  | String a s' => (if PyStr.is_continuation a then 0 else 1) + code_points s'
  end.

(** The no-break space U+00A0 and the ideographic space U+3000, as they
    are encoded. *)
Definition nbsp : string :=
  String (ascii_of_nat 194) (String (ascii_of_nat 160) EmptyString).

Definition ideographic_space : string :=
  String (ascii_of_nat 227) (String (ascii_of_nat 128) (String (ascii_of_nat 128) EmptyString)).

Definition welcome : string := "👋 Welcome! Please share your phone number to continue.".
Definition farewell : string := "🛑 Session ended. Use /start to begin again!".
Definition request_failed : string := "⚠️ Error processing your request".

(** The question a menu entry asks before it registers its continuation. *)
Definition question_of (k : Continuation) : string :=
  match k with
  | K_process_web_search => "🔍 What would you like to search for?"
  | K_chat_with_gemini => "🤖 Ask anything to Gemini AI:"
  end.

(** The menu label behind a continuation. *)
Definition label_of (k : Continuation) : string :=
  match k with
  | K_process_web_search => "🌐 Web Search"
  | K_chat_with_gemini => "💬 Chat with Gemini"
  end.

(** The request for the phone number as it is sent to chat [c]. *)
Definition phone_request_sent (id : nat) (c : Z) : Sent :=
  mkSent id c "🔐 Please share your phone number:"
         (ReplyKeyboard true [["📱 Share Phone Number"]]).

(** The functions whose body is a [try] block with an apology in its
    [except Exception] clause. *)
Definition guarded_handlers (env : Env) : list (Message -> M World unit) :=
  [ handle_pdf env; handle_image env; process_web_search env;
    generate_sentiment_report env; show_user_profile env; save_phone_number env ].

(** [env] with a Bot API that refuses every message. *)
Definition with_refusing_api (env : Env) : Env :=
  mkEnv (fun _ _ _ => false) (api_delete env) (api_get_file env) (api_download env)
        (gemini env) (serp env) (mongo_up env) (os_open env) (os_write env)
        (image_open env) (pdf_reader env) (now env) (exn_str env) (str_lower env).

(** A byte that can stand in the encoding of a whitespace code point: a
    whitespace of one byte, or a byte outside ASCII. *)
Definition space_byte (a : ascii) : bool :=
  PyStr.is_space a || (128 <=? nat_of_ascii a)%nat.

(** Strings made of such bytes only, and strings with none of them. *)
Fixpoint all_space (s : string) : bool :=
  match s with
  | EmptyString => true
  | String a s' => space_byte a && all_space s'
  end.

Fixpoint space_free (s : string) : bool :=
  match s with
  | EmptyString => true
  | String a s' => negb (space_byte a) && space_free s'
  end.

(* ===================================================================== *)
(** ** Strings *)
(* ===================================================================== *)

Example strip_example : PyStr.strip (" Positive" ++ PyStr.nl) = "Positive".
Proof. reflexivity. Qed.

Example lower_example : PyStr.lower "Slightly POSITIVE" = "slightly positive".
Proof. reflexivity. Qed.

Example pct_two_thirds : PyFloat.format_pct0 (PyFloat.div 2 3) = "67%".
Proof. vm_compute. reflexivity. Qed.

Example pct_one_eighth : PyFloat.format_pct0 (PyFloat.div 1 8) = "12%".
Proof. vm_compute. reflexivity. Qed.

Lemma append_nil (s : string) : EmptyString ++ s = s.
Proof. reflexivity. Qed.

Lemma append_cons (a : ascii) (s t : string) : String a s ++ t = String a (s ++ t).
Proof. reflexivity. Qed.

Lemma append_assoc (a b c : string) : (a ++ b) ++ c = a ++ (b ++ c).
Proof.
  induction a as [|x a IH]; [reflexivity|].
  rewrite !append_cons. now rewrite IH.
Qed.

Lemma append_empty (s : string) : s ++ EmptyString = s.
Proof. induction s as [|a s IH]; [reflexivity|]. now rewrite append_cons, IH. Qed.

Lemma startswith_spec (s p : string) :
  PyStr.startswith s p = true <-> exists rest, s = p ++ rest.
Proof.
  revert s. induction p as [|b p IH]; intros s; simpl.
  - split; [intros _; now exists s | reflexivity].
  - destruct s as [|a s].
    + split; [discriminate | intros [rest H]; discriminate].
    + rewrite andb_true_iff, Ascii.eqb_eq, IH. split.
      * intros [-> [rest ->]]. now exists rest.
      * intros [rest H]. rewrite append_cons in H. injection H as -> ->.
        split; [reflexivity | now exists rest].
Qed.

Lemma contains_spec (needle s : string) :
  PyStr.contains needle s = true <-> is_substring needle s.
Proof.
  unfold is_substring. induction s as [|a s IH].
  - simpl. rewrite orb_false_r, startswith_spec. split.
    + intros [rest H]. exists EmptyString, rest. exact H.
    + intros [before [after H]]. destruct before; [now exists after | discriminate].
  - cbn [PyStr.contains]. rewrite orb_true_iff, startswith_spec, IH. split.
    + intros [[rest H] | [before [after H]]].
      * exists EmptyString, rest. exact H.
      * exists (String a before), after. rewrite append_cons. now rewrite H.
    + intros [before [after H]]. destruct before as [|b before].
      * left. now exists after.
      * right. rewrite append_cons in H. injection H as -> ->. now exists before, after.
Qed.

#[global] Instance is_substring_dec (needle s : string) : Decision (is_substring needle s).
Proof.
  destruct (PyStr.contains needle s) eqn:E.
  - left. now apply contains_spec.
  - right. intros H. apply contains_spec in H. congruence.
Defined.

(* ===================================================================== *)
(** ** The percentage *)
(* ===================================================================== *)

(** [percent_exact k n] is an integer nearest to [100 * k / n]. *)
Lemma percent_exact_nearest (k n : nat) :
  0 < n ->
  (2 * Z.abs (100 * Z.of_nat k - Z.of_nat n * Z.of_nat (PyFloat.percent_exact k n))
   <= Z.of_nat n)%Z.
Proof.
  intros Hn. unfold PyFloat.percent_exact.
  pose proof (Nat.div_mod_eq (100 * k) n) as E.
  pose proof (Nat.mod_upper_bound (100 * k) n ltac:(lia)) as B.
  set (q := (100 * k / n)%nat) in *. set (r := ((100 * k) mod n)%nat) in *.
  assert (EZ : (100 * Z.of_nat k = Z.of_nat n * Z.of_nat q + Z.of_nat r)%Z) by lia.
  destruct (2 * r <? n)%nat eqn:H1; [apply Nat.ltb_lt in H1 | apply Nat.ltb_ge in H1].
  - replace (100 * Z.of_nat k - Z.of_nat n * Z.of_nat q)%Z with (Z.of_nat r) by lia. lia.
  - destruct (n <? 2 * r)%nat eqn:H2; [apply Nat.ltb_lt in H2 | apply Nat.ltb_ge in H2].
    + replace (100 * Z.of_nat k - Z.of_nat n * Z.of_nat (q + 1))%Z
        with (Z.of_nat r - Z.of_nat n)%Z by lia. lia.
    + destruct (Nat.even q).
      * replace (100 * Z.of_nat k - Z.of_nat n * Z.of_nat q)%Z with (Z.of_nat r) by lia. lia.
      * replace (100 * Z.of_nat k - Z.of_nat n * Z.of_nat (q + 1))%Z
          with (Z.of_nat r - Z.of_nat n)%Z by lia. lia.
Qed.

Lemma format_pct0_exact (k n : nat) :
  1 <= n <= 10 -> k <= n ->
  PyFloat.format_pct0 (PyFloat.div k n) = PyStr.of_nat (PyFloat.percent_exact k n) ++ "%".
Proof.
  intros Hn Hk.
  assert (T : pct_table_ok = true) by (vm_compute; reflexivity).
  unfold pct_table_ok in T. rewrite forallb_forall in T.
  specialize (T n ltac:(apply in_seq; lia)). rewrite forallb_forall in T.
  specialize (T k ltac:(apply in_seq; lia)). now apply String.eqb_eq in T.
Qed.

(* ===================================================================== *)
(** ** The sorted, limited query *)
(* ===================================================================== *)

Lemma insert_desc_perm (r : SentimentRecord) (l : list SentimentRecord) :
  Permutation (insert_desc r l) (r :: l).
Proof.
  induction l as [|x l IH]; simpl; [reflexivity|].
  destruct (r_timestamp x <=? r_timestamp r)%Z; [reflexivity|].
  rewrite IH. apply perm_swap.
Qed.

Lemma sort_desc_perm (l : list SentimentRecord) : Permutation (sort_desc l) l.
Proof.
  induction l as [|x l IH]; simpl; [reflexivity|].
  rewrite insert_desc_perm. now constructor.
Qed.

Lemma insert_desc_sorted (r : SentimentRecord) (l : list SentimentRecord) :
  newest_first l -> newest_first (insert_desc r l).
Proof.
  unfold newest_first. induction 1 as [|x l Hl IH Hx]; simpl.
  - repeat constructor.
  - destruct (r_timestamp x <=? r_timestamp r)%Z eqn:E.
    + apply Z.leb_le in E. constructor; [now constructor|].
      constructor; [exact E|].
      rewrite List.Forall_forall in Hx |- *. intros y Hy. specialize (Hx y Hy). lia.
    + apply Z.leb_gt in E. constructor; [exact IH|].
      rewrite List.Forall_forall in Hx |- *. intros y Hy.
      apply (Permutation_in _ (insert_desc_perm r l)) in Hy.
      destruct Hy as [<- | Hy]; [lia | now apply Hx].
Qed.

Lemma sort_desc_sorted (l : list SentimentRecord) : newest_first (sort_desc l).
Proof.
  induction l as [|x l IH]; simpl; [constructor | now apply insert_desc_sorted].
Qed.

Lemma newest_first_app (l1 l2 : list SentimentRecord) :
  newest_first (l1 ++ l2) ->
  newest_first l1 /\
  forall r r', In r l1 -> In r' l2 -> (r_timestamp r' <= r_timestamp r)%Z.
Proof.
  unfold newest_first. induction l1 as [|x l1 IH]; simpl; intros H.
  - split; [constructor | intros r r' []].
  - apply StronglySorted_inv in H as [H Hx]. destruct (IH H) as [S1 C]. split.
    + constructor; [exact S1|].
      rewrite List.Forall_forall in Hx |- *. intros y Hy. apply Hx, in_or_app. now left.
    + intros r r' [<- | Hr] Hr'.
      * rewrite List.Forall_forall in Hx. apply Hx, in_or_app. now right.
      * now apply C.
Qed.

(** What the query of the report returns. *)
Lemma find_recent_most_recent (c : Z) (n : nat) (all : list SentimentRecord) :
  most_recent c n all (find_recent c n all).
Proof.
  unfold most_recent, find_recent. fold (of_chat c all).
  pose proof (sort_desc_sorted (of_chat c all)) as S.
  pose proof (sort_desc_perm (of_chat c all)) as P.
  rewrite <- (firstn_skipn n (sort_desc (of_chat c all))) in S.
  apply newest_first_app in S as [S1 C].
  split; [exact S1|]. split.
  - rewrite List.length_firstn. now rewrite (Permutation_length P).
  - exists (skipn n (sort_desc (of_chat c all))). split; [|exact C].
    now rewrite firstn_skipn.
Qed.

Lemma find_recent_nil (c : Z) (n : nat) (all : list SentimentRecord) :
  (forall r, In r all -> r_chat_id r <> c) -> find_recent c n all = [].
Proof.
  intros H. unfold find_recent.
  replace (List.filter (fun r => (r_chat_id r =? c)%Z) all) with (@nil SentimentRecord).
  - now destruct n.
  - symmetry. induction all as [|x l IH]; simpl; [reflexivity|].
    destruct (Z.eqb_spec (r_chat_id x) c) as [E|E].
    + exfalso. apply (H x); [now left | exact E].
    + apply IH. intros r Hr. apply H. now right.
Qed.

Lemma find_recent_length (c : Z) (n : nat) (all : list SentimentRecord) :
  List.length (find_recent c n all) <= n.
Proof. unfold find_recent. rewrite List.length_firstn. lia. Qed.

Lemma count_label_le (word : string) (l : list SentimentRecord) :
  count_label word l <= List.length l.
Proof. unfold count_label. apply List.filter_length_le. Qed.

(** The counters in the vocabulary of substrings. *)
Lemma count_label_spec (word : string) (l : list SentimentRecord) :
  count_label word l =
  List.length (List.filter (fun r => bool_decide (is_substring word (r_sentiment r))) l).
Proof.
  unfold count_label. f_equal. apply List.filter_ext. intros r.
  destruct (PyStr.contains word (r_sentiment r)) eqn:E.
  - symmetry. apply bool_decide_eq_true. now apply contains_spec.
  - symmetry. apply bool_decide_eq_false. intros H. apply contains_spec in H. congruence.
Qed.

Lemma mood_pattern_spec (positive negative : nat) :
  (mood_pattern positive negative = "😊 Mostly Positive" <-> negative < positive) /\
  (mood_pattern positive negative = "😟 Needs Support" <-> positive < negative) /\
  (mood_pattern positive negative = "⚖️ Balanced Emotions" <-> positive = negative).
Proof.
  unfold mood_pattern.
  destruct (Nat.ltb_spec negative positive); [|destruct (Nat.ltb_spec positive negative)];
    repeat split; intros; try lia; try reflexivity; try discriminate.
Qed.

(* ===================================================================== *)
(** ** Running the collaborators *)
(* ===================================================================== *)

Lemma send_message_ok (env : Env) (chat : Z) (txt : string) (opts : SendOpts) (w : World) :
  api_send env (tick w) chat txt = true ->
  send_message env chat txt opts w =
    (push_sent (mkSent (next_message_id w) chat txt opts) (bump_tick w),
     Ret (mkSent (next_message_id w) chat txt opts)).
Proof. intros H. unfold send_message, bind, oracle_step. simpl. now rewrite H. Qed.

Lemma send_message_refused (env : Env) (chat : Z) (txt : string) (opts : SendOpts) (w : World) :
  api_send env (tick w) chat txt = false ->
  send_message env chat txt opts w = (bump_tick w, Raise ApiException).
Proof. intros H. unfold send_message, bind, oracle_step. simpl. now rewrite H. Qed.

(** A send either files the message and returns it, or raises
    [ApiException]; in both cases it takes one oracle step and touches
    nothing but the outbox. *)
Lemma send_message_cases (env : Env) (chat : Z) (txt : string) (opts : SendOpts) (w : World) :
  send_message env chat txt opts w =
    (push_sent (mkSent (next_message_id w) chat txt opts) (bump_tick w),
     Ret (mkSent (next_message_id w) chat txt opts))
  \/ send_message env chat txt opts w = (bump_tick w, Raise ApiException).
Proof.
  destruct (api_send env (tick w) chat txt) eqn:E.
  - left. now apply send_message_ok.
  - right. now apply send_message_refused.
Qed.

Lemma true_div_pos (k n : nat) (w : World) :
  0 < n -> true_div k n w = (w, Ret (PyFloat.div k n)).
Proof. intros H. unfold true_div. destruct n; [lia | reflexivity]. Qed.

Lemma render_report_pos (positive neutral negative total : nat) (w : World) :
  0 < total ->
  exists txt, render_report positive neutral negative total w = (w, Ret txt) /\
    txt = (PyStr.nl ++
         "📈 Emotional Analysis (Last " ++ PyStr.of_nat total ++ " messages):" ++ PyStr.nl ++
         "✅ Positive: " ++ PyStr.of_nat positive ++
           " (" ++ PyFloat.format_pct0 (PyFloat.div positive total) ++ ")" ++ PyStr.nl ++
         "🔄 Neutral: " ++ PyStr.of_nat neutral ++
           " (" ++ PyFloat.format_pct0 (PyFloat.div neutral total) ++ ")" ++ PyStr.nl ++
         "❌ Negative: " ++ PyStr.of_nat negative ++
           " (" ++ PyFloat.format_pct0 (PyFloat.div negative total) ++ ")" ++ PyStr.nl ++
         PyStr.nl ++
         "💡 Mood Pattern: " ++ mood_pattern positive negative ++ PyStr.nl ++
         indent).
Proof.
  intros H. eexists. split; [|reflexivity].
  unfold render_report, bind. rewrite !true_div_pos by exact H. reflexivity.
Qed.

(** With at most ten records the report of the source is the report of
    the exact percentages. *)
Lemma render_report_exact (positive neutral negative total : nat) (w : World) :
  1 <= total <= 10 -> positive <= total -> neutral <= total -> negative <= total ->
  render_report positive neutral negative total w =
    (w, Ret (report_text total
               positive (PyFloat.percent_exact positive total)
               neutral (PyFloat.percent_exact neutral total)
               negative (PyFloat.percent_exact negative total)
               (mood_pattern positive negative))).
Proof.
  intros Ht Hp Hn Hg.
  destruct (render_report_pos positive neutral negative total w ltac:(lia)) as [txt [-> ->]].
  rewrite !format_pct0_exact by assumption.
  unfold report_text. rewrite !append_assoc. reflexivity.
Qed.

Lemma count_label_map (word : string) (l : list SentimentRecord) :
  count_label word l =
  List.length (List.filter (PyStr.contains word) (List.map r_sentiment l)).
Proof.
  unfold count_label. induction l as [|r l IH]; simpl; [reflexivity|].
  destruct (PyStr.contains word (r_sentiment r)); simpl; now rewrite IH.
Qed.

Lemma report_of_labels (l l' : list SentimentRecord) :
  List.map r_sentiment l = List.map r_sentiment l' -> report_of l = report_of l'.
Proof.
  intros E. unfold report_of. rewrite !count_label_map, E.
  now rewrite <- (List.length_map r_sentiment l), E, List.length_map.
Qed.

(** The [try] block of the report on a chat that has records. *)
Lemma sentiment_report_body_run (env : Env) (chat : Z) (w : World) :
  mongo_up env (tick w) = true ->
  find_recent chat 10 (sentiments_collection w) <> [] ->
  api_send env (S (tick w)) chat
           (report_of (find_recent chat 10 (sentiments_collection w))) = true ->
  sentiment_report_body env chat w =
    (push_sent (mkSent (next_message_id w) chat
                       (report_of (find_recent chat 10 (sentiments_collection w))) Plain)
               (bump_tick (bump_tick w)),
     Ret tt).
Proof.
  intros Hup Hne Hsend.
  pose proof (find_recent_length chat 10 (sentiments_collection w)) as Hlen.
  unfold sentiment_report_body, sentiments_find, mongo, bind, oracle_step, gets. simpl.
  rewrite Hup. simpl.
  destruct (find_recent chat 10 (sentiments_collection w)) as [|r rest] eqn:E; [congruence|].
  rewrite render_report_exact;
    [| simpl in *; lia | apply count_label_le | apply count_label_le | apply count_label_le ].
  fold (report_of (r :: rest)).
  rewrite send_message_ok by exact Hsend. reflexivity.
Qed.

(** C1. For every chat the report is computed over the ten most recent
    records of the chat, newest first; each counter counts the fetched
    records whose label has the word as a substring; the total is the
    number of fetched records; each percentage is the counter as an
    integer percent of the total (an integer nearest to the quotient); a
    record whose label has none of the three words adds to the total and
    to no counter, so that the percentages need not add up to 100 (for
    such a record alone they add up to 0); the mood line is "Mostly
    Positive" exactly when positive > negative, "Needs Support" exactly
    when negative > positive, and "Balanced" otherwise; and for records
    labelled positive, positive, negative the report shows 2 (67%),
    0 (0%), 1 (33%) and "Mostly Positive". *)
Theorem sentiment_report_over_recent (env : Env) (w : World) (message : Message) :
  mongo_up env (tick w) = true ->
  find_recent (chat_id message) 10 (sentiments_collection w) <> [] ->
  api_send env (S (tick w)) (chat_id message)
    (report_of (find_recent (chat_id message) 10 (sentiments_collection w))) = true ->
  exists fetched,
    fetched = find_recent (chat_id message) 10 (sentiments_collection w) /\
    most_recent (chat_id message) 10 (sentiments_collection w) fetched /\
    generate_sentiment_report env message w =
      (push_sent (mkSent (next_message_id w) (chat_id message) (report_of fetched) Plain)
                 (bump_tick (bump_tick w)),
       Ret tt) /\
    (forall word,
       count_label word fetched =
       List.length (List.filter
                      (fun r => bool_decide (is_substring word (r_sentiment r))) fetched)) /\
    (forall word,
       (2 * Z.abs (100 * Z.of_nat (count_label word fetched)
                   - Z.of_nat (List.length fetched)
                     * Z.of_nat (PyFloat.percent_exact (count_label word fetched)
                                                       (List.length fetched)))
        <= Z.of_nat (List.length fetched))%Z) /\
    (forall r rest,
       ~ is_substring "positive" (r_sentiment r) ->
       ~ is_substring "neutral" (r_sentiment r) ->
       ~ is_substring "negative" (r_sentiment r) ->
       List.length (r :: rest) = S (List.length rest) /\
       count_label "positive" (r :: rest) = count_label "positive" rest /\
       count_label "neutral" (r :: rest) = count_label "neutral" rest /\
       count_label "negative" (r :: rest) = count_label "negative" rest /\
       PyFloat.percent_exact (count_label "positive" [r]) (List.length [r])
       + PyFloat.percent_exact (count_label "neutral" [r]) (List.length [r])
       + PyFloat.percent_exact (count_label "negative" [r]) (List.length [r]) <> 100) /\
    (forall positive negative,
       (mood_pattern positive negative = "😊 Mostly Positive" <-> negative < positive) /\
       (mood_pattern positive negative = "😟 Needs Support" <-> positive < negative) /\
       (mood_pattern positive negative = "⚖️ Balanced Emotions" <-> positive = negative)) /\
    (List.map r_sentiment fetched = ["positive"; "positive"; "negative"] ->
     report_of fetched = report_two_to_one).
Proof.
  intros Hup Hne Hsend.
  exists (find_recent (chat_id message) 10 (sentiments_collection w)).
  split; [reflexivity|].
  split; [apply find_recent_most_recent|].
  split.
  { unfold generate_sentiment_report, try_except.
    now rewrite sentiment_report_body_run. }
  split; [intros word; apply count_label_spec|].
  split.
  { intros word. apply percent_exact_nearest.
    destruct (find_recent (chat_id message) 10 (sentiments_collection w));
      [congruence | simpl; lia]. }
  split.
  { intros r rest Hp Hn Hg. split; [reflexivity|].
    unfold count_label. simpl.
    rewrite <- contains_spec in Hp, Hn, Hg.
    apply not_true_is_false in Hp, Hn, Hg. rewrite Hp, Hn, Hg.
    repeat (split; [reflexivity|]). vm_compute. discriminate. }
  split; [apply mood_pattern_spec|].
  intros E.
  rewrite (report_of_labels _ [mkSentiment 0 "" "positive" 0; mkSentiment 0 "" "positive" 0;
                               mkSentiment 0 "" "negative" 0]) by exact E.
  vm_compute. reflexivity.
Qed.

Lemma sentiment_report_over_recent_witness :
  generate_sentiment_report (calm_env "" [] []) (text_message 7 "📊 Sentiment Report")
                            three_records =
    (push_sent (mkSent 0 7 report_two_to_one Plain) (bump_tick (bump_tick three_records)),
     Ret tt).
Proof.
  destruct (sentiment_report_over_recent (calm_env "" [] [])
              three_records (text_message 7 "📊 Sentiment Report"))
    as [fetched [Ef [_ [Hrun [_ [_ [_ [_ Hex]]]]]]]].
  - reflexivity.
  - vm_compute. discriminate.
  - reflexivity.
  - rewrite Hrun, Hex; [reflexivity | rewrite Ef; vm_compute; reflexivity].
Defined.

Lemma truthy_nonempty (s : string) : s <> EmptyString -> PyStr.truthy s = true.
Proof. destruct s; [congruence | reflexivity]. Qed.

(** The [try] block of the report never divides by zero. *)
Lemma sentiment_report_body_no_zero_division (env : Env) (chat : Z) (w : World) :
  snd (sentiment_report_body env chat w) <> Raise ZeroDivisionError.
Proof.
  unfold sentiment_report_body, sentiments_find, mongo, bind, oracle_step, gets. simpl.
  destruct (mongo_up env (tick w)); simpl; [|discriminate].
  destruct (find_recent chat 10 (sentiments_collection w)) as [|r rest].
  - destruct (send_message_cases env chat start_chatting Plain (bump_tick w)) as [-> | ->];
      simpl; discriminate.
  - destruct (render_report_pos (count_label "positive" (r :: rest))
                (count_label "neutral" (r :: rest)) (count_label "negative" (r :: rest))
                (List.length (r :: rest)) (bump_tick w) ltac:(simpl; lia)) as [txt [-> _]].
    destruct (send_message_cases env chat txt Plain (bump_tick w)) as [-> | ->];
      simpl; discriminate.
Qed.

(** C9. For a chat with no sentiment record the report is the "start
    chatting" prompt: the handler asks the store, sends that one message
    and returns, without reaching any division; and whatever the history,
    the report never raises a division by zero. *)
Theorem empty_history_start_chatting (env : Env) (w : World) (message : Message) :
  (forall r, In r (sentiments_collection w) -> r_chat_id r <> chat_id message) ->
  mongo_up env (tick w) = true ->
  api_send env (S (tick w)) (chat_id message) start_chatting = true ->
  generate_sentiment_report env message w =
    (push_sent (mkSent (next_message_id w) (chat_id message) start_chatting Plain)
               (bump_tick (bump_tick w)),
     Ret tt)
  /\ (forall env' chat w', snd (sentiment_report_body env' chat w') <> Raise ZeroDivisionError).
Proof.
  intros Hnone Hup Hsend. split.
  - unfold generate_sentiment_report, try_except, sentiment_report_body,
      sentiments_find, mongo, bind, oracle_step, gets. simpl.
    rewrite Hup. simpl. rewrite (find_recent_nil _ _ _ Hnone).
    rewrite send_message_ok by exact Hsend. reflexivity.
  - intros env' chat w'. apply sentiment_report_body_no_zero_division.
Qed.

Lemma empty_history_start_chatting_witness :
  generate_sentiment_report (calm_env "" [] []) (text_message 9 "📊 Sentiment Report")
                            three_records =
    (push_sent (mkSent 0 9 start_chatting Plain) (bump_tick (bump_tick three_records)),
     Ret tt).
Proof.
  apply (empty_history_start_chatting (calm_env "" [] []) three_records
           (text_message 9 "📊 Sentiment Report")).
  - intros r Hr. simpl in Hr.
    repeat (destruct Hr as [<- | Hr]; [simpl; discriminate|]). destruct Hr.
  - reflexivity.
  - reflexivity.
Defined.

(* ===================================================================== *)
(** ** Sentiment analysis *)
(* ===================================================================== *)

(** Symbolic execution: the combinators of the monad, the collaborators
    other than [send_message], and the accessors of the state are unfolded
    and the redexes they leave are contracted. *)
Ltac run_once :=
  cbv beta iota zeta delta
    [bind ret raise gets finish modify try_except try_except_all try_finally
     lift with_frame read_local write_local is_Exception
     oracle_step delete_message get_file download_file generate_content
     organic_results datetime_now mongo users_find_one users_insert_one
     users_update_phone sentiments_insert_one sentiments_find
     write_file os_remove pdf_pages register_next_step_handler text_strip
     last_photo pil_open
     set_users set_sentiments push_sent push_deleted set_files set_next_step
     push_gateway_call set_polling bump_tick
     negb orb andb];
  cbn [users_collection sentiments_collection outbox deleted next_message_id
       files next_step gateway_calls polling tick
       pdf_processing_msg pdf_path message_id sent_chat fst snd PyStr.truthy].

Ltac run := run_once; repeat (progress run_once).

Ltac run_in H :=
  cbv beta iota zeta delta
    [set_users set_sentiments push_sent push_deleted set_files set_next_step
     push_gateway_call set_polling bump_tick] in H;
  cbn [users_collection sentiments_collection outbox deleted next_message_id
       files next_step gateway_calls polling tick fst snd] in H.

(** One send: both ways it can end. *)
Ltac send_cases :=
  match goal with
  | |- context [send_message ?env ?c ?x ?o ?w0] =>
      let E := fresh "Esend" in
      destruct (api_send env (tick w0) c x) eqn:E;
      [rewrite (send_message_ok env c x o w0 E)
      |rewrite (send_message_refused env c x o w0 E)];
      run; run_in E
  end.

(** A run of the sentiment handler on a message that passes its guard,
    when the model answers [raw] and the store takes the record. *)
Lemma analyze_sentiment_run (env : Env) (w : World) (message : Message) (t raw : string) :
  text message = Some t ->
  PyStr.strip t <> EmptyString ->
  PyStr.startswith (PyStr.strip t) "/" = false ->
  gemini env (tick w) (TextPrompt (sentiment_prompt (PyStr.strip t))) = Some raw ->
  mongo_up env (S (S (tick w))) = true ->
  exists w',
    analyze_sentiment env message w = (w', Ret tt) /\
    sentiments_collection w' =
      (sentiments_collection w ++
       [mkSentiment (chat_id message) (PyStr.strip t) (str_lower env (PyStr.strip raw))
                    (now env (S (tick w)))])%list /\
    gateway_calls w' =
      (gateway_calls w ++ [TextPrompt (sentiment_prompt (PyStr.strip t))])%list /\
    (api_send env (S (S (S (tick w)))) (chat_id message)
              (sentiment_reply (str_lower env (PyStr.strip raw))) = true ->
     outbox w' =
       (outbox w ++
        [mkSent (next_message_id w) (chat_id message)
                (sentiment_reply (str_lower env (PyStr.strip raw))) Plain])%list) /\
    (api_send env (S (S (S (tick w)))) (chat_id message)
              (sentiment_reply (str_lower env (PyStr.strip raw))) = false ->
     outbox w' = outbox w).
Proof.
  intros Ht Hne Hcmd Hraw Hup.
  unfold analyze_sentiment. run. rewrite Ht. run.
  rewrite (truthy_nonempty _ Hne), Hcmd. run.
  rewrite Hraw. run. rewrite Hup. run.
  send_cases; eexists; (split; [reflexivity|]); run;
    repeat split; try reflexivity; intros E'; congruence.
Qed.

Lemma sentiment_reply_cases (label : string) :
  (is_substring "positive" label -> sentiment_reply label = positive_reply) /\
  (~ is_substring "positive" label -> is_substring "negative" label ->
   sentiment_reply label = negative_reply) /\
  (~ is_substring "positive" label -> ~ is_substring "negative" label ->
   sentiment_reply label = neutral_reply).
Proof.
  unfold sentiment_reply. rewrite <- !contains_spec.
  destruct (PyStr.contains "positive" label), (PyStr.contains "negative" label);
    repeat split; intros; congruence.
Qed.

(** C2, as amended.  For every text message whose text, once the
    surrounding whitespace is trimmed, is not empty and does not start with
    "/", when the model answers and the store takes the record: the handler
    trims and lower-cases the answer into the label, persists a record with
    that label whichever reply follows (and whether or not the reply can be
    delivered), and replies by containment: the positive reply when the
    label contains "positive", else the negative reply when it contains
    "negative", else the neutral reply; "slightly positive and hopeful" is
    answered as positive. *)
Theorem sentiment_by_containment
        (env : Env) (w : World) (message : Message) (t raw : string) :
  text message = Some t ->
  PyStr.strip t <> EmptyString ->
  PyStr.startswith (PyStr.strip t) "/" = false ->
  gemini env (tick w) (TextPrompt (sentiment_prompt (PyStr.strip t))) = Some raw ->
  mongo_up env (S (S (tick w))) = true ->
  exists w' label reply,
    label = str_lower env (PyStr.strip raw) /\
    analyze_sentiment env message w = (w', Ret tt) /\
    sentiments_collection w' =
      (sentiments_collection w ++
       [mkSentiment (chat_id message) (PyStr.strip t) label (now env (S (tick w)))])%list /\
    (api_send env (S (S (S (tick w)))) (chat_id message) reply = true ->
     outbox w' = (outbox w ++ [mkSent (next_message_id w) (chat_id message) reply Plain])%list) /\
    (api_send env (S (S (S (tick w)))) (chat_id message) reply = false ->
     outbox w' = outbox w) /\
    (is_substring "positive" label -> reply = positive_reply) /\
    (~ is_substring "positive" label -> is_substring "negative" label ->
     reply = negative_reply) /\
    (~ is_substring "positive" label -> ~ is_substring "negative" label ->
     reply = neutral_reply) /\
    (label = "slightly positive and hopeful" -> reply = positive_reply).
Proof.
  intros Ht Hne Hcmd Hraw Hup.
  destruct (analyze_sentiment_run env w message t raw Ht Hne Hcmd Hraw Hup)
    as [w' [Hrun [Hrec [_ [Hsent Hlost]]]]].
  exists w', (str_lower env (PyStr.strip raw)),
         (sentiment_reply (str_lower env (PyStr.strip raw))).
  pose proof (sentiment_reply_cases (str_lower env (PyStr.strip raw))) as [Hp [Hn Hz]].
  repeat (split; [assumption || reflexivity|]).
  intros ->. reflexivity.
Qed.

Lemma sentiment_by_containment_witness :
  exists w',
    analyze_sentiment (calm_env "Slightly positive and hopeful" [] [])
                      (text_message 7 "  what a day ") fresh_world = (w', Ret tt) /\
    sentiments_collection w' =
      [mkSentiment 7 "what a day" "slightly positive and hopeful" 1] /\
    outbox w' = [mkSent 0 7 positive_reply Plain].
Proof.
  destruct (sentiment_by_containment (calm_env "Slightly positive and hopeful" [] [])
              fresh_world (text_message 7 "  what a day ")
              "  what a day " "Slightly positive and hopeful")
    as [w' [label [reply [El [Hrun [Hrec [Hsent [_ [_ [_ [_ Hex]]]]]]]]]]].
  - reflexivity.
  - vm_compute. discriminate.
  - reflexivity.
  - reflexivity.
  - reflexivity.
  - exists w'. split; [exact Hrun|]. split.
    + rewrite Hrec, El. reflexivity.
    + rewrite Hsent by reflexivity. rewrite (Hex El). reflexivity.
Defined.

(** The claim C2 as it is worded fails on texts that only the trimming
    makes empty or makes commands, and on answers with surrounding
    whitespace: the text " /help" is not empty and does not start with "/",
    the model would answer "Positive", yet the handler does nothing at all;
    and for the answer " Positive" followed by a newline, the label
    persisted is "positive", which is not the lower-cased answer. *)
Lemma sentiment_untrimmed_counterexample :
  (" /help" <> EmptyString /\
   PyStr.startswith " /help" "/" = false /\
   analyze_sentiment (calm_env "Positive" [] []) (text_message 7 " /help") fresh_world
     = (fresh_world, Ret tt) /\
   outbox fresh_world = [] /\
   sentiments_collection fresh_world = [] /\
   gateway_calls fresh_world = []) /\
  (sentiments_collection
     (fst (analyze_sentiment (calm_env (" Positive" ++ PyStr.nl) [] [])
                             (text_message 7 "hello") fresh_world))
     = [mkSentiment 7 "hello" "positive" 1] /\
   "positive" <> PyStr.lower (" Positive" ++ PyStr.nl)).
Proof.
  split; [split; [discriminate | repeat split; reflexivity]|].
  split; [reflexivity | vm_compute; discriminate].
Qed.

Lemma count_label_insert (word : string) (before after : list SentimentRecord)
      (r : SentimentRecord) :
  PyStr.contains word (r_sentiment r) = true ->
  count_label word (before ++ r :: after) = S (count_label word (before ++ after)).
Proof.
  intros H. unfold count_label. rewrite !List.filter_app, !List.length_app.
  simpl. rewrite H. simpl. lia.
Qed.

(** C10.  For every label that contains both "positive" and "negative":
    the handler answers with the positive reply (the positive branch is
    tested first) and files the record; a report that fetches the record
    counts it in its positive and in its negative counter; and the report
    over that record alone shows a total of 1 with Positive: 1 (100%) and
    Negative: 1 (100%), so the three counters add up to more than the
    total. *)
Theorem both_words_counted_twice
        (env : Env) (w : World) (message : Message) (t raw : string) :
  is_substring "positive" (str_lower env (PyStr.strip raw)) ->
  is_substring "negative" (str_lower env (PyStr.strip raw)) ->
  text message = Some t ->
  PyStr.strip t <> EmptyString ->
  PyStr.startswith (PyStr.strip t) "/" = false ->
  gemini env (tick w) (TextPrompt (sentiment_prompt (PyStr.strip t))) = Some raw ->
  mongo_up env (S (S (tick w))) = true ->
  api_send env (S (S (S (tick w)))) (chat_id message) positive_reply = true ->
  exists w' r,
    r = mkSentiment (chat_id message) (PyStr.strip t) (str_lower env (PyStr.strip raw))
                    (now env (S (tick w))) /\
    analyze_sentiment env message w = (w', Ret tt) /\
    outbox w' = (outbox w ++ [mkSent (next_message_id w) (chat_id message)
                                     positive_reply Plain])%list /\
    sentiments_collection w' = (sentiments_collection w ++ [r])%list /\
    (forall env2 w2 asker before after,
       find_recent (chat_id asker) 10 (sentiments_collection w2)
         = (before ++ r :: after)%list ->
       mongo_up env2 (tick w2) = true ->
       api_send env2 (S (tick w2)) (chat_id asker)
                (report_of (before ++ r :: after)) = true ->
       generate_sentiment_report env2 asker w2 =
         (push_sent (mkSent (next_message_id w2) (chat_id asker)
                            (report_of (before ++ r :: after)) Plain)
                    (bump_tick (bump_tick w2)),
          Ret tt) /\
       count_label "positive" (before ++ r :: after)
         = S (count_label "positive" (before ++ after)) /\
       count_label "negative" (before ++ r :: after)
         = S (count_label "negative" (before ++ after))) /\
    (forall env2 w2 asker,
       find_recent (chat_id asker) 10 (sentiments_collection w2) = [r] ->
       mongo_up env2 (tick w2) = true ->
       (forall txt, api_send env2 (S (tick w2)) (chat_id asker) txt = true) ->
       exists neutral neu_pct,
         neutral = count_label "neutral" [r] /\
         neu_pct = PyFloat.percent_exact neutral 1 /\
         generate_sentiment_report env2 asker w2 =
           (push_sent (mkSent (next_message_id w2) (chat_id asker)
                              (report_text 1 1 100 neutral neu_pct 1 100
                                           "⚖️ Balanced Emotions") Plain)
                      (bump_tick (bump_tick w2)),
            Ret tt) /\
         1 < 1 + neutral + 1).
Proof.
  intros Hp Hn Ht Hne Hcmd Hraw Hup Hsend.
  destruct (analyze_sentiment_run env w message t raw Ht Hne Hcmd Hraw Hup)
    as [w' [Hrun [Hrec [_ [Hsent _]]]]].
  pose proof (sentiment_reply_cases (str_lower env (PyStr.strip raw))) as [Hr _].
  rewrite (Hr Hp) in Hsent.
  apply contains_spec in Hp, Hn.
  eexists w', _. split; [reflexivity|].
  split; [exact Hrun|]. split; [now apply Hsent|]. split; [exact Hrec|].
  split.
  - intros env2 w2 asker before after Hfetched Hup2 Hsend2. split; [|split].
    + unfold generate_sentiment_report, try_except.
      rewrite sentiment_report_body_run; rewrite ?Hfetched;
        [reflexivity | exact Hup2 | now destruct before | exact Hsend2].
    + now apply count_label_insert.
    + now apply count_label_insert.
  - intros env2 w2 asker Hfetched Hup2 Hsend2.
    set (r := mkSentiment (chat_id message) (PyStr.strip t)
                          (str_lower env (PyStr.strip raw)) (now env (S (tick w)))) in *.
    exists (count_label "neutral" [r]), (PyFloat.percent_exact (count_label "neutral" [r]) 1).
    split; [reflexivity|]. split; [reflexivity|]. split; [|lia].
    assert (Hpos : count_label "positive" [r] = 1)
      by (unfold count_label; cbn [List.filter r_sentiment r]; rewrite Hp; reflexivity).
    assert (Hneg : count_label "negative" [r] = 1)
      by (unfold count_label; cbn [List.filter r_sentiment r]; rewrite Hn; reflexivity).
    unfold generate_sentiment_report, try_except.
    rewrite sentiment_report_body_run; rewrite ?Hfetched;
      [ | exact Hup2 | discriminate | apply Hsend2 ].
    unfold report_of. rewrite Hpos, Hneg. reflexivity.
Qed.

Lemma both_words_counted_twice_witness :
  exists w',
    analyze_sentiment (calm_env "Neither positive nor negative" [] [])
                      (text_message 7 "so-so") fresh_world = (w', Ret tt) /\
    outbox w' = [mkSent 0 7 positive_reply Plain] /\
    generate_sentiment_report (calm_env "" [] []) (text_message 7 "📊 Sentiment Report") w' =
      (push_sent (mkSent (next_message_id w') 7
                         (report_text 1 1 100 0 0 1 100 "⚖️ Balanced Emotions") Plain)
                 (bump_tick (bump_tick w')),
       Ret tt).
Proof.
  destruct (both_words_counted_twice (calm_env "Neither positive nor negative" [] [])
              fresh_world (text_message 7 "so-so") "so-so" "Neither positive nor negative")
    as [w' [r [Er [Hrun [Hout [Hrec [_ Hone]]]]]]].
  - apply contains_spec. reflexivity.
  - apply contains_spec. reflexivity.
  - reflexivity.
  - vm_compute. discriminate.
  - reflexivity.
  - reflexivity.
  - reflexivity.
  - reflexivity.
  - exists w'. split; [exact Hrun|]. split; [exact Hout|].
    destruct (Hone (calm_env "" [] []) w' (text_message 7 "📊 Sentiment Report"))
      as [neutral [neu_pct [Eneutral [Epct [Hreport _]]]]].
    + rewrite Hrec, Er. reflexivity.
    + assert (E : fst (analyze_sentiment (calm_env "Neither positive nor negative" [] [])
                         (text_message 7 "so-so") fresh_world) = w')
        by (rewrite Hrun; reflexivity).
      rewrite <- E. reflexivity.
    + intros txt. reflexivity.
    + rewrite Hreport, Epct, Eneutral, Er. reflexivity.
Defined.


(* ===================================================================== *)
(** ** Web search *)
(* ===================================================================== *)

(** Formatting a result can fail in one way only. *)
Lemma result_lines_raises (i : nat) (l : list SearchResult) (e : exn) :
  result_lines i l = Raise e -> e = KeyError.
Proof.
  revert i. induction l as [|r l IH]; intros i; cbn [result_lines]; [discriminate|].
  unfold result_line.
  destruct (res_title r); [|congruence].
  destruct (res_link r); [|congruence].
  destruct (result_lines (S i) l) eqn:E; [discriminate|].
  intros H. injection H as <-. exact (IH _ E).
Qed.

(** One result without a title or without a link makes the whole list fail. *)
Lemma result_lines_missing (i : nat) (l : list SearchResult) (r : SearchResult) :
  List.In r l -> res_title r = None \/ res_link r = None ->
  result_lines i l = Raise KeyError.
Proof.
  revert i. induction l as [|q l IH]; intros i Hin Hmiss; [destruct Hin|].
  cbn [result_lines].
  destruct (result_line i q) as [line|e] eqn:Eq.
  - destruct Hin as [-> | Hin].
    + unfold result_line in Eq.
      destruct Hmiss as [Hm | Hm]; rewrite Hm in Eq;
        [discriminate | destruct (res_title r); discriminate].
    + rewrite (IH (S i) Hin Hmiss). reflexivity.
  - unfold result_line in Eq.
    destruct (res_title q); [|congruence].
    destruct (res_link q); [discriminate | congruence].
Qed.

Lemma top_three_lines (query : string) (r1 r2 r3 : SearchResult)
      (t1 l1 t2 l2 t3 l3 : string) :
  res_title r1 = Some t1 -> res_link r1 = Some l1 ->
  res_title r2 = Some t2 -> res_link r2 = Some l2 ->
  res_title r3 = Some t3 -> res_link r3 = Some l3 ->
  exists lines,
    result_lines 0 [r1; r2; r3] = Ret lines /\
    "🌐 Top Results for '" ++ query ++ "':" ++ PyStr.nl ++ PyStr.join PyStr.nl lines
    = top_three_reply query t1 l1 t2 l2 t3 l3.
Proof.
  intros H1 H1' H2 H2' H3 H3'.
  cbn [result_lines]. unfold result_line.
  rewrite H1, H1', H2, H2', H3, H3'.
  eexists. split; [reflexivity|].
  unfold top_three_reply. cbn [PyStr.join].
  rewrite !append_assoc. reflexivity.
Qed.

Lemma heading_nonempty (query rest : string) :
  "🌐 Top Results for '" ++ query ++ rest <> EmptyString.
Proof. discriminate. Qed.

(** C7.  For every query of the search flow (a message whose trimmed text
    is not empty), once the "searching" notice is out and the gateway has
    answered, the handler sends one reply, which is never empty.  When the
    gateway returns at least three results, each with its title and its
    link, the reply is the numbered list of the first three, one line per
    result made of its title and link, under the heading that quotes the
    trimmed query, sent as Markdown; when the gateway returns no result the
    reply is the "no results" message; and when one of the first three
    results lacks its title or its link the reply is the "search failed"
    message. *)
Theorem web_search_reply
        (env : Env) (w : World) (message : Message) (t : string) (found : list SearchResult) :
  text message = Some t ->
  PyStr.strip t <> EmptyString ->
  api_send env (tick w) (chat_id message) searching_notice = true ->
  serp env (S (tick w)) (PyStr.strip t) = Some (Some found) ->
  (forall txt, api_send env (S (S (tick w))) (chat_id message) txt = true) ->
  exists w' reply opts,
    process_web_search env message w = (w', Ret tt) /\
    outbox w' =
      (outbox w ++
       [mkSent (next_message_id w) (chat_id message) searching_notice Plain;
        mkSent (S (next_message_id w)) (chat_id message) reply opts])%list /\
    reply <> EmptyString /\
    (forall r1 r2 r3 rest t1 l1 t2 l2 t3 l3,
       found = r1 :: r2 :: r3 :: rest ->
       res_title r1 = Some t1 -> res_link r1 = Some l1 ->
       res_title r2 = Some t2 -> res_link r2 = Some l2 ->
       res_title r3 = Some t3 -> res_link r3 = Some l3 ->
       reply = top_three_reply (PyStr.strip t) t1 l1 t2 l2 t3 l3 /\
       opts = Markdown) /\
    (found = [] -> reply = no_results /\ opts = Plain) /\
    (forall r,
       List.In r (firstn 3 found) ->
       res_title r = None \/ res_link r = None ->
       reply = search_failed /\ opts = Plain).
Proof.
  intros Ht Hne Hnotice Hserp Hsend.
  unfold process_web_search. run. rewrite Ht. run.
  rewrite (truthy_nonempty _ Hne). run.
  rewrite (send_message_ok env _ _ _ w Hnotice). run.
  rewrite Hserp. run.
  destruct (firstn 3 found) as [|r0 rs] eqn:Hfirst.
  - rewrite send_message_ok by apply Hsend. run.
    eexists _, _, _. split; [reflexivity|]. cbn [outbox].
    split; [rewrite <- app_assoc; reflexivity|].
    split; [discriminate|]. split; [|split].
    + intros r1 r2 r3 rest t1 l1 t2 l2 t3 l3 ->. discriminate Hfirst.
    + intros _. split; reflexivity.
    + intros r [].
  - destruct (result_lines 0 (r0 :: rs)) as [lines|e] eqn:Hlines.
    + rewrite send_message_ok by apply Hsend. run.
      eexists _, _, _. split; [reflexivity|]. cbn [outbox].
      split; [rewrite <- app_assoc; reflexivity|].
      split; [apply heading_nonempty|]. split; [|split].
      * intros r1 r2 r3 rest t1 l1 t2 l2 t3 l3 -> H1 H1' H2 H2' H3 H3'.
        change (firstn 3 (r1 :: r2 :: r3 :: rest)) with [r1; r2; r3] in Hfirst.
        rewrite <- Hfirst in Hlines.
        destruct (top_three_lines (PyStr.strip t) r1 r2 r3 _ _ _ _ _ _
                                  H1 H1' H2 H2' H3 H3') as [lines' [E <-]].
        rewrite Hlines in E. injection E as ->. split; reflexivity.
      * intros ->. discriminate Hfirst.
      * intros r Hin Hmiss.
        rewrite (result_lines_missing 0 _ r Hin Hmiss) in Hlines. discriminate.
    + rewrite (result_lines_raises _ _ _ Hlines) in *. run.
      rewrite send_message_ok by apply Hsend. run.
      eexists _, _, _. split; [reflexivity|]. cbn [outbox].
      split; [rewrite <- app_assoc; reflexivity|].
      split; [discriminate|]. split; [|split].
      * intros r1 r2 r3 rest t1 l1 t2 l2 t3 l3 -> H1 H1' H2 H2' H3 H3'.
        change (firstn 3 (r1 :: r2 :: r3 :: rest)) with [r1; r2; r3] in Hfirst.
        rewrite <- Hfirst in Hlines.
        destruct (top_three_lines (PyStr.strip t) r1 r2 r3 _ _ _ _ _ _
                                  H1 H1' H2 H2' H3 H3') as [lines' [E _]].
        rewrite Hlines in E. discriminate.
      * intros ->. discriminate Hfirst.
      * intros _ _ _. split; reflexivity.
Qed.

Lemma web_search_reply_witness :
  exists w',
    process_web_search (calm_env "" four_results []) (text_message 7 "rust vs go")
                       fresh_world = (w', Ret tt) /\
    outbox w' =
      [mkSent 0 7 searching_notice Plain;
       mkSent 1 7 ("🌐 Top Results for 'rust vs go':" ++ PyStr.nl ++
                   "1. [Rust vs Go](https://a.example/1)" ++ PyStr.nl ++
                   "2. [Go or Rust](https://b.example/2)" ++ PyStr.nl ++
                   "3. [Choosing](https://c.example/3)") Markdown].
Proof.
  destruct (web_search_reply (calm_env "" four_results []) fresh_world
              (text_message 7 "rust vs go") "rust vs go" four_results)
    as [w' [reply [opts [Hrun [Hout [_ [Htop _]]]]]]].
  - reflexivity.
  - vm_compute. discriminate.
  - reflexivity.
  - reflexivity.
  - reflexivity.
  - exists w'. split; [exact Hrun|].
    destruct (Htop _ _ _ _ _ _ _ _ _ _ eq_refl eq_refl eq_refl eq_refl eq_refl eq_refl eq_refl)
      as [Hreply Hopts].
    rewrite Hout, Hreply, Hopts. reflexivity.
Defined.


(* ===================================================================== *)
(** ** Running a handler to its end *)
(* ===================================================================== *)

(** One step of a run: contract, then split on the next send or on the
    next answer of the environment.  [crunch_with tac] tries [tac] before
    each split, to use what is known of the answer. *)
Ltac split_next :=
  first
    [ send_cases
    | match goal with
      | |- context [match ?x with _ => _ end] =>
          lazymatch x with
          | context [match _ with _ => _ end] => fail
          | _ => destruct x eqn:?
          end
      end ].

Ltac step := run; split_next.

Ltac crunch := repeat step.

Tactic Notation "crunch_with" tactic3(tac) :=
  repeat (run; first [progress tac | split_next]); run.

(* ===================================================================== *)
(** ** Profiles *)
(* ===================================================================== *)

Lemma find_none_profiles (c : Z) (l : list Profile) :
  List.find (fun p => (p_chat_id p =? c)%Z) l = None -> profiles_of c l = 0.
Proof.
  unfold profiles_of. induction l as [|p l IH]; simpl; [reflexivity|].
  destruct (p_chat_id p =? c)%Z; [discriminate | exact IH].
Qed.

Lemma find_some_profiles (c : Z) (l : list Profile) (p : Profile) :
  List.find (fun p => (p_chat_id p =? c)%Z) l = Some p -> 0 < profiles_of c l.
Proof.
  unfold profiles_of. induction l as [|q l IH]; simpl; [discriminate|].
  destruct (p_chat_id q =? c)%Z; [simpl; lia | exact IH].
Qed.

Lemma profiles_of_snoc (c : Z) (l : list Profile) (p : Profile) :
  profiles_of c (l ++ [p]) =
  profiles_of c l + (if (p_chat_id p =? c)%Z then 1 else 0).
Proof.
  unfold profiles_of. rewrite List.filter_app, List.length_app. simpl.
  destruct (p_chat_id p =? c)%Z; reflexivity.
Qed.

(** What one [/start] can do to the profiles: nothing, or file the new
    profile of a chat that had none. *)
Lemma handle_start_users (env : Env) (message : Message) (w : World) :
  users_collection (fst (handle_start env message w)) = users_collection w
  \/ (profiles_of (chat_id message) (users_collection w) = 0 /\
      users_collection (fst (handle_start env message w)) =
        (users_collection w ++ [new_profile message (now env (S (tick w)))])%list).
Proof.
  unfold handle_start, show_main_menu, request_phone_number. run.
  destruct (mongo_up env (tick w)) eqn:Hup; run; [|now left].
  destruct (List.find _ (users_collection w)) eqn:Hfind.
  - left. crunch; reflexivity.
  - apply find_none_profiles in Hfind. run.
    destruct (mongo_up env (S (S (tick w)))) eqn:Hup'; run; [|now left].
    right. split; [exact Hfind|]. crunch; reflexivity.
Qed.

Lemma handle_start_one_profile (env : Env) (message : Message) (w : World) (c : Z) :
  profiles_of c (users_collection w) <= 1 ->
  profiles_of c (users_collection (fst (handle_start env message w))) <= 1.
Proof.
  intros H. destruct (handle_start_users env message w) as [-> | [Hnone ->]]; [exact H|].
  rewrite profiles_of_snoc. cbn [new_profile p_chat_id].
  destruct (Z.eqb_spec (chat_id message) c) as [<- | _]; lia.
Qed.

(** C3.  Whatever the sequence of [/start] invocations, a chat that had at
    most one profile has at most one afterwards.  One invocation files a
    profile, with no phone number, when the chat has none (and the store
    answers); when the chat has one it leaves the profiles as they are and
    shows the main menu; and it never changes the profiles of a chat that
    already has one. *)
Theorem start_keeps_one_profile
        (env : Env) (messages : list Message) (w : World) (c : Z) :
  profiles_of c (users_collection w) <= 1 ->
  profiles_of c (users_collection (start_all env messages w)) <= 1 /\
  (forall message w0,
     (profiles_of (chat_id message) (users_collection w0) = 0 ->
      mongo_up env (tick w0) = true ->
      mongo_up env (S (S (tick w0))) = true ->
      users_collection (fst (handle_start env message w0)) =
        (users_collection w0 ++ [new_profile message (now env (S (tick w0)))])%list) /\
     (0 < profiles_of (chat_id message) (users_collection w0) ->
      users_collection (fst (handle_start env message w0)) = users_collection w0 /\
      (mongo_up env (tick w0) = true ->
       api_send env (S (tick w0)) (chat_id message) "🔧 Main Menu - Select an option:" = true ->
       handle_start env message w0 =
         (push_sent (main_menu_sent (next_message_id w0) (chat_id message))
                    (bump_tick (bump_tick w0)),
          Ret tt))) /\
     (users_collection (fst (handle_start env message w0)) <> users_collection w0 ->
      profiles_of (chat_id message) (users_collection w0) = 0)).
Proof.
  intros H. split.
  - unfold start_all. revert w H.
    induction messages as [|m rest IH]; intros w H; simpl; [exact H|].
    apply IH. now apply handle_start_one_profile.
  - intros message w0. split; [|split].
    + intros Hnone Hup Hup'.
      unfold handle_start, show_main_menu, request_phone_number. run.
      rewrite Hup. run.
      destruct (List.find _ (users_collection w0)) eqn:Hfind.
      * apply find_some_profiles in Hfind. lia.
      * run. rewrite Hup'. crunch; reflexivity.
    + intros Hsome. split.
      * destruct (handle_start_users env message w0) as [E | [Hnone _]]; [exact E | lia].
      * intros Hup Hsend.
        unfold handle_start, show_main_menu. run. rewrite Hup. run.
        destruct (List.find _ (users_collection w0)) eqn:Hfind.
        -- rewrite send_message_ok by exact Hsend. reflexivity.
        -- apply find_none_profiles in Hfind. lia.
    + intros Hchg.
      destruct (handle_start_users env message w0) as [E | [Hnone _]]; [congruence | exact Hnone].
Qed.

Lemma start_keeps_one_profile_witness :
  profiles_of 7
    (users_collection
       (start_all (calm_env "" [] [])
                  [text_message 7 "/start"; text_message 7 "/start"; text_message 7 "/start"]
                  fresh_world)) <= 1.
Proof.
  apply (proj1 (start_keeps_one_profile (calm_env "" [] [])
                  [text_message 7 "/start"; text_message 7 "/start"; text_message 7 "/start"]
                  fresh_world 7 ltac:(vm_compute; lia))).
Defined.

Example three_starts_one_profile :
  users_collection
    (start_all (calm_env "" [] [])
               [text_message 7 "/start"; text_message 7 "/start"; text_message 7 "/start"]
               fresh_world)
  = [mkProfile 7 "Ada" (Some "ada") None 1].
Proof. vm_compute. reflexivity. Qed.


(* ===================================================================== *)
(** ** Pending steps *)
(* ===================================================================== *)

(** Neither continuation registers or clears a pending step. *)
Lemma process_web_search_next_step (env : Env) (message : Message) (w : World) :
  next_step (fst (process_web_search env message w)) = next_step w.
Proof. unfold process_web_search. crunch; reflexivity. Qed.

Lemma chat_with_gemini_next_step (env : Env) (message : Message) (w : World) :
  next_step (fst (chat_with_gemini env message w)) = next_step w.
Proof. unfold chat_with_gemini. crunch; reflexivity. Qed.

Lemma run_continuation_next_step
      (env : Env) (k : Continuation) (message : Message) (w : World) :
  next_step (fst (run_continuation env k message w)) = next_step w.
Proof.
  destruct k; [apply process_web_search_next_step | apply chat_with_gemini_next_step].
Qed.

Lemma dispatch_pending (env : Env) (message : Message) (w : World) (k : Continuation) :
  next_step w !! chat_id message = Some k ->
  dispatch env message w =
    run_continuation env k message
      (set_next_step (fun t => delete (chat_id message) t) w).
Proof. intros H. unfold dispatch. run. rewrite H. reflexivity. Qed.

Lemma dispatch_no_pending (env : Env) (message : Message) (w : World) :
  next_step w !! chat_id message = None ->
  dispatch env message w = route env message w.
Proof. intros H. unfold dispatch. run. rewrite H. reflexivity. Qed.

(** C4.  A pending step of a chat is consumed by exactly one message: the
    next message of the chat goes to the continuation instead of the
    routing rules, the continuation starts in a state where the entry of
    the chat is already cleared, the entry is still absent when the
    continuation has ended, so that the message after it is routed by the
    ordinary rules; the entries of the other chats are left alone. *)
Theorem pending_step_consumed_once
        (env : Env) (w : World) (first second : Message) (k : Continuation) :
  next_step w !! chat_id first = Some k ->
  chat_id second = chat_id first ->
  exists cleared after,
    cleared = set_next_step (fun t => delete (chat_id first) t) w /\
    next_step cleared !! chat_id first = None /\
    dispatch env first w = run_continuation env k first cleared /\
    after = fst (dispatch env first w) /\
    next_step after !! chat_id first = None /\
    dispatch env second after = route env second after /\
    (forall c, c <> chat_id first -> next_step after !! c = next_step w !! c).
Proof.
  intros Hk Hsame.
  eexists _, _. split; [reflexivity|].
  assert (Hgone : next_step (fst (dispatch env first w)) = delete (chat_id first) (next_step w)).
  { rewrite (dispatch_pending env first w k Hk), run_continuation_next_step. reflexivity. }
  split; [apply lookup_delete_eq|].
  split; [exact (dispatch_pending env first w k Hk)|].
  split; [reflexivity|].
  split; [rewrite Hgone; apply lookup_delete_eq|].
  split.
  - apply dispatch_no_pending. rewrite Hsame, Hgone. apply lookup_delete_eq.
  - intros c Hc. rewrite Hgone. now apply lookup_delete_ne.
Qed.

Lemma pending_step_consumed_once_witness :
  exists after,
    after = fst (dispatch (calm_env "" four_results []) (text_message 7 "rust vs go")
                          asked_to_search) /\
    next_step after !! 7%Z = None /\
    dispatch (calm_env "" four_results []) (text_message 7 "and again") after =
      route (calm_env "" four_results []) (text_message 7 "and again") after.
Proof.
  destruct (pending_step_consumed_once (calm_env "" four_results []) asked_to_search
              (text_message 7 "rust vs go") (text_message 7 "and again")
              K_process_web_search)
    as [cleared [after [_ [_ [_ [Hafter [Hnone [Hroute _]]]]]]]].
  - reflexivity.
  - reflexivity.
  - exists after. split; [exact Hafter|]. split; [exact Hnone | exact Hroute].
Defined.


(* ===================================================================== *)
(** ** Image analysis *)
(* ===================================================================== *)

(** C6.  Once the "Analyzing image" placeholder is out, however the rest
    of the handler goes (a fault of the gateway, of the download, of the
    decoding, or of a later send, the error reply included), the
    placeholder is removed before the handler ends, the Bot API granting
    the deletion; the handler ends normally, or with the [ApiException] of
    an error reply that could not be delivered. *)
Theorem image_placeholder_removed (env : Env) (w : World) (message : Message) :
  api_send env (tick w) (chat_id message) analyzing_image = true ->
  (forall t, api_delete env t (chat_id message) (next_message_id w) = true) ->
  forall w' o,
    handle_image env message w = (w', o) ->
    In (mkSent (next_message_id w) (chat_id message) analyzing_image Plain) (outbox w') /\
    deleted w' = (deleted w ++ [(chat_id message, next_message_id w)])%list /\
    (o = Ret tt \/ o = Raise ApiException).
Proof.
  intros Hsent Hdel w' o.
  unfold handle_image. run.
  rewrite (send_message_ok env _ _ _ w Hsent).
  crunch_with (rewrite Hdel);
    intros E; injection E as <- <-; cbn [outbox deleted];
    (split; [rewrite ?in_app_iff; simpl; tauto|]);
    (split; [reflexivity|]);
    first [left; reflexivity | right; reflexivity].
Qed.

Lemma image_placeholder_removed_witness :
  exists w',
    handle_image (with_failing_gateway (calm_env "" [] [])) (photo_message 7) fresh_world
      = (w', Ret tt) /\
    outbox w' = [mkSent 0 7 analyzing_image Plain; mkSent 1 7 "⚠️ Error: error" Plain] /\
    gateway_calls w' = [ImagePrompt "Describe this image in detail" "payload"] /\
    deleted w' = [(7%Z, 0)].
Proof.
  eexists. split; [vm_compute; reflexivity|].
  split; [reflexivity|]. split; [reflexivity|].
  apply (image_placeholder_removed (with_failing_gateway (calm_env "" [] []))
           fresh_world (photo_message 7) eq_refl (fun _ => eq_refl) _ (Ret tt)).
  vm_compute. reflexivity.
Defined.

(* ===================================================================== *)
(** ** PDF processing *)
(* ===================================================================== *)

Lemma pages_text_raises (pages : list Page) (acc : string) (e : exn) :
  pages_text pages acc = Raise e -> e = PdfReadError.
Proof.
  revert acc. induction pages as [|pg rest IH]; intros acc; simpl; [discriminate|].
  destruct pg as [[t|]|]; [destruct (PyStr.truthy t)| |]; try apply IH.
  intros E. now injection E as <-.
Qed.

Lemma extract_text_from_pdf_run (env : Env) (path data : string) (w : World) :
  files w !! path = Some data ->
  extract_text_from_pdf env path w = (w, Ret (extracted_text env data)).
Proof.
  intros H. unfold extract_text_from_pdf, extracted_text. run. rewrite H.
  destruct (pdf_reader env data) as [pages|]; run; [|reflexivity].
  destruct (pages_text pages EmptyString) as [txt|e] eqn:E; [reflexivity|].
  apply pages_text_raises in E as ->. reflexivity.
Qed.

(** C8.  For every PDF document that is downloaded and saved and whose
    extracted text is empty, the handler sends "No text found in PDF" and
    ends without handing any prompt to the model. *)
Theorem empty_pdf_not_classified
        (env : Env) (w : World) (message : Message) (doc : Document) (fp data : string) :
  document message = Some doc ->
  mime_type doc = "application/pdf" ->
  api_send env (tick w) (chat_id message) processing_pdf = true ->
  api_get_file env (S (tick w)) (doc_file_id doc) = Some fp ->
  api_download env (S (S (tick w))) fp = Some data ->
  os_open env (S (S (S (tick w)))) (temp_pdf (chat_id message)) = true ->
  os_write env (S (S (S (S (tick w))))) = true ->
  extracted_text env data = EmptyString ->
  forall w' o,
    handle_pdf env message w = (w', o) ->
    gateway_calls w' = gateway_calls w /\
    (api_send env (S (S (S (S (S (tick w)))))) (chat_id message) no_text_found = true ->
     o = Ret tt /\
     outbox w' =
       (outbox w ++
        [mkSent (next_message_id w) (chat_id message) processing_pdf Plain;
         mkSent (S (next_message_id w)) (chat_id message) no_text_found Plain])%list).
Proof.
  intros Hdoc Hmime Hsent Hfile Hdown Hopen Hwrite Hempty w' o.
  unfold handle_pdf. run. rewrite Hdoc. run. rewrite Hmime.
  replace (String.eqb "application/pdf" "application/pdf") with true by reflexivity. run.
  rewrite (send_message_ok env _ _ _ w Hsent). run.
  rewrite Hfile. run. rewrite Hdown. run.
  fold (temp_pdf (chat_id message)). rewrite Hopen. run. rewrite Hwrite. run.
  rewrite (extract_text_from_pdf_run env _ data) by (cbn [files]; apply lookup_insert_eq).
  rewrite Hempty. run. fold no_text_found.
  send_cases.
  - crunch; intros E; injection E as <- <-; cbn [gateway_calls outbox];
      (split; [reflexivity|]); intros _;
      (split; [reflexivity | rewrite <- app_assoc; reflexivity]).
  - crunch; intros E; injection E as <- <-; cbn [gateway_calls outbox];
      (split; [reflexivity|]); intros E'; congruence.
Qed.

Lemma empty_pdf_not_classified_witness :
  exists w',
    handle_pdf (calm_env "unused" [] [PageText None; PageText (Some "  ")])
               (pdf_message 7) fresh_world = (w', Ret tt) /\
    gateway_calls w' = [] /\
    outbox w' = [mkSent 0 7 processing_pdf Plain; mkSent 1 7 no_text_found Plain].
Proof.
  eexists. split; [vm_compute; reflexivity|].
  destruct (empty_pdf_not_classified
              (calm_env "unused" [] [PageText None; PageText (Some "  ")])
              fresh_world (pdf_message 7) (mkDocument "application/pdf" "doc-1")
              "documents/file_0" "payload"
              eq_refl eq_refl eq_refl eq_refl eq_refl eq_refl eq_refl eq_refl
              _ (Ret tt) ltac:(vm_compute; reflexivity)) as [Hcalls Hreply].
  split; [exact Hcalls|]. exact (proj2 (Hreply eq_refl)).
Defined.

(** When the Bot API does not hand out the file, [pdf_path] is never
    assigned: the [finally] block stops at [os.remove] and the deletion of
    the placeholder is not asked for. *)
Lemma pdf_placeholder_kept_when_download_fails
      (env : Env) (w : World) (message : Message) (doc : Document) :
  document message = Some doc ->
  mime_type doc = "application/pdf" ->
  api_send env (tick w) (chat_id message) processing_pdf = true ->
  api_get_file env (S (tick w)) (doc_file_id doc) = None ->
  forall w' o,
    handle_pdf env message w = (w', o) ->
    In (mkSent (next_message_id w) (chat_id message) processing_pdf Plain) (outbox w') /\
    deleted w' = deleted w.
Proof.
  intros Hdoc Hmime Hsent Hfile w' o.
  unfold handle_pdf. run. rewrite Hdoc. run. rewrite Hmime.
  replace (String.eqb "application/pdf" "application/pdf") with true by reflexivity. run.
  rewrite (send_message_ok env _ _ _ w Hsent). run.
  rewrite Hfile. crunch; intros E; injection E as <- <-; cbn [outbox deleted];
    (split; [rewrite ?in_app_iff; simpl; tauto | reflexivity]).
Qed.

(** C5 fails on the code.  A PDF whose file the Bot API refuses to hand
    out (every other call succeeding, deletions included): the handler
    apologises and ends, and the "Processing PDF" placeholder is still
    there, no deletion having been asked for. *)
Theorem pdf_placeholder_left_behind :
  exists w',
    handle_pdf (with_failing_get_file (calm_env "" [] [])) (pdf_message 7) fresh_world
      = (w', Ret tt) /\
    outbox w' = [mkSent 0 7 processing_pdf Plain; mkSent 1 7 pdf_error Plain] /\
    deleted w' = [].
Proof. eexists. split; [vm_compute; reflexivity|]. split; reflexivity. Qed.

(** On the same document with a Bot API that hands out the file, both the
    temporary file and the placeholder are gone at the end. *)
Example pdf_cleanup_after_success :
  exists w',
    handle_pdf (calm_env "A report." [] [PageText (Some "Quarterly figures")])
               (pdf_message 7) fresh_world = (w', Ret tt) /\
    files w' !! temp_pdf 7 = None /\
    deleted w' = [(7%Z, 0)].
Proof. eexists. split; [vm_compute; reflexivity|]. split; reflexivity. Qed.


(** When the file has been saved, the [finally] block does its work
    however the handler goes on: the temporary file is removed and so is
    the placeholder. *)
Lemma pdf_cleanup_when_saved
      (env : Env) (w : World) (message : Message) (doc : Document) (fp data : string) :
  document message = Some doc ->
  mime_type doc = "application/pdf" ->
  api_send env (tick w) (chat_id message) processing_pdf = true ->
  api_get_file env (S (tick w)) (doc_file_id doc) = Some fp ->
  api_download env (S (S (tick w))) fp = Some data ->
  os_open env (S (S (S (tick w)))) (temp_pdf (chat_id message)) = true ->
  (forall t, api_delete env t (chat_id message) (next_message_id w) = true) ->
  forall w' o,
    handle_pdf env message w = (w', o) ->
    files w' !! temp_pdf (chat_id message) = None /\
    deleted w' = (deleted w ++ [(chat_id message, next_message_id w)])%list.
Proof.
  intros Hdoc Hmime Hsent Hfile Hdown Hopen Hdel w' o.
  unfold handle_pdf. run. rewrite Hdoc. run. rewrite Hmime.
  replace (String.eqb "application/pdf" "application/pdf") with true by reflexivity. run.
  rewrite (send_message_ok env _ _ _ w Hsent). run.
  rewrite Hfile. run. rewrite Hdown. run.
  fold (temp_pdf (chat_id message)). rewrite Hopen. run.
  destruct (os_write env (S (S (S (S (tick w)))))) eqn:Hwrite; run.
  - rewrite (extract_text_from_pdf_run env _ data) by (cbn [files]; apply lookup_insert_eq).
    unfold classify_pdf_content.
    crunch_with (rewrite ?Hdel, ?lookup_insert_eq, ?lookup_delete_eq);
      intros E; injection E as <- <-; cbn [files deleted];
      rewrite ?lookup_delete_eq; (split; [reflexivity|]); reflexivity.
  - crunch_with (rewrite ?Hdel, ?lookup_insert_eq, ?lookup_delete_eq);
      intros E; injection E as <- <-; cbn [files deleted];
      rewrite ?lookup_delete_eq; (split; [reflexivity|]); reflexivity.
Qed.

(* ===================================================================== *)
(** ** The profiles under the whole dispatcher *)
(* ===================================================================== *)

Lemma profiles_of_update_phone (c c' : Z) (ph : string) (l : list Profile) :
  profiles_of c' (update_phone c ph l) = profiles_of c' l.
Proof.
  unfold profiles_of. induction l as [|p l IH]; simpl; [reflexivity|].
  destruct (p_chat_id p =? c)%Z; simpl.
  - destruct (p_chat_id p =? c')%Z; reflexivity.
  - destruct (p_chat_id p =? c')%Z; simpl; now rewrite IH.
Qed.

Lemma save_phone_number_users (env : Env) (message : Message) (w : World) (c : Z) :
  profiles_of c (users_collection (fst (save_phone_number env message w))) =
  profiles_of c (users_collection w).
Proof.
  unfold save_phone_number, show_main_menu.
  crunch; cbn [users_collection]; rewrite ?profiles_of_update_phone; reflexivity.
Qed.

Lemma process_web_search_users (env : Env) (message : Message) (w : World) :
  users_collection (fst (process_web_search env message w)) = users_collection w.
Proof. unfold process_web_search. crunch; reflexivity. Qed.

Lemma chat_with_gemini_users (env : Env) (message : Message) (w : World) :
  users_collection (fst (chat_with_gemini env message w)) = users_collection w.
Proof. unfold chat_with_gemini. crunch; reflexivity. Qed.

Lemma analyze_sentiment_users (env : Env) (message : Message) (w : World) :
  users_collection (fst (analyze_sentiment env message w)) = users_collection w.
Proof. unfold analyze_sentiment. crunch; reflexivity. Qed.

Lemma handle_image_users (env : Env) (message : Message) (w : World) :
  users_collection (fst (handle_image env message w)) = users_collection w.
Proof. unfold handle_image. crunch; reflexivity. Qed.

Lemma handle_pdf_users (env : Env) (message : Message) (w : World) :
  users_collection (fst (handle_pdf env message w)) = users_collection w.
Proof.
  unfold handle_pdf, extract_text_from_pdf, classify_pdf_content. crunch; reflexivity.
Qed.

Lemma handle_menu_selection_users (env : Env) (message : Message) (w : World) :
  users_collection (fst (handle_menu_selection env message w)) = users_collection w.
Proof.
  unfold handle_menu_selection, generate_sentiment_report, sentiment_report_body,
    render_report, true_div, show_user_profile, stop_bot.
  crunch; reflexivity.
Qed.

(** Every message the dispatcher handles keeps the profiles of a chat at
    one at most. *)
Lemma dispatch_one_profile (env : Env) (message : Message) (w : World) (c : Z) :
  profiles_of c (users_collection w) <= 1 ->
  profiles_of c (users_collection (fst (dispatch env message w))) <= 1.
Proof.
  intros H. unfold dispatch. run.
  destruct (next_step w !! chat_id message) as [k|]; run.
  - change (profiles_of c (users_collection
              (fst (run_continuation env k message
                      (set_next_step (fun t => delete (chat_id message) t) w)))) <= 1).
    destruct k; cbn [run_continuation];
      rewrite ?process_web_search_users, ?chat_with_gemini_users; exact H.
  - unfold route, message_handlers. cbn [List.find fst snd].
    repeat match goal with
           | |- context [if ?b then _ else _] => destruct b; cbn [List.find fst snd]
           end;
      rewrite ?handle_menu_selection_users, ?handle_pdf_users, ?handle_image_users,
        ?analyze_sentiment_users, ?save_phone_number_users;
      try exact H.
    now apply handle_start_one_profile.
Qed.


(* ===================================================================== *)
(** * Further properties of the handlers *)
(* ===================================================================== *)

(* ===================================================================== *)
(** ** The report: isolation, bounds, faults *)
(* ===================================================================== *)

Lemma of_chat_snoc_other (c : Z) (l : list SentimentRecord) (r : SentimentRecord) :
  r_chat_id r <> c -> of_chat c (l ++ [r]) = of_chat c l.
Proof.
  intros H. unfold of_chat. rewrite List.filter_app. simpl.
  destruct (Z.eqb_spec (r_chat_id r) c); [contradiction | apply app_nil_r].
Qed.

Lemma find_recent_snoc_other (c : Z) (n : nat) (l : list SentimentRecord) (r : SentimentRecord) :
  r_chat_id r <> c -> find_recent c n (l ++ [r]) = find_recent c n l.
Proof.
  intros H. unfold find_recent. fold (of_chat c (l ++ [r])) (of_chat c l).
  now rewrite of_chat_snoc_other.
Qed.

(** X1.  A record filed for another chat changes nothing of what the
    report handler sends to a chat or of how it ends. *)
Theorem report_ignores_other_chats
        (env : Env) (w : World) (message : Message) (r : SentimentRecord) :
  r_chat_id r <> chat_id message ->
  outbox (fst (generate_sentiment_report env message (with_record r w)))
    = outbox (fst (generate_sentiment_report env message w)) /\
  snd (generate_sentiment_report env message (with_record r w))
    = snd (generate_sentiment_report env message w).
Proof.
  intros H.
  unfold generate_sentiment_report, sentiment_report_body, with_record. run.
  destruct (mongo_up env (tick w)); run.
  - rewrite (find_recent_snoc_other _ _ _ _ H).
    destruct (find_recent (chat_id message) 10 (sentiments_collection w)) as [|x rest].
    + crunch; first [split; reflexivity | congruence].
    + destruct (render_report_pos (count_label "positive" (x :: rest))
                  (count_label "neutral" (x :: rest)) (count_label "negative" (x :: rest))
                  (List.length (x :: rest)) (bump_tick w) ltac:(simpl; lia)) as [txt [E _]].
      unfold render_report, true_div in *. cbn [List.length Nat.eqb] in *. run.
      crunch; first [split; reflexivity | congruence].
  - crunch; first [split; reflexivity | congruence].
Qed.

Lemma report_ignores_other_chats_witness :
  outbox (fst (generate_sentiment_report (calm_env "" [] [])
                 (text_message 7 "📊 Sentiment Report")
                 (with_record (mkSentiment 8 "bad day" "negative" 20) three_records)))
  = [mkSent 0 7 report_two_to_one Plain].
Proof.
  rewrite (proj1 (report_ignores_other_chats (calm_env "" [] []) three_records
                    (text_message 7 "📊 Sentiment Report")
                    (mkSentiment 8 "bad day" "negative" 20) ltac:(discriminate))).
  vm_compute. reflexivity.
Defined.

Lemma percent_exact_le_100 (k n : nat) :
  k <= n -> PyFloat.percent_exact k n <= 100.
Proof.
  intros H. unfold PyFloat.percent_exact.
  destruct n as [|n].
  - assert (k = 0) as -> by lia. vm_compute. lia.
  - pose proof (Nat.div_mod_eq (100 * k) (S n)) as E.
    pose proof (Nat.mod_upper_bound (100 * k) (S n) ltac:(lia)) as B.
    set (q := (100 * k / S n)%nat) in *. set (r := ((100 * k) mod S n)%nat) in *.
    assert (q <= 100) by nia.
    destruct (2 * r <? S n)%nat eqn:H1; [lia|]. apply Nat.ltb_ge in H1.
    assert (q <= 99) by nia.
    destruct (S n <? 2 * r)%nat; [lia|]. destruct (Nat.even q); lia.
Qed.

Lemma find_recent_in (c : Z) (n : nat) (l : list SentimentRecord) (x : SentimentRecord) :
  In x (find_recent c n l) -> In x l /\ r_chat_id x = c.
Proof.
  intros H. unfold find_recent in H.
  assert (H' : In x (sort_desc (List.filter (fun r => (r_chat_id r =? c)%Z) l))).
  { rewrite <- (firstn_skipn n). apply in_or_app. now left. }
  clear H. rename H' into H.
  apply (Permutation_in _ (sort_desc_perm _)) in H.
  apply List.filter_In in H as [H1 H2]. split; [exact H1 | now apply Z.eqb_eq].
Qed.

(** X2.  Whatever the store holds, the figures of a report are bounded:
    at most ten records are fetched, all of them records of the chat,
    each counter is at most the total, and each percentage is at most
    100. *)
Theorem report_figures_bounded (c : Z) (l : list SentimentRecord) (word : string) :
  List.length (find_recent c 10 l) <= 10 /\
  (forall x, In x (find_recent c 10 l) -> In x l /\ r_chat_id x = c) /\
  count_label word (find_recent c 10 l) <= List.length (find_recent c 10 l) /\
  PyFloat.percent_exact (count_label word (find_recent c 10 l))
                        (List.length (find_recent c 10 l)) <= 100.
Proof.
  split; [apply find_recent_length|].
  split; [intros x; apply find_recent_in|].
  split; [apply count_label_le|].
  apply percent_exact_le_100, count_label_le.
Qed.

(** X3.  When the store does not answer, the report handler sends the
    "Failed to generate report" apology and ends normally, leaving both
    collections as they were. *)
Theorem report_store_fault (env : Env) (w : World) (message : Message) :
  mongo_up env (tick w) = false ->
  api_send env (S (tick w)) (chat_id message) report_failed = true ->
  generate_sentiment_report env message w =
    (push_sent (mkSent (next_message_id w) (chat_id message) report_failed Plain)
               (bump_tick (bump_tick w)),
     Ret tt).
Proof.
  intros Hdown Hsend.
  unfold generate_sentiment_report, sentiment_report_body. run.
  rewrite Hdown. run. fold report_failed.
  rewrite send_message_ok by exact Hsend. reflexivity.
Qed.

Lemma report_store_fault_witness :
  generate_sentiment_report (with_store_down (calm_env "" [] []))
                            (text_message 7 "📊 Sentiment Report") three_records =
    (push_sent (mkSent 0 7 report_failed Plain) (bump_tick (bump_tick three_records)),
     Ret tt).
Proof.
  apply (report_store_fault (with_store_down (calm_env "" [] [])) three_records
           (text_message 7 "📊 Sentiment Report")); reflexivity.
Defined.

(* ===================================================================== *)
(** ** Sentiment analysis: what is ignored, what is swallowed *)
(* ===================================================================== *)

(** X4.  A text that is blank, or that starts with "/" once trimmed, is
    ignored by the sentiment handler: nothing is sent, stored or asked of
    the model, and no oracle step is taken. *)
Theorem sentiment_ignores_blank_and_commands
        (env : Env) (w : World) (message : Message) (t : string) :
  text message = Some t ->
  PyStr.strip t = EmptyString \/ PyStr.startswith (PyStr.strip t) "/" = true ->
  analyze_sentiment env message w = (w, Ret tt).
Proof.
  intros Ht H. unfold analyze_sentiment. run. rewrite Ht. run.
  destruct H as [-> | ->]; [reflexivity|].
  destruct (PyStr.truthy (PyStr.strip t)); reflexivity.
Qed.

Lemma sentiment_ignores_blank_and_commands_witness :
  analyze_sentiment (calm_env "Positive" [] []) (text_message 7 "  /help me ") fresh_world
    = (fresh_world, Ret tt).
Proof.
  apply (sentiment_ignores_blank_and_commands (calm_env "Positive" [] []) fresh_world
           (text_message 7 "  /help me ") "  /help me " eq_refl).
  right. reflexivity.
Defined.

(** X5.  On a message that has a text the sentiment handler never raises:
    every fault of the model, of the store or of the Bot API is swallowed.
    It files at most one record, for the sender's chat, and it replies
    only after the record was filed: when the model or the store fails,
    nothing is sent. *)
Theorem sentiment_swallows_faults
        (env : Env) (w : World) (message : Message) (t : string) :
  text message = Some t ->
  exists w',
    analyze_sentiment env message w = (w', Ret tt) /\
    (sentiments_collection w' = sentiments_collection w /\ outbox w' = outbox w
     \/ exists r,
          r_chat_id r = chat_id message /\
          r_message r = PyStr.strip t /\
          sentiments_collection w' = (sentiments_collection w ++ [r])%list /\
          (outbox w' = outbox w \/
           outbox w' = (outbox w ++ [mkSent (next_message_id w) (chat_id message)
                                            (sentiment_reply (r_sentiment r)) Plain])%list)).
Proof.
  intros Ht. unfold analyze_sentiment. run. rewrite Ht. run.
  crunch; eexists; (split; [reflexivity|]); cbn [sentiments_collection outbox];
    first
      [ left; split; reflexivity
      | right; eexists (mkSentiment _ _ _ _); cbn [r_chat_id r_message r_sentiment];
        split; [reflexivity|]; split; [reflexivity|];
        split; [reflexivity|]; first [left; reflexivity | right; reflexivity] ].
Qed.

Lemma sentiment_swallows_faults_witness :
  exists w',
    analyze_sentiment (with_failing_gateway (calm_env "" [] []))
                      (text_message 7 "what a day") fresh_world = (w', Ret tt) /\
    sentiments_collection w' = [] /\ outbox w' = [].
Proof.
  destruct (sentiment_swallows_faults (with_failing_gateway (calm_env "" [] []))
              fresh_world (text_message 7 "what a day") "what a day" eq_refl)
    as [w' [Hrun _]].
  exists w'. split; [exact Hrun|].
  assert (E : fst (analyze_sentiment (with_failing_gateway (calm_env "" [] []))
                     (text_message 7 "what a day") fresh_world) = w')
    by (rewrite Hrun; reflexivity).
  rewrite <- E. split; reflexivity.
Defined.


(* ===================================================================== *)
(** ** The two collections under every handler *)
(* ===================================================================== *)

Lemma handle_start_sentiments (env : Env) (message : Message) (w : World) :
  sentiments_collection (fst (handle_start env message w)) = sentiments_collection w.
Proof.
  unfold handle_start, show_main_menu, request_phone_number. crunch; reflexivity.
Qed.

Lemma handle_menu_selection_sentiments (env : Env) (message : Message) (w : World) :
  sentiments_collection (fst (handle_menu_selection env message w)) = sentiments_collection w.
Proof.
  unfold handle_menu_selection, generate_sentiment_report, sentiment_report_body,
    render_report, true_div, show_user_profile, stop_bot.
  crunch; reflexivity.
Qed.

Lemma handle_pdf_sentiments (env : Env) (message : Message) (w : World) :
  sentiments_collection (fst (handle_pdf env message w)) = sentiments_collection w.
Proof.
  unfold handle_pdf, extract_text_from_pdf, classify_pdf_content. crunch; reflexivity.
Qed.

Lemma handle_image_sentiments (env : Env) (message : Message) (w : World) :
  sentiments_collection (fst (handle_image env message w)) = sentiments_collection w.
Proof. unfold handle_image. crunch; reflexivity. Qed.

Lemma save_phone_number_sentiments (env : Env) (message : Message) (w : World) :
  sentiments_collection (fst (save_phone_number env message w)) = sentiments_collection w.
Proof. unfold save_phone_number, show_main_menu. crunch; reflexivity. Qed.

Lemma process_web_search_sentiments (env : Env) (message : Message) (w : World) :
  sentiments_collection (fst (process_web_search env message w)) = sentiments_collection w.
Proof. unfold process_web_search. crunch; reflexivity. Qed.

Lemma chat_with_gemini_sentiments (env : Env) (message : Message) (w : World) :
  sentiments_collection (fst (chat_with_gemini env message w)) = sentiments_collection w.
Proof. unfold chat_with_gemini. crunch; reflexivity. Qed.

Lemma analyze_sentiment_sentiments (env : Env) (message : Message) (w : World) :
  sentiments_collection (fst (analyze_sentiment env message w)) = sentiments_collection w
  \/ exists r, r_chat_id r = chat_id message /\
       sentiments_collection (fst (analyze_sentiment env message w))
       = (sentiments_collection w ++ [r])%list.
Proof.
  unfold analyze_sentiment.
  crunch; cbn [sentiments_collection];
    first [ left; reflexivity
          | right; eexists (mkSentiment _ _ _ _); split; reflexivity ].
Qed.

Lemma entry_points_cases (env : Env) (h : Message -> M World unit) :
  In h (entry_points env) ->
  h = handle_start env \/ h = handle_menu_selection env \/ h = handle_pdf env \/
  h = handle_image env \/ h = analyze_sentiment env \/ h = save_phone_number env \/
  h = process_web_search env \/ h = chat_with_gemini env.
Proof.
  unfold entry_points, message_handlers. cbn [List.map snd app In].
  intros H. repeat (destruct H as [<- | H]; [tauto|]). destruct H.
Qed.

(** X6.  The sentiment log is append-only: whatever function a message is
    handed to, the records on file stay as they are, in their order, and
    at most one record is added, which belongs to the sender's chat. *)
Theorem sentiment_log_append_only
        (env : Env) (h : Message -> M World unit) (message : Message) (w : World) :
  In h (entry_points env) ->
  exists added,
    sentiments_collection (fst (h message w)) = (sentiments_collection w ++ added)%list /\
    List.length added <= 1 /\
    (forall r, In r added -> r_chat_id r = chat_id message).
Proof.
  intros H. apply entry_points_cases in H.
  destruct H as [-> | [-> | [-> | [-> | [-> | [-> | [-> | ->]]]]]]];
    try (exists []; rewrite app_nil_r; split;
         [ first [ apply handle_start_sentiments | apply handle_menu_selection_sentiments
                 | apply handle_pdf_sentiments | apply handle_image_sentiments
                 | apply save_phone_number_sentiments | apply process_web_search_sentiments
                 | apply chat_with_gemini_sentiments ]
         | split; [simpl; lia | intros r []] ]).
  destruct (analyze_sentiment_sentiments env message w) as [E | [r [Hr E]]].
  - exists []. rewrite app_nil_r. split; [exact E | split; [simpl; lia | intros r []]].
  - exists [r]. split; [exact E | split; [simpl; lia|]].
    intros r' [<- | []]. exact Hr.
Qed.

Lemma sentiment_log_append_only_witness :
  exists added,
    sentiments_collection
      (fst (analyze_sentiment (calm_env "Positive" [] []) (text_message 9 "hello")
                              three_records))
    = (sentiments_collection three_records ++ added)%list /\
    List.length added <= 1 /\
    (forall r, In r added -> r_chat_id r = 9%Z).
Proof.
  apply (sentiment_log_append_only (calm_env "Positive" [] [])
           (analyze_sentiment (calm_env "Positive" [] [])) (text_message 9 "hello")
           three_records).
  unfold entry_points, message_handlers. cbn [List.map snd app In]. tauto.
Defined.

Lemma same_but_phone_refl (l : list Profile) : List.Forall2 same_but_phone l l.
Proof. induction l; constructor; [repeat split | assumption]. Qed.

Lemma update_phone_same (c : Z) (ph : string) (l : list Profile) :
  List.Forall2 same_but_phone l (update_phone c ph l).
Proof.
  induction l as [|p l IH]; simpl; [constructor|].
  destruct (p_chat_id p =? c)%Z; constructor;
    [repeat split | apply same_but_phone_refl | repeat split | exact IH].
Qed.

Lemma save_phone_number_users_cases (env : Env) (message : Message) (w : World) :
  users_collection (fst (save_phone_number env message w)) = users_collection w
  \/ exists ph, contact_phone message = Some ph /\
       users_collection (fst (save_phone_number env message w))
       = update_phone (chat_id message) ph (users_collection w).
Proof.
  unfold save_phone_number, show_main_menu.
  destruct (contact_phone message) as [ph|] eqn:E; [|left; reflexivity].
  crunch; cbn [users_collection];
    first [left; reflexivity | right; exists ph; split; reflexivity].
Qed.

(** X7.  No function a message is handed to removes or reorders a
    profile, or changes anything of a profile but its phone number; at
    most one profile is added, the new profile of the sender, with no
    phone number. *)
Theorem profiles_never_removed
        (env : Env) (h : Message -> M World unit) (message : Message) (w : World) :
  In h (entry_points env) ->
  exists kept added,
    users_collection (fst (h message w)) = (kept ++ added)%list /\
    List.Forall2 same_but_phone (users_collection w) kept /\
    (added = [] \/ exists created, added = [new_profile message created]).
Proof.
  intros H. apply entry_points_cases in H.
  destruct H as [-> | [-> | [-> | [-> | [-> | [-> | [-> | ->]]]]]]].
  - destruct (handle_start_users env message w) as [E | [_ E]].
    + exists (users_collection w), []. rewrite app_nil_r.
      split; [exact E | split; [apply same_but_phone_refl | now left]].
    + exists (users_collection w), [new_profile message (now env (S (tick w)))].
      split; [exact E | split; [apply same_but_phone_refl | right; eauto]].
  - exists (users_collection w), []. rewrite app_nil_r, handle_menu_selection_users.
    split; [reflexivity | split; [apply same_but_phone_refl | now left]].
  - exists (users_collection w), []. rewrite app_nil_r, handle_pdf_users.
    split; [reflexivity | split; [apply same_but_phone_refl | now left]].
  - exists (users_collection w), []. rewrite app_nil_r, handle_image_users.
    split; [reflexivity | split; [apply same_but_phone_refl | now left]].
  - exists (users_collection w), []. rewrite app_nil_r, analyze_sentiment_users.
    split; [reflexivity | split; [apply same_but_phone_refl | now left]].
  - destruct (save_phone_number_users_cases env message w) as [E | [ph [_ E]]].
    + exists (users_collection w), []. rewrite app_nil_r.
      split; [exact E | split; [apply same_but_phone_refl | now left]].
    + exists (update_phone (chat_id message) ph (users_collection w)), [].
      rewrite app_nil_r. split; [exact E | split; [apply update_phone_same | now left]].
  - exists (users_collection w), []. rewrite app_nil_r, process_web_search_users.
    split; [reflexivity | split; [apply same_but_phone_refl | now left]].
  - exists (users_collection w), []. rewrite app_nil_r, chat_with_gemini_users.
    split; [reflexivity | split; [apply same_but_phone_refl | now left]].
Qed.

Lemma profiles_never_removed_witness :
  exists kept added,
    users_collection
      (fst (handle_start (calm_env "" [] []) (text_message 7 "/start") fresh_world))
    = (kept ++ added)%list /\
    List.Forall2 same_but_phone (users_collection fresh_world) kept /\
    (added = [] \/ exists created, added = [new_profile (text_message 7 "/start") created]).
Proof.
  apply (profiles_never_removed (calm_env "" [] []) (handle_start (calm_env "" [] []))
           (text_message 7 "/start") fresh_world).
  unfold entry_points, message_handlers. cbn [List.map snd app In]. tauto.
Defined.


(* ===================================================================== *)
(** ** Phone capture and profile display *)
(* ===================================================================== *)

Lemma profile_of_update_phone (c : Z) (ph : string) (l : list Profile) (u : Profile) :
  profile_of c l = Some u ->
  profile_of c (update_phone c ph l) = Some (with_phone ph u).
Proof.
  unfold profile_of. induction l as [|p l IH]; simpl; [discriminate|].
  destruct (p_chat_id p =? c)%Z eqn:E.
  - intros H. injection H as <-. simpl. now rewrite E.
  - intros H. simpl. rewrite E. now apply IH.
Qed.

Lemma update_phone_absent (c : Z) (ph : string) (l : list Profile) :
  profile_of c l = None -> update_phone c ph l = l.
Proof.
  unfold profile_of. induction l as [|p l IH]; simpl; [reflexivity|].
  destruct (p_chat_id p =? c)%Z; [discriminate|]. intros H. now rewrite IH.
Qed.

(** X8.  A shared contact is written on the profile of the chat: when the
    store answers and the chat has a profile, the profile found for the
    chat afterwards is the one found before with the phone number of the
    contact. *)
Theorem phone_saved_then_found
        (env : Env) (w : World) (message : Message) (ph : string) (u : Profile) :
  contact_phone message = Some ph ->
  mongo_up env (tick w) = true ->
  profile_of (chat_id message) (users_collection w) = Some u ->
  profile_of (chat_id message)
             (users_collection (fst (save_phone_number env message w)))
    = Some (with_phone ph u).
Proof.
  intros Hph Hup Hu.
  assert (E : users_collection (fst (save_phone_number env message w))
              = update_phone (chat_id message) ph (users_collection w)).
  { unfold save_phone_number, show_main_menu. rewrite Hph. run. rewrite Hup.
    crunch; reflexivity. }
  rewrite E. now apply profile_of_update_phone.
Qed.

Lemma phone_saved_then_found_witness :
  profile_of 7
    (users_collection
       (fst (save_phone_number (calm_env "" [] []) (contact_message 7 "+15550100")
                               one_profile)))
  = Some (mkProfile 7 "Ada" (Some "ada") (Some "+15550100") 1).
Proof.
  apply (phone_saved_then_found (calm_env "" [] []) one_profile
           (contact_message 7 "+15550100") "+15550100"
           (mkProfile 7 "Ada" (Some "ada") None 1)); reflexivity.
Defined.

(** X9.  A contact shared by a chat that has no profile is dropped: the
    profiles stay as they are, no profile is created, and the handler
    still answers "Phone number saved!" and shows the main menu. *)
Theorem phone_without_profile_dropped
        (env : Env) (w : World) (message : Message) (ph : string) :
  contact_phone message = Some ph ->
  profile_of (chat_id message) (users_collection w) = None ->
  mongo_up env (tick w) = true ->
  api_send env (S (tick w)) (chat_id message) phone_saved = true ->
  api_send env (S (S (tick w))) (chat_id message) "🔧 Main Menu - Select an option:" = true ->
  exists w',
    save_phone_number env message w = (w', Ret tt) /\
    users_collection w' = users_collection w /\
    outbox w' =
      (outbox w ++ [mkSent (next_message_id w) (chat_id message) phone_saved Plain;
                    main_menu_sent (S (next_message_id w)) (chat_id message)])%list.
Proof.
  intros Hph Hnone Hup Hack Hmenu.
  unfold save_phone_number, show_main_menu. rewrite Hph. run. rewrite Hup. run.
  fold phone_saved. rewrite send_message_ok by exact Hack. run.
  rewrite send_message_ok by exact Hmenu. run.
  eexists. split; [reflexivity|]. cbn [users_collection outbox].
  split; [now apply update_phone_absent | now rewrite <- app_assoc].
Qed.

Lemma phone_without_profile_dropped_witness :
  exists w',
    save_phone_number (calm_env "" [] []) (contact_message 7 "+15550100") fresh_world
      = (w', Ret tt) /\
    users_collection w' = [] /\
    outbox w' = [mkSent 0 7 phone_saved Plain; main_menu_sent 1 7].
Proof.
  destruct (phone_without_profile_dropped (calm_env "" [] []) fresh_world
              (contact_message 7 "+15550100") "+15550100"
              eq_refl eq_refl eq_refl eq_refl eq_refl) as [w' [Hrun [Hu Ho]]].
  exists w'. split; [exact Hrun|]. split; [exact Hu | exact Ho].
Defined.

(** X10.  "My Profile" reads the store and writes nothing.  With no
    profile on file the answer is "Profile not found"; with a profile it
    is the card of its name, username and phone number, where a phone
    number that was never shared, being stored as [None], is displayed as
    the word "None". *)
Theorem profile_display (env : Env) (w : World) (message : Message) :
  mongo_up env (tick w) = true ->
  (forall txt, api_send env (S (tick w)) (chat_id message) txt = true) ->
  exists txt,
    show_user_profile env message w =
      (push_sent (mkSent (next_message_id w) (chat_id message) txt Plain)
                 (bump_tick (bump_tick w)),
       Ret tt) /\
    (profile_of (chat_id message) (users_collection w) = None -> txt = profile_not_found) /\
    (forall u,
       profile_of (chat_id message) (users_collection w) = Some u ->
       (forall ph, p_phone_number u = Some ph -> txt = profile_card_head u ++ ph) /\
       (p_phone_number u = None -> txt = profile_card_head u ++ "None")).
Proof.
  intros Hup Hsend. unfold show_user_profile, profile_of. run. rewrite Hup. run.
  destruct (List.find _ (users_collection w)) as [u|]; run.
  - rewrite send_message_ok by apply Hsend.
    eexists. split; [reflexivity|]. split; [discriminate|].
    intros u' E. injection E as <-. unfold profile_card_head.
    split; [intros ph ->|intros ->]; cbn [str_of_option];
      rewrite !append_assoc; reflexivity.
  - rewrite send_message_ok by apply Hsend.
    eexists. split; [reflexivity|]. split; [reflexivity | discriminate].
Qed.

Lemma profile_display_witness :
  show_user_profile (calm_env "" [] []) (text_message 7 "👤 My Profile") one_profile =
    (push_sent (mkSent 0 7 ("👤 User Profile:" ++ PyStr.nl ++ "├ Name: Ada" ++ PyStr.nl ++
                            "├ Username: @ada" ++ PyStr.nl ++ "└ Phone: None") Plain)
               (bump_tick (bump_tick one_profile)),
     Ret tt).
Proof.
  destruct (profile_display (calm_env "" [] []) one_profile
              (text_message 7 "👤 My Profile") eq_refl (fun _ => eq_refl))
    as [txt [Hrun [_ Hcard]]].
  destruct (Hcard (mkProfile 7 "Ada" (Some "ada") None 1) eq_refl) as [_ Hnone].
  rewrite Hrun, (Hnone eq_refl). reflexivity.
Defined.


(* ===================================================================== *)
(** ** Chat with the model *)
(* ===================================================================== *)

(** X11.  The chat flow hands the trimmed text to the model as it is, and
    nothing else: after the "Thinking" notice the model is called once
    with that text; its answer is relayed unchanged under "Gemini says:",
    and a fault of the model is answered with the apology. *)
Theorem gemini_chat_relays
        (env : Env) (w : World) (message : Message) (t : string) (response : option string) :
  text message = Some t ->
  PyStr.strip t <> EmptyString ->
  api_send env (tick w) (chat_id message) thinking_notice = true ->
  gemini env (S (tick w)) (TextPrompt (PyStr.strip t)) = response ->
  api_send env (S (S (tick w))) (chat_id message) (gemini_answer response) = true ->
  exists w',
    chat_with_gemini env message w = (w', Ret tt) /\
    gateway_calls w' = (gateway_calls w ++ [TextPrompt (PyStr.strip t)])%list /\
    outbox w' =
      (outbox w ++
       [mkSent (next_message_id w) (chat_id message) thinking_notice Plain;
        mkSent (S (next_message_id w)) (chat_id message) (gemini_answer response) Plain])%list.
Proof.
  intros Ht Hne Hnotice Hresp Hsend.
  unfold chat_with_gemini. run. rewrite Ht. run.
  rewrite (truthy_nonempty _ Hne). run. fold thinking_notice.
  rewrite (send_message_ok env _ _ _ w Hnotice). run. rewrite Hresp.
  destruct response as [r|]; cbn [gemini_answer] in *; run.
  - rewrite send_message_ok by exact Hsend. run.
    eexists. split; [reflexivity|]. cbn [gateway_calls outbox].
    split; [reflexivity | now rewrite <- app_assoc].
  - fold gemini_failed. rewrite send_message_ok by exact Hsend. run.
    eexists. split; [reflexivity|]. cbn [gateway_calls outbox].
    split; [reflexivity | now rewrite <- app_assoc].
Qed.

Lemma gemini_chat_relays_witness :
  exists w',
    chat_with_gemini (calm_env "42" [] []) (text_message 7 (nbsp ++ "what is 6 x 7? "))
                     fresh_world
      = (w', Ret tt) /\
    gateway_calls w' = [TextPrompt "what is 6 x 7?"] /\
    outbox w' = [mkSent 0 7 thinking_notice Plain;
                 mkSent 1 7 ("💡 Gemini says:" ++ PyStr.nl ++ "42") Plain].
Proof.
  destruct (gemini_chat_relays (calm_env "42" [] []) fresh_world
              (text_message 7 (nbsp ++ "what is 6 x 7? ")) (nbsp ++ "what is 6 x 7? ")
              (Some "42")
              eq_refl ltac:(vm_compute; discriminate) eq_refl eq_refl eq_refl)
    as [w' [Hrun [Hcalls Hout]]].
  exists w'. split; [exact Hrun|]. split; [exact Hcalls | exact Hout].
Defined.

(** X12.  The chat flow on what is not a question.  A blank text is
    answered with "Please enter a valid query" and the model is not
    called.  A message with no text at all (a photo, say) makes the
    handler raise [AttributeError] before anything is sent: its trimming of
    the text stands outside the [try] block. *)
Theorem gemini_chat_without_question (env : Env) (w : World) (message : Message) :
  (text message = None ->
   chat_with_gemini env message w = (w, Raise AttributeError)) /\
  (forall t,
     text message = Some t ->
     PyStr.strip t = EmptyString ->
     gateway_calls (fst (chat_with_gemini env message w)) = gateway_calls w /\
     (api_send env (tick w) (chat_id message) invalid_query = true ->
      chat_with_gemini env message w =
        (push_sent (mkSent (next_message_id w) (chat_id message) invalid_query Plain)
                   (bump_tick w),
         Ret tt))).
Proof.
  split.
  - intros Ht. unfold chat_with_gemini. run. rewrite Ht. reflexivity.
  - intros t Ht Hblank. unfold chat_with_gemini. run. rewrite Ht. run.
    rewrite Hblank. run. fold invalid_query. split.
    + crunch; reflexivity.
    + intros Hsend. rewrite send_message_ok by exact Hsend. reflexivity.
Qed.

(* ===================================================================== *)
(** ** Web search: short lists and faults *)
(* ===================================================================== *)

(** Results that all carry a title and a link give one line each, in
    their order, numbered on from [i + 1]. *)
Lemma result_lines_well_formed (i : nat) (l : list SearchResult) :
  List.Forall well_formed l ->
  exists lines,
    result_lines i l = Ret lines /\
    List.length lines = List.length l /\
    (forall k r, List.nth_error l k = Some r ->
       exists title link,
         res_title r = Some title /\ res_link r = Some link /\
         List.nth_error lines k =
         Some (PyStr.of_nat (i + k + 1) ++ ". [" ++ title ++ "](" ++ link ++ ")")).
Proof.
  revert i. induction l as [|x l IH]; intros i Hall.
  - exists []. split; [reflexivity|]. split; [reflexivity|].
    intros [|k] r; discriminate.
  - inversion Hall as [|? ? [title [link [Htitle Hlink]]] Hrest]; subst.
    destruct (IH (S i) Hrest) as [lines [Hlines [Hlen Hnth]]].
    cbn [result_lines]. unfold result_line. rewrite Htitle, Hlink, Hlines.
    eexists. split; [reflexivity|]. split; [cbn [List.length]; now rewrite Hlen|].
    intros [|k] r Hr; cbn [List.nth_error] in *.
    + injection Hr as <-. exists title, link.
      split; [exact Htitle|]. split; [exact Hlink|]. now rewrite Nat.add_0_r.
    + destruct (Hnth k r Hr) as [title' [link' [Ht' [Hl' Hk]]]].
      exists title', link'. split; [exact Ht'|]. split; [exact Hl'|].
      rewrite Hk. do 2 f_equal. f_equal. lia.
Qed.

(** X13.  The search reply lists the results in the order of the gateway,
    numbered from 1, as many as there are up to three, when each of them
    carries its title and its link: with one or two results it has one or
    two lines, each made of the number, the title and the link of its
    result; with none (an empty list, or an answer without the
    'organic_results' entry) it is "No results found". *)
Theorem web_search_lists_up_to_three
        (env : Env) (w : World) (message : Message) (t : string)
        (answer : option (list SearchResult)) :
  text message = Some t ->
  PyStr.strip t <> EmptyString ->
  api_send env (tick w) (chat_id message) searching_notice = true ->
  serp env (S (tick w)) (PyStr.strip t) = Some answer ->
  (forall txt, api_send env (S (S (tick w))) (chat_id message) txt = true) ->
  List.Forall well_formed (firstn 3 (match answer with Some l => l | None => [] end)) ->
  exists w' reply opts found lines,
    found = match answer with Some l => l | None => [] end /\
    process_web_search env message w = (w', Ret tt) /\
    outbox w' =
      (outbox w ++
       [mkSent (next_message_id w) (chat_id message) searching_notice Plain;
        mkSent (S (next_message_id w)) (chat_id message) reply opts])%list /\
    (found = [] -> reply = no_results /\ opts = Plain) /\
    (found <> [] ->
     reply = "🌐 Top Results for '" ++ PyStr.strip t ++ "':" ++ PyStr.nl
             ++ PyStr.join PyStr.nl lines /\
     opts = Markdown) /\
    List.length lines = Nat.min 3 (List.length found) /\
    (forall k r, k < 3 -> List.nth_error found k = Some r ->
       exists title link,
         res_title r = Some title /\ res_link r = Some link /\
         List.nth_error lines k =
         Some (PyStr.of_nat (k + 1) ++ ". [" ++ title ++ "](" ++ link ++ ")")).
Proof.
  intros Ht Hne Hnotice Hserp Hsend Hall.
  unfold process_web_search. run. rewrite Ht. run.
  rewrite (truthy_nonempty _ Hne). run. fold searching_notice.
  rewrite (send_message_ok env _ _ _ w Hnotice). run.
  rewrite Hserp.
  destruct (result_lines_well_formed 0 _ Hall) as [lines [Hlines [Hlen Hnth]]].
  rewrite List.length_firstn in Hlen.
  assert (Hnth' : forall k r, k < 3 ->
            List.nth_error (match answer with Some l => l | None => [] end) k = Some r ->
            exists title link,
              res_title r = Some title /\ res_link r = Some link /\
              List.nth_error lines k =
              Some (PyStr.of_nat (k + 1) ++ ". [" ++ title ++ "](" ++ link ++ ")")).
  { intros k r Hk Hr. apply (Hnth k r).
    rewrite List.nth_error_firstn. destruct (Nat.ltb_spec k 3); [exact Hr | lia]. }
  clear Hnth.
  destruct answer as [[|r0 rest]|]; run.
  - cbn [firstn]. rewrite send_message_ok by apply Hsend. run.
    eexists _, _, _, [], lines. split; [reflexivity|].
    split; [reflexivity|]. cbn [outbox].
    split; [now rewrite <- app_assoc|].
    split; [intros _; split; reflexivity|].
    split; [intros C; now contradiction C|].
    split; [exact Hlen | exact Hnth'].
  - change (firstn 3 (r0 :: rest)) with (r0 :: firstn 2 rest) in *.
    cbv iota. rewrite Hlines. run.
    rewrite send_message_ok by apply Hsend. run.
    eexists _, _, _, (r0 :: rest), lines. split; [reflexivity|].
    split; [reflexivity|]. cbn [outbox].
    split; [now rewrite <- app_assoc|].
    split; [discriminate|].
    split; [intros _; split; reflexivity|].
    split; [exact Hlen | exact Hnth'].
  - cbn [firstn]. rewrite send_message_ok by apply Hsend. run.
    eexists _, _, _, [], lines. split; [reflexivity|].
    split; [reflexivity|]. cbn [outbox].
    split; [now rewrite <- app_assoc|].
    split; [intros _; split; reflexivity|].
    split; [intros C; now contradiction C|].
    split; [exact Hlen | exact Hnth'].
Qed.

Lemma web_search_lists_up_to_three_witness :
  exists w',
    process_web_search (calm_env "" (firstn 2 four_results) []) (text_message 7 "rust vs go")
                       fresh_world = (w', Ret tt) /\
    outbox w' =
      [mkSent 0 7 searching_notice Plain;
       mkSent 1 7 ("🌐 Top Results for 'rust vs go':" ++ PyStr.nl ++
                   "1. [Rust vs Go](https://a.example/1)" ++ PyStr.nl ++
                   "2. [Go or Rust](https://b.example/2)") Markdown].
Proof.
  destruct (web_search_lists_up_to_three (calm_env "" (firstn 2 four_results) [])
              fresh_world (text_message 7 "rust vs go") "rust vs go"
              (Some (firstn 2 four_results))
              eq_refl ltac:(vm_compute; discriminate) eq_refl eq_refl (fun _ => eq_refl))
    as [w' [reply [opts [found [lines [Ef [Hrun _]]]]]]].
  { repeat constructor; eexists _, _; split; reflexivity. }
  exists w'. split; [exact Hrun|].
  assert (E : fst (process_web_search (calm_env "" (firstn 2 four_results) [])
                     (text_message 7 "rust vs go") fresh_world) = w')
    by (rewrite Hrun; reflexivity).
  rewrite <- E. reflexivity.
Defined.

Lemma gemini_chat_without_question_witness :
  chat_with_gemini (calm_env "" [] []) (text_message 7 "   ") fresh_world =
    (push_sent (mkSent 0 7 invalid_query Plain) (bump_tick fresh_world), Ret tt)
  /\ chat_with_gemini (calm_env "" [] []) (photo_message 7) fresh_world
     = (fresh_world, Raise AttributeError).
Proof.
  destruct (gemini_chat_without_question (calm_env "" [] []) fresh_world
              (text_message 7 "   ")) as [_ Hblank].
  destruct (gemini_chat_without_question (calm_env "" [] []) fresh_world
              (photo_message 7)) as [Hnone _].
  split; [apply (Hblank "   " eq_refl eq_refl); reflexivity | apply Hnone; reflexivity].
Defined.

(** X14.  The search flow on what is not a query or cannot be answered.
    A blank text cancels the search before any call of the gateway; a
    message with no text, and a fault of the gateway, are both answered
    with "Search failed": here the trimming of the text stands inside the
    [try] block. *)
Theorem web_search_cancelled_or_failed (env : Env) (w : World) (message : Message) :
  (forall t,
     text message = Some t -> PyStr.strip t = EmptyString ->
     api_send env (tick w) (chat_id message) search_cancelled = true ->
     process_web_search env message w =
       (push_sent (mkSent (next_message_id w) (chat_id message) search_cancelled Plain)
                  (bump_tick w),
        Ret tt)) /\
  (text message = None ->
   api_send env (tick w) (chat_id message) search_failed = true ->
   process_web_search env message w =
     (push_sent (mkSent (next_message_id w) (chat_id message) search_failed Plain)
                (bump_tick w),
      Ret tt)) /\
  (forall t,
     text message = Some t -> PyStr.strip t <> EmptyString ->
     api_send env (tick w) (chat_id message) searching_notice = true ->
     serp env (S (tick w)) (PyStr.strip t) = None ->
     api_send env (S (S (tick w))) (chat_id message) search_failed = true ->
     exists w',
       process_web_search env message w = (w', Ret tt) /\
       outbox w' =
         (outbox w ++
          [mkSent (next_message_id w) (chat_id message) searching_notice Plain;
           mkSent (S (next_message_id w)) (chat_id message) search_failed Plain])%list).
Proof.
  split; [|split].
  - intros t Ht Hblank Hsend. unfold process_web_search. run. rewrite Ht. run.
    rewrite Hblank. run. fold search_cancelled.
    rewrite send_message_ok by exact Hsend. reflexivity.
  - intros Ht Hsend. unfold process_web_search. run. rewrite Ht. run.
    fold search_failed. rewrite send_message_ok by exact Hsend. reflexivity.
  - intros t Ht Hne Hnotice Hserp Hsend. unfold process_web_search. run. rewrite Ht. run.
    rewrite (truthy_nonempty _ Hne). run. fold searching_notice.
    rewrite (send_message_ok env _ _ _ w Hnotice). run. rewrite Hserp. run.
    fold search_failed. rewrite send_message_ok by exact Hsend. run.
    eexists. split; [reflexivity|]. cbn [outbox]. now rewrite <- app_assoc.
Qed.

Lemma web_search_cancelled_or_failed_witness :
  process_web_search (calm_env "" [] []) (text_message 7 (" " ++ ideographic_space ++ nbsp))
                     fresh_world =
    (push_sent (mkSent 0 7 search_cancelled Plain) (bump_tick fresh_world), Ret tt)
  /\ process_web_search (calm_env "" [] []) (photo_message 7) fresh_world =
    (push_sent (mkSent 0 7 search_failed Plain) (bump_tick fresh_world), Ret tt)
  /\ exists w',
       process_web_search (with_failing_search (calm_env "" [] []))
                          (text_message 7 "rust vs go") fresh_world = (w', Ret tt) /\
       outbox w' = [mkSent 0 7 searching_notice Plain; mkSent 1 7 search_failed Plain].
Proof.
  destruct (web_search_cancelled_or_failed (calm_env "" [] []) fresh_world
              (text_message 7 (" " ++ ideographic_space ++ nbsp))) as [Hblank _].
  destruct (web_search_cancelled_or_failed (calm_env "" [] []) fresh_world
              (photo_message 7)) as [_ [Hnone _]].
  destruct (web_search_cancelled_or_failed (with_failing_search (calm_env "" [] []))
              fresh_world (text_message 7 "rust vs go")) as [_ [_ Hfault]].
  split; [apply (Hblank (" " ++ ideographic_space ++ nbsp)); reflexivity|].
  split; [apply Hnone; reflexivity|].
  apply (Hfault "rust vs go"); first [reflexivity | vm_compute; discriminate].
Defined.


(* ===================================================================== *)
(** ** PDF processing: other documents, the whole flow, the files *)
(* ===================================================================== *)

(** X15.  A document that is not declared as a PDF is answered with
    "Please send a PDF file" and nothing else happens: no placeholder, no
    download, no file, no call of the model, no deletion. *)
Theorem other_documents_refused
        (env : Env) (w : World) (message : Message) (doc : Document) :
  document message = Some doc ->
  mime_type doc <> "application/pdf" ->
  api_send env (tick w) (chat_id message) send_a_pdf = true ->
  handle_pdf env message w =
    (push_sent (mkSent (next_message_id w) (chat_id message) send_a_pdf Plain) (bump_tick w),
     Ret tt).
Proof.
  intros Hdoc Hmime Hsend. unfold handle_pdf. run. rewrite Hdoc. run.
  apply String.eqb_neq in Hmime. rewrite Hmime. run. fold send_a_pdf.
  rewrite send_message_ok by exact Hsend. reflexivity.
Qed.

Lemma other_documents_refused_witness :
  handle_pdf (calm_env "" [] []) (word_message 7) fresh_world =
    (push_sent (mkSent 0 7 send_a_pdf Plain) (bump_tick fresh_world), Ret tt).
Proof.
  apply (other_documents_refused (calm_env "" [] []) fresh_world (word_message 7)
           (mkDocument "application/msword" "doc-2") eq_refl);
    [discriminate | reflexivity].
Defined.

(** Slicing keeps whole code points, as many as asked for or all there
    are, from the head of the text. *)
Lemma take_code_points (n : nat) (s : string) :
  code_points (PyStr.take n s) = Nat.min n (code_points s).
Proof.
  revert n. induction s as [|a s IH]; intros n; cbn [PyStr.take code_points].
  - now rewrite Nat.min_0_r.
  - destruct (PyStr.is_continuation a) eqn:Ha; cbn [code_points].
    + rewrite Ha. cbn [Nat.add]. apply IH.
    + destruct n as [|n]; [reflexivity|]. cbn [code_points]. rewrite Ha, IH.
      cbn [Nat.add]. now rewrite <- Nat.succ_min_distr.
Qed.

Lemma take_prefix (n : nat) (s : string) :
  exists rest, s = PyStr.take n s ++ rest.
Proof.
  revert n. induction s as [|a s IH]; intros n; cbn [PyStr.take].
  - now exists EmptyString.
  - destruct (PyStr.is_continuation a).
    + destruct (IH n) as [rest E]. exists rest. rewrite append_cons. now rewrite <- E.
    + destruct n as [|n]; [now exists (String a s)|].
      destruct (IH n) as [rest E]. exists rest. rewrite append_cons. now rewrite <- E.
Qed.

Example take_two_code_points :
  PyStr.take 2 ("né" ++ nbsp ++ "e") = "né" /\
  PyStr.take 3 ("né" ++ nbsp ++ "e") = "né" ++ nbsp /\
  PyStr.take 9 ("né" ++ nbsp ++ "e") = "né" ++ nbsp ++ "e".
Proof. repeat split; reflexivity. Qed.

Lemma pages_text_joined (pages : list Page) (acc : string) :
  ~ In PageBroken pages ->
  pages_text pages acc = Ret (acc ++ joined_lines (page_texts pages)).
Proof.
  revert acc. induction pages as [|pg rest IH]; intros acc H.
  - cbn. now rewrite append_empty.
  - assert (H' : ~ In PageBroken rest) by (intros C; apply H; now right).
    destruct pg as [[[|a t]|]|]; cbn [pages_text PyStr.truthy].
    + now apply IH.
    + rewrite (IH _ H').
      change (page_texts (PageText (Some (String a t)) :: rest))
        with (String a t :: page_texts rest).
      cbn [joined_lines fold_right]. now rewrite !append_assoc.
    + now apply IH.
    + exfalso. apply H. now left.
Qed.

Lemma pages_text_extracted (env : Env) (data : string) (pages : list Page) :
  pdf_reader env data = Some pages ->
  ~ In PageBroken pages ->
  extracted_text env data = PyStr.strip (joined_lines (page_texts pages)).
Proof.
  intros Hr Hb. unfold extracted_text.
  now rewrite Hr, (pages_text_joined _ _ Hb), append_nil.
Qed.

Lemma classify_prompt_text (txt : string) :
  classify_prompt txt =
  "Analyze this document and provide:" ++ PyStr.nl ++
  "        1. Document type (report, article, etc.)" ++ PyStr.nl ++
  "        2. Main topic" ++ PyStr.nl ++
  "        3. Key points (3-5 bullet points)" ++ PyStr.nl ++
  "        4. Overall sentiment" ++ PyStr.nl ++
  "        " ++ PyStr.nl ++
  "        Document content: " ++ PyStr.take 10000 txt.
Proof.
  unfold classify_prompt. generalize (PyStr.take 10000 txt). intros tail. reflexivity.
Qed.

(** X16.  The whole PDF flow on a document with text, every call of the
    Bot API and of the file system succeeding and every page being
    readable.  The text of the document is made of the texts of its pages
    that have one, each followed by a newline, trimmed as a whole; when it
    is not empty the model is called once, with the request for a document
    type, a main topic, key points and a sentiment, closed by the first
    10000 characters of that text; its answer is sent as the analysis, and
    a fault of the model is reported inside the analysis as "Failed to
    analyze document content", not as an error of the PDF; at the end the
    temporary file is gone and the placeholder is deleted. *)
Theorem pdf_flow
        (env : Env) (w : World) (message : Message) (doc : Document)
        (fp data : string) (pages : list Page) (body prompt : string)
        (response : option string) :
  document message = Some doc ->
  mime_type doc = "application/pdf" ->
  api_send env (tick w) (chat_id message) processing_pdf = true ->
  api_get_file env (S (tick w)) (doc_file_id doc) = Some fp ->
  api_download env (S (S (tick w))) fp = Some data ->
  os_open env (S (S (S (tick w)))) (temp_pdf (chat_id message)) = true ->
  os_write env (S (S (S (S (tick w))))) = true ->
  pdf_reader env data = Some pages ->
  ~ In PageBroken pages ->
  body = PyStr.strip (joined_lines (page_texts pages)) ->
  body <> EmptyString ->
  prompt =
    "Analyze this document and provide:" ++ PyStr.nl ++
    "        1. Document type (report, article, etc.)" ++ PyStr.nl ++
    "        2. Main topic" ++ PyStr.nl ++
    "        3. Key points (3-5 bullet points)" ++ PyStr.nl ++
    "        4. Overall sentiment" ++ PyStr.nl ++
    "        " ++ PyStr.nl ++
    "        Document content: " ++ PyStr.take 10000 body ->
  gemini env (S (S (S (S (S (tick w)))))) (TextPrompt prompt) = response ->
  api_send env (S (S (S (S (S (S (tick w))))))) (chat_id message)
           (pdf_analysis response) = true ->
  api_delete env (S (S (S (S (S (S (S (tick w)))))))) (chat_id message)
             (next_message_id w) = true ->
  exists w',
    handle_pdf env message w = (w', Ret tt) /\
    gateway_calls w' = (gateway_calls w ++ [TextPrompt prompt])%list /\
    outbox w' =
      (outbox w ++
       [mkSent (next_message_id w) (chat_id message) processing_pdf Plain;
        mkSent (S (next_message_id w)) (chat_id message) (pdf_analysis response) Plain])%list /\
    files w' !! temp_pdf (chat_id message) = None /\
    deleted w' = (deleted w ++ [(chat_id message, next_message_id w)])%list.
Proof.
  intros Hdoc Hmime Hsent Hfile Hdown Hopen Hwrite Hread Hpages Hbody Htext Hprompt
         Hresp Hsend Hdel.
  rewrite <- (pages_text_extracted env data pages Hread Hpages) in Hbody.
  rewrite <- classify_prompt_text in Hprompt. subst body prompt.
  unfold handle_pdf. run. rewrite Hdoc. run. rewrite Hmime.
  replace (String.eqb "application/pdf" "application/pdf") with true by reflexivity. run.
  rewrite (send_message_ok env _ _ _ w Hsent). run.
  rewrite Hfile. run. rewrite Hdown. run.
  fold (temp_pdf (chat_id message)). rewrite Hopen. run. rewrite Hwrite. run.
  rewrite (extract_text_from_pdf_run env _ data) by (cbn [files]; apply lookup_insert_eq).
  rewrite (truthy_nonempty _ Htext). unfold classify_pdf_content. run.
  rewrite Hresp. unfold pdf_analysis in Hsend.
  destruct response as [r|]; run.
  - rewrite send_message_ok by exact Hsend. run.
    rewrite lookup_insert_eq. run. rewrite Hdel. run.
    eexists. split; [reflexivity|]. cbn [gateway_calls outbox files deleted].
    split; [reflexivity|]. split; [now rewrite <- app_assoc|].
    split; [apply lookup_delete_eq | reflexivity].
  - fold classification_failed. rewrite send_message_ok by exact Hsend. run.
    rewrite lookup_insert_eq. run. rewrite Hdel. run.
    eexists. split; [reflexivity|]. cbn [gateway_calls outbox files deleted].
    split; [reflexivity|]. split; [now rewrite <- app_assoc|].
    split; [apply lookup_delete_eq | reflexivity].
Qed.

Lemma pdf_flow_witness :
  exists w',
    handle_pdf (calm_env "A short report." [] [PageText (Some (" Quarterly" ++ nbsp));
                                               PageText None;
                                               PageText (Some ("figures" ++ ideographic_space))])
               (pdf_message 7) fresh_world = (w', Ret tt) /\
    gateway_calls w' =
      [TextPrompt
         ("Analyze this document and provide:" ++ PyStr.nl ++
          "        1. Document type (report, article, etc.)" ++ PyStr.nl ++
          "        2. Main topic" ++ PyStr.nl ++
          "        3. Key points (3-5 bullet points)" ++ PyStr.nl ++
          "        4. Overall sentiment" ++ PyStr.nl ++
          "        " ++ PyStr.nl ++
          "        Document content: Quarterly" ++ nbsp ++ PyStr.nl ++ "figures")] /\
    outbox w' =
      [mkSent 0 7 processing_pdf Plain;
       mkSent 1 7 ("📑 PDF Analysis:" ++ PyStr.nl ++ "A short report.") Plain] /\
    files w' !! temp_pdf 7 = None /\
    deleted w' = [(7%Z, 0)].
Proof.
  destruct (pdf_flow (calm_env "A short report." [] [PageText (Some (" Quarterly" ++ nbsp));
                                                     PageText None;
                                                     PageText (Some ("figures" ++ ideographic_space))])
              fresh_world (pdf_message 7) (mkDocument "application/pdf" "doc-1")
              "documents/file_0" "payload"
              [PageText (Some (" Quarterly" ++ nbsp)); PageText None;
               PageText (Some ("figures" ++ ideographic_space))]
              ("Quarterly" ++ nbsp ++ PyStr.nl ++ "figures")
              ("Analyze this document and provide:" ++ PyStr.nl ++
               "        1. Document type (report, article, etc.)" ++ PyStr.nl ++
               "        2. Main topic" ++ PyStr.nl ++
               "        3. Key points (3-5 bullet points)" ++ PyStr.nl ++
               "        4. Overall sentiment" ++ PyStr.nl ++
               "        " ++ PyStr.nl ++
               "        Document content: Quarterly" ++ nbsp ++ PyStr.nl ++ "figures")
              (Some "A short report.")
              eq_refl eq_refl eq_refl eq_refl eq_refl eq_refl eq_refl eq_refl)
    as [w' [Hrun [Hcalls [Hout [Hfile Hdel]]]]].
  - intros [C | [C | [C | []]]]; discriminate C.
  - vm_compute. reflexivity.
  - vm_compute. discriminate.
  - vm_compute. reflexivity.
  - reflexivity.
  - reflexivity.
  - reflexivity.
  - exists w'. split; [exact Hrun|]. split; [exact Hcalls|]. split; [exact Hout|].
    split; [exact Hfile | exact Hdel].
Defined.

Lemma handle_pdf_files (env : Env) (message : Message) (w : World) :
  files (fst (handle_pdf env message w)) = files w
  \/ files (fst (handle_pdf env message w)) = delete (temp_pdf (chat_id message)) (files w).
Proof.
  unfold handle_pdf, extract_text_from_pdf, classify_pdf_content.
  fold (temp_pdf (chat_id message)).
  crunch_with (rewrite ?lookup_insert_eq); cbn [files];
    first
      [ left; reflexivity
      | right; rewrite ?delete_insert_eq; reflexivity
      | exfalso;
        match goal with
        | H : <[_ := _]> _ !! _ = None |- _ => rewrite lookup_insert_eq in H; discriminate
        end ].
Qed.

(** X17.  The PDF handler litters no file: whatever happens, every file
    other than the temporary file of the chat is left as it was, and a
    temporary file that was not there before is not there afterwards. *)
Theorem pdf_leaves_no_file (env : Env) (w : World) (message : Message) :
  (forall path, path <> temp_pdf (chat_id message) ->
     files (fst (handle_pdf env message w)) !! path = files w !! path) /\
  (files w !! temp_pdf (chat_id message) = None ->
   files (fst (handle_pdf env message w)) = files w).
Proof.
  destruct (handle_pdf_files env message w) as [-> | ->].
  - split; reflexivity.
  - split.
    + intros path H. now apply lookup_delete_ne.
    + intros H. now apply delete_id.
Qed.


Lemma pages_text_broken (pages : list Page) (acc : string) :
  In PageBroken pages -> pages_text pages acc = Raise PdfReadError.
Proof.
  revert acc. induction pages as [|pg rest IH]; intros acc H; [destruct H|].
  destruct H as [-> | H]; [reflexivity|].
  destruct pg as [[t|]|]; simpl; [destruct (PyStr.truthy t)| |]; auto.
Qed.

Lemma pages_text_returns (pages : list Page) (acc : string) :
  ~ In PageBroken pages -> ~ exists e, pages_text pages acc = Raise e.
Proof.
  revert acc. induction pages as [|pg rest IH]; intros acc H [e He]; simpl in He;
    [discriminate|].
  assert (H' : ~ In PageBroken rest) by (intros C; apply H; now right).
  destruct pg as [[t|]|].
  - destruct (PyStr.truthy t); eapply (IH _ H'); exists e; exact He.
  - eapply (IH _ H'). exists e. exact He.
  - apply H. left. reflexivity.
Qed.

(** X18.  Text extraction never raises and changes nothing: a missing
    file, a file PyPDF2 cannot read, and a file with a single page whose
    extraction fails all give the empty text, whatever the other pages
    hold; otherwise the text is made of the texts of the pages that have
    one, in their order, each followed by a newline, and trimmed as a
    whole. *)
Theorem extraction_never_raises (env : Env) (path : string) (w : World) :
  exists txt,
    extract_text_from_pdf env path w = (w, Ret txt) /\
    (files w !! path = None -> txt = EmptyString) /\
    (forall data,
       files w !! path = Some data ->
       (pdf_reader env data = None -> txt = EmptyString) /\
       (forall pages,
          pdf_reader env data = Some pages ->
          (In PageBroken pages -> txt = EmptyString) /\
          (~ In PageBroken pages ->
           txt = PyStr.strip (joined_lines (page_texts pages))))).
Proof.
  unfold extract_text_from_pdf. run.
  destruct (files w !! path) as [data|] eqn:Hf; run.
  - destruct (pdf_reader env data) as [pages|] eqn:Hr; run.
    + destruct (pages_text pages EmptyString) as [body|e] eqn:Hp; run.
      * eexists. split; [reflexivity|]. split; [discriminate|].
        intros d E. injection E as <-. rewrite Hr. split; [discriminate|].
        intros ps E. injection E as <-. split.
        -- intros Hb. rewrite (pages_text_broken _ _ Hb) in Hp. discriminate.
        -- intros Hb. rewrite (pages_text_joined _ _ Hb), append_nil in Hp.
           now injection Hp as <-.
      * apply pages_text_raises in Hp as Hpe. subst e. run.
        eexists. split; [reflexivity|]. split; [discriminate|].
        intros d E. injection E as <-. rewrite Hr. split; [discriminate|].
        intros ps E. injection E as <-. split; [reflexivity|].
        intros Hb. exfalso. apply (pages_text_returns _ EmptyString Hb). eauto.
    + eexists. split; [reflexivity|]. split; [discriminate|].
      intros d E. injection E as <-. rewrite Hr. split; [reflexivity | discriminate].
  - eexists. split; [reflexivity|]. split; [reflexivity | discriminate].
Qed.

(** Three pages with text between pages without: the no-break space at
    the end of the last page goes with the trimming. *)
Example extraction_of_five_pages :
  extract_text_from_pdf
    (calm_env "" [] [PageText (Some "Quarterly"); PageText None; PageText (Some "");
                     PageText (Some "figures"); PageText (Some ("2024 " ++ nbsp))])
    "q.pdf" (set_files (fun f => <["q.pdf" := "payload"]> f) fresh_world)
  = (set_files (fun f => <["q.pdf" := "payload"]> f) fresh_world,
     Ret ("Quarterly" ++ PyStr.nl ++ "figures" ++ PyStr.nl ++ "2024")).
Proof. vm_compute. reflexivity. Qed.

(* ===================================================================== *)
(** ** Image analysis: the whole flow *)
(* ===================================================================== *)

(** X19.  The whole image flow, every call of the Bot API succeeding: the
    file fetched is the last entry of [message.photo] (the largest size),
    the model is called once, with "Describe this image in detail" and
    the payload; its description is sent, followed by the invitation to
    ask further questions, or, when the model fails, the error message
    alone; the placeholder is deleted. *)
Theorem image_flow
        (env : Env) (w : World) (message : Message)
        (smaller : list string) (largest fp data : string) (response : option string) :
  photo message = (smaller ++ [largest])%list ->
  api_send env (tick w) (chat_id message) analyzing_image = true ->
  api_get_file env (S (tick w)) largest = Some fp ->
  api_download env (S (S (tick w))) fp = Some data ->
  image_open env data = true ->
  gemini env (S (S (S (tick w)))) (ImagePrompt "Describe this image in detail" data)
    = response ->
  (forall t txt, api_send env t (chat_id message) txt = true) ->
  (forall t, api_delete env t (chat_id message) (next_message_id w) = true) ->
  exists w',
    handle_image env message w = (w', Ret tt) /\
    gateway_calls w' =
      (gateway_calls w ++ [ImagePrompt "Describe this image in detail" data])%list /\
    List.map sent_text (outbox w') =
      (List.map sent_text (outbox w) ++ analyzing_image :: image_answer env response)%list /\
    deleted w' = (deleted w ++ [(chat_id message, next_message_id w)])%list.
Proof.
  intros Hphoto Hsent Hfile Hdown Himg Hresp Hsend Hdel.
  unfold handle_image. run. fold analyzing_image.
  rewrite (send_message_ok env _ _ _ w Hsent). run.
  rewrite Hphoto, List.map_app. cbn [List.map]. rewrite List.last_last. run.
  rewrite Hfile. run. rewrite Hdown. run. rewrite Himg. run. rewrite Hresp.
  destruct response as [r|]; run.
  - rewrite send_message_ok by apply Hsend. run.
    rewrite send_message_ok by apply Hsend. run. rewrite Hdel. run.
    eexists. split; [reflexivity|]. cbn [gateway_calls outbox deleted image_answer].
    split; [reflexivity|]. split; [|reflexivity].
    rewrite !List.map_app. cbn [List.map sent_text]. rewrite <- !app_assoc. reflexivity.
  - rewrite send_message_ok by apply Hsend. run. rewrite Hdel. run.
    eexists. split; [reflexivity|]. cbn [gateway_calls outbox deleted image_answer].
    split; [reflexivity|]. split; [|reflexivity].
    rewrite !List.map_app. cbn [List.map sent_text]. rewrite <- !app_assoc. reflexivity.
Qed.

Lemma image_flow_witness :
  exists w',
    handle_image (calm_env "A cat on a sofa." [] []) (photo_message 7) fresh_world
      = (w', Ret tt) /\
    gateway_calls w' = [ImagePrompt "Describe this image in detail" "payload"] /\
    List.map sent_text (outbox w') =
      [analyzing_image; "📸 Image Analysis:" ++ PyStr.nl ++ "A cat on a sofa.";
       "💡 Ask follow-up questions about the image"] /\
    deleted w' = [(7%Z, 0)].
Proof.
  destruct (image_flow (calm_env "A cat on a sofa." [] []) fresh_world (photo_message 7)
              ["photo-small"] "photo-large" "documents/file_0" "payload"
              (Some "A cat on a sofa.")
              eq_refl eq_refl eq_refl eq_refl eq_refl eq_refl
              (fun _ _ => eq_refl) (fun _ => eq_refl))
    as [w' [Hrun [Hcalls [Hout Hdel]]]].
  exists w'. split; [exact Hrun|]. split; [exact Hcalls|]. split; [exact Hout | exact Hdel].
Defined.


(* ===================================================================== *)
(** ** The menu: questions, continuations, stop *)
(* ===================================================================== *)

Ltac decide_labels :=
  repeat match goal with
         | |- context [String.eqb ?a ?b] =>
             let v := eval vm_compute in (String.eqb a b) in
             change (String.eqb a b) with v
         end.

(** X20.  "Web Search" and "Chat with Gemini" ask their question and
    register their continuation for the chat of the sender, and for no
    other chat; when the question cannot be sent, nothing is registered. *)
Theorem menu_registers_continuation
        (env : Env) (w : World) (message : Message) (k : Continuation) :
  text message = Some (label_of k) ->
  (api_send env (tick w) (chat_id message) (question_of k) = true ->
   handle_menu_selection env message w =
     (set_next_step (fun t => <[chat_id message := k]> t)
        (push_sent (mkSent (next_message_id w) (chat_id message) (question_of k) Plain)
                   (bump_tick w)),
      Ret tt)) /\
  (api_send env (tick w) (chat_id message) (question_of k) = false ->
   next_step (fst (handle_menu_selection env message w)) = next_step w).
Proof.
  intros Ht. unfold handle_menu_selection, text_is. rewrite Ht.
  destruct k; cbn [label_of question_of]; decide_labels; run; split; intros Hsend.
  - rewrite send_message_ok by exact Hsend. reflexivity.
  - rewrite send_message_refused by exact Hsend. crunch; reflexivity.
  - rewrite send_message_ok by exact Hsend. reflexivity.
  - rewrite send_message_refused by exact Hsend. crunch; reflexivity.
Qed.

Lemma menu_registers_continuation_witness :
  next_step (fst (handle_menu_selection (calm_env "" [] []) (text_message 7 "🌐 Web Search")
                                        fresh_world)) !! 7%Z
  = Some K_process_web_search.
Proof.
  rewrite (proj1 (menu_registers_continuation (calm_env "" [] []) fresh_world
                    (text_message 7 "🌐 Web Search") K_process_web_search eq_refl) eq_refl).
  reflexivity.
Defined.

(** X21.  "Stop Bot".  When the farewell is delivered, polling is switched
    off and the handler ends with [SystemExit], which its own
    [except Exception] clause does not stop.  When the farewell is
    refused, the bot is not stopped: the fault is caught, the apology is
    sent and polling stays on. *)
Theorem stop_bot_exits (env : Env) (w : World) (message : Message) :
  text message = Some "🛑 Stop Bot" ->
  (api_send env (tick w) (chat_id message) farewell = true ->
   handle_menu_selection env message w =
     (set_polling false
        (push_sent (mkSent (next_message_id w) (chat_id message) farewell Plain)
                   (bump_tick w)),
      Raise SystemExit)) /\
  (api_send env (tick w) (chat_id message) farewell = false ->
   api_send env (S (tick w)) (chat_id message) request_failed = true ->
   handle_menu_selection env message w =
     (push_sent (mkSent (next_message_id w) (chat_id message) request_failed Plain)
                (bump_tick (bump_tick w)),
      Ret tt)).
Proof.
  intros Ht. unfold handle_menu_selection, text_is, stop_bot. rewrite Ht.
  decide_labels. run. fold farewell. split.
  - intros Hsend. rewrite send_message_ok by exact Hsend. reflexivity.
  - intros Hrefused Hsend. rewrite send_message_refused by exact Hrefused. run.
    fold request_failed. rewrite send_message_ok by exact Hsend. reflexivity.
Qed.

Lemma stop_bot_exits_witness :
  exists w',
    handle_menu_selection (calm_env "" [] []) (text_message 7 "🛑 Stop Bot") fresh_world
      = (w', Raise SystemExit) /\
    polling w' = false /\
    outbox w' = [mkSent 0 7 farewell Plain].
Proof.
  eexists. split.
  - apply (proj1 (stop_bot_exits (calm_env "" [] []) fresh_world
                    (text_message 7 "🛑 Stop Bot") eq_refl)). reflexivity.
  - split; reflexivity.
Defined.

(* ===================================================================== *)
(** ** First contact *)
(* ===================================================================== *)

(** X22.  The first [/start] of a chat, the store and the Bot API
    answering: the profile is filed with the name and username of the
    sender, the time of the call and no phone number; the welcome is sent,
    then the request for the phone number with its one-time keyboard; no
    pending step is registered. *)
Theorem start_new_user (env : Env) (w : World) (message : Message) :
  profile_of (chat_id message) (users_collection w) = None ->
  mongo_up env (tick w) = true ->
  mongo_up env (S (S (tick w))) = true ->
  api_send env (S (S (S (tick w)))) (chat_id message) welcome = true ->
  api_send env (S (S (S (S (tick w))))) (chat_id message)
           "🔐 Please share your phone number:" = true ->
  exists w',
    handle_start env message w = (w', Ret tt) /\
    users_collection w' =
      (users_collection w ++ [new_profile message (now env (S (tick w)))])%list /\
    outbox w' =
      (outbox w ++ [mkSent (next_message_id w) (chat_id message) welcome Plain;
                    phone_request_sent (S (next_message_id w)) (chat_id message)])%list /\
    next_step w' = next_step w.
Proof.
  intros Hnone Hup Hup' Hwelcome Hrequest.
  unfold handle_start, request_phone_number, profile_of in *. run.
  rewrite Hup. run. rewrite Hnone. run. rewrite Hup'. run. fold welcome.
  rewrite send_message_ok by exact Hwelcome. run.
  rewrite send_message_ok by exact Hrequest. run.
  eexists. split; [reflexivity|]. cbn [users_collection outbox next_step].
  split; [reflexivity|]. split; [now rewrite <- app_assoc | reflexivity].
Qed.

Lemma start_new_user_witness :
  exists w',
    handle_start (calm_env "" [] []) (text_message 7 "/start") fresh_world = (w', Ret tt) /\
    users_collection w' = [mkProfile 7 "Ada" (Some "ada") None 1] /\
    outbox w' = [mkSent 0 7 welcome Plain; phone_request_sent 1 7].
Proof.
  destruct (start_new_user (calm_env "" [] []) fresh_world (text_message 7 "/start")
              eq_refl eq_refl eq_refl eq_refl eq_refl) as [w' [Hrun [Hu [Ho _]]]].
  exists w'. split; [exact Hrun|]. split; [exact Hu | exact Ho].
Defined.

(* ===================================================================== *)
(** ** What escapes a handler *)
(* ===================================================================== *)

Lemma extract_text_from_pdf_returns (env : Env) (path : string) (w : World) :
  exists txt, extract_text_from_pdf env path w = (w, Ret txt).
Proof.
  unfold extract_text_from_pdf. run.
  destruct (files w !! path) as [data|]; run; [|eauto].
  destruct (pdf_reader env data) as [pages|]; run; [|eauto].
  destruct (pages_text pages EmptyString) as [body|e] eqn:Hp; run; [eauto|].
  apply pages_text_raises in Hp as ->. eauto.
Qed.

Ltac use_extraction :=
  idtac;
  match goal with
  | |- context [extract_text_from_pdf ?e ?p ?w0] =>
      let txt := fresh "txt" in
      let E := fresh "E" in
      destruct (extract_text_from_pdf_returns e p w0) as [txt E]; rewrite E
  end.

Ltac use_key_error :=
  idtac;
  match goal with
  | H : result_lines _ _ = Raise ?e |- _ =>
      is_var e; pose proof (result_lines_raises _ _ _ H); subst e
  end.

Lemma guarded_outcomes (env : Env) (message : Message) (w : World) :
  Forall (fun h => snd (h message w) = Ret tt \/ snd (h message w) = Raise ApiException)
         (guarded_handlers env).
Proof.
  unfold guarded_handlers. repeat apply List.Forall_cons; [ | | | | | | apply List.Forall_nil].
  - unfold handle_pdf, classify_pdf_content.
    crunch_with use_extraction; first [left; reflexivity | right; reflexivity].
  - unfold handle_image. crunch; first [left; reflexivity | right; reflexivity].
  - unfold process_web_search.
    crunch_with use_key_error; first [left; reflexivity | right; reflexivity].
  - unfold generate_sentiment_report, sentiment_report_body, render_report, true_div.
    crunch; first [left; reflexivity | right; reflexivity].
  - unfold show_user_profile. crunch; first [left; reflexivity | right; reflexivity].
  - unfold save_phone_number, show_main_menu.
    crunch; first [left; reflexivity | right; reflexivity].
Qed.

(** X23.  What can escape a handler.  The handlers built around a [try]
    block with an apology (PDF, image, search, report, profile display,
    phone capture) end normally or, when the apology itself is refused by
    the Bot API, with that [ApiException]; no other fault escapes them.
    [/start] has no such block: a store that does not answer makes it
    raise before anything is sent. *)
Theorem only_refused_apologies_escape (env : Env) (message : Message) (w : World) :
  (forall h, In h (guarded_handlers env) ->
     snd (h message w) = Ret tt \/ snd (h message w) = Raise ApiException) /\
  (mongo_up env (tick w) = false ->
   handle_start env message w = (bump_tick w, Raise PyMongoError)).
Proof.
  split.
  - apply List.Forall_forall. apply guarded_outcomes.
  - intros Hdown. unfold handle_start. run. rewrite Hdown. reflexivity.
Qed.

Lemma only_refused_apologies_escape_witness :
  snd (show_user_profile (with_refusing_api (with_store_down (calm_env "" [] [])))
                         (text_message 7 "👤 My Profile") fresh_world)
    = Raise ApiException /\
  handle_start (with_store_down (calm_env "" [] [])) (text_message 7 "/start") fresh_world
    = (bump_tick fresh_world, Raise PyMongoError).
Proof.
  split.
  - destruct (proj1 (only_refused_apologies_escape
                       (with_refusing_api (with_store_down (calm_env "" [] [])))
                       (text_message 7 "👤 My Profile") fresh_world)
                (show_user_profile (with_refusing_api (with_store_down (calm_env "" [] []))))
                ltac:(unfold guarded_handlers; cbn [In]; tauto)) as [H | H].
    + vm_compute in H. discriminate.
    + exact H.
  - apply (proj2 (only_refused_apologies_escape (with_store_down (calm_env "" [] []))
                    (text_message 7 "/start") fresh_world)). reflexivity.
Defined.

Lemma handle_start_next_step (env : Env) (message : Message) (w : World) :
  next_step (fst (handle_start env message w)) = next_step w.
Proof.
  unfold handle_start, show_main_menu, request_phone_number. crunch; reflexivity.
Qed.

Lemma handle_pdf_next_step (env : Env) (message : Message) (w : World) :
  next_step (fst (handle_pdf env message w)) = next_step w.
Proof.
  unfold handle_pdf, extract_text_from_pdf, classify_pdf_content. crunch; reflexivity.
Qed.

Lemma handle_image_next_step (env : Env) (message : Message) (w : World) :
  next_step (fst (handle_image env message w)) = next_step w.
Proof. unfold handle_image. crunch; reflexivity. Qed.

Lemma analyze_sentiment_next_step (env : Env) (message : Message) (w : World) :
  next_step (fst (analyze_sentiment env message w)) = next_step w.
Proof. unfold analyze_sentiment. crunch; reflexivity. Qed.

Lemma save_phone_number_next_step (env : Env) (message : Message) (w : World) :
  next_step (fst (save_phone_number env message w)) = next_step w.
Proof. unfold save_phone_number, show_main_menu. crunch; reflexivity. Qed.

Lemma handle_menu_selection_next_step (env : Env) (message : Message) (w : World) :
  next_step (fst (handle_menu_selection env message w)) = next_step w
  \/ exists k, text message = Some (label_of k) /\
       next_step (fst (handle_menu_selection env message w))
       = <[chat_id message := k]> (next_step w).
Proof.
  unfold handle_menu_selection, generate_sentiment_report, sentiment_report_body,
    render_report, true_div, show_user_profile, stop_bot, text_is.
  destruct (text message) as [t|]; [|left; reflexivity].
  destruct (String.eqb_spec t "🌐 Web Search") as [-> | Hweb].
  - decide_labels.
    crunch; cbn [next_step];
      first [left; reflexivity | right; exists K_process_web_search; split; reflexivity].
  - destruct (String.eqb_spec t "💬 Chat with Gemini") as [-> | Hchat].
    + decide_labels.
      crunch; cbn [next_step];
        first [left; reflexivity | right; exists K_chat_with_gemini; split; reflexivity].
    + left. crunch; reflexivity.
Qed.

(** X24.  The pending steps are touched by the menu handler alone, and
    only for "Web Search" and "Chat with Gemini", where it sets the entry
    of the sender's chat: every other function a message is handed to,
    the two continuations included, leaves the table as it was. *)
Theorem only_the_menu_registers
        (env : Env) (h : Message -> M World unit) (message : Message) (w : World) :
  In h (entry_points env) ->
  next_step (fst (h message w)) = next_step w
  \/ (h = handle_menu_selection env /\
      exists k, text message = Some (label_of k) /\
        next_step (fst (h message w)) = <[chat_id message := k]> (next_step w)).
Proof.
  intros H. apply entry_points_cases in H.
  destruct H as [-> | [-> | [-> | [-> | [-> | [-> | [-> | ->]]]]]]].
  - left. apply handle_start_next_step.
  - destruct (handle_menu_selection_next_step env message w) as [E | E];
      [left; exact E | right; split; [reflexivity | exact E]].
  - left. apply handle_pdf_next_step.
  - left. apply handle_image_next_step.
  - left. apply analyze_sentiment_next_step.
  - left. apply save_phone_number_next_step.
  - left. apply process_web_search_next_step.
  - left. apply chat_with_gemini_next_step.
Qed.

Lemma only_the_menu_registers_witness :
  next_step (fst (analyze_sentiment (calm_env "Positive" [] []) (text_message 7 "hello")
                                    asked_to_search))
  = next_step asked_to_search.
Proof.
  destruct (only_the_menu_registers (calm_env "Positive" [] [])
              (analyze_sentiment (calm_env "Positive" [] [])) (text_message 7 "hello")
              asked_to_search
              ltac:(unfold entry_points, message_handlers; cbn [List.map snd app In]; tauto))
    as [E | [_ [k [Hk _]]]].
  - exact E.
  - destruct k; discriminate Hk.
Defined.

(* ===================================================================== *)
(** ** From the analysis to the report *)
(* ===================================================================== *)

Lemma insert_desc_older (x r : SentimentRecord) (l : list SentimentRecord) :
  (r_timestamp x < r_timestamp r)%Z ->
  insert_desc x (r :: l) = r :: insert_desc x l.
Proof.
  intros H. simpl. destruct (Z.leb_spec (r_timestamp r) (r_timestamp x)); [lia | reflexivity].
Qed.

Lemma sort_desc_newest (r : SentimentRecord) (l : list SentimentRecord) :
  (forall x, In x l -> (r_timestamp x < r_timestamp r)%Z) ->
  sort_desc (l ++ [r]) = r :: sort_desc l.
Proof.
  unfold sort_desc. induction l as [|x l IH]; intros H; [reflexivity|].
  simpl. rewrite IH by (intros y Hy; apply H; now right).
  apply insert_desc_older. apply H. now left.
Qed.

(** X25.  A record newer than every record of its chat leads the next
    query of that chat: the ten records fetched are the new one followed
    by the nine most recent of before, so the new message is always in
    the report and the tenth oldest drops out of it. *)
Theorem newest_record_leads_report (c : Z) (l : list SentimentRecord) (r : SentimentRecord) :
  r_chat_id r = c ->
  (forall x, In x l -> r_chat_id x = c -> (r_timestamp x < r_timestamp r)%Z) ->
  find_recent c 10 (l ++ [r]) = r :: find_recent c 9 l.
Proof.
  intros Hc Hnew. unfold find_recent. rewrite List.filter_app. simpl.
  apply Z.eqb_eq in Hc. rewrite Hc.
  rewrite sort_desc_newest; [reflexivity|].
  intros x Hx. apply List.filter_In in Hx as [Hx Hcx]. apply Hnew; [exact Hx|].
  now apply Z.eqb_eq.
Qed.

Lemma newest_record_leads_report_witness :
  find_recent 7 10 (sentiments_collection three_records
                    ++ [mkSentiment 7 "fine" "neutral" 20])
  = mkSentiment 7 "fine" "neutral" 20 :: find_recent 7 9 (sentiments_collection three_records).
Proof.
  apply (newest_record_leads_report 7 (sentiments_collection three_records)
           (mkSentiment 7 "fine" "neutral" 20) eq_refl).
  intros x Hx _. simpl in Hx.
  repeat (destruct Hx as [<- | Hx]; [simpl; lia|]). destruct Hx.
Defined.


(* ===================================================================== *)
(** ** The reply and the whitespace around the answer *)
(* ===================================================================== *)

Lemma high_byte (a : ascii) (n : nat) :
  nat_of_ascii a = n -> 128 <= n -> space_byte a = true.
Proof.
  intros E H. unfold space_byte. rewrite E.
  apply orb_true_iff. right. now apply Nat.leb_le.
Qed.

Ltac split_bytes :=
  repeat match goal with
         | H : (_ || _) = true |- _ => apply orb_true_iff in H as [H | H]
         | H : (_ && _) = true |- _ =>
             let H' := fresh H in apply andb_true_iff in H as [H' H]
         | H : (_ =? _)%nat = true |- _ => apply Nat.eqb_eq in H
         | H : (_ <=? _)%nat = true |- _ => apply Nat.leb_le in H
         end.

Lemma is_space2_bytes (a b : ascii) :
  PyStr.is_space2 a b = true -> space_byte a = true /\ space_byte b = true.
Proof.
  unfold PyStr.is_space2. cbv zeta. intros H. split_bytes;
    (split; eapply high_byte; [eassumption | lia | eassumption | lia]).
Qed.

Lemma is_space3_bytes (a b c : ascii) :
  PyStr.is_space3 a b c = true ->
  space_byte a = true /\ space_byte b = true /\ space_byte c = true.
Proof.
  unfold PyStr.is_space3. cbv zeta. intros H. split_bytes;
    (split; [|split]; eapply high_byte; first [eassumption | reflexivity | lia]).
Qed.

Lemma lstrip_decompose_bounded (n : nat) (s : string) :
  String.length s <= n ->
  exists pre, all_space pre = true /\ s = pre ++ PyStr.lstrip s.
Proof.
  revert s. induction n as [|n IH]; intros s Hlen.
  - destruct s; [now exists EmptyString | simpl in Hlen; lia].
  - destruct s as [|a s1]; [now exists EmptyString|].
    cbn [PyStr.lstrip String.length] in *.
    destruct (PyStr.is_space a) eqn:Ha.
    { destruct (IH s1 ltac:(lia)) as [pre [Hpre E]].
      exists (String a pre). cbn [all_space]. unfold space_byte. rewrite Ha, Hpre.
      split; [reflexivity|]. rewrite append_cons. now rewrite <- E. }
    destruct s1 as [|b s2]; [now exists EmptyString|].
    cbn [String.length] in Hlen.
    destruct (PyStr.is_space2 a b) eqn:Hab.
    { destruct (is_space2_bytes a b Hab) as [Hsa Hsb].
      destruct (IH s2 ltac:(lia)) as [pre [Hpre E]].
      exists (String a (String b pre)). cbn [all_space]. rewrite Hsa, Hsb, Hpre.
      split; [reflexivity|]. rewrite !append_cons. now rewrite <- E. }
    destruct s2 as [|c s3]; [now exists EmptyString|].
    cbn [String.length] in Hlen.
    destruct (PyStr.is_space3 a b c) eqn:Habc; [|now exists EmptyString].
    destruct (is_space3_bytes a b c Habc) as [Hsa [Hsb Hsc]].
    destruct (IH s3 ltac:(lia)) as [pre [Hpre E]].
    exists (String a (String b (String c pre))). cbn [all_space].
    rewrite Hsa, Hsb, Hsc, Hpre.
    split; [reflexivity|]. rewrite !append_cons. now rewrite <- E.
Qed.

Lemma lstrip_decompose (s : string) :
  exists pre, all_space pre = true /\ s = pre ++ PyStr.lstrip s.
Proof. exact (lstrip_decompose_bounded (String.length s) s (le_n _)). Qed.

Lemma blank_all_space (s : string) : PyStr.blank s = true -> all_space s = true.
Proof.
  unfold PyStr.blank. intros H.
  destruct (lstrip_decompose s) as [pre [Hpre E]].
  destruct (PyStr.lstrip s); [|discriminate].
  rewrite append_empty in E. now subst.
Qed.

Lemma rstrip_decompose (s : string) :
  exists post, all_space post = true /\ s = PyStr.rstrip s ++ post.
Proof.
  induction s as [|a s [post [Hpost E]]]; [now exists EmptyString|].
  cbn [PyStr.rstrip]. destruct (PyStr.blank (String a s)) eqn:Hb.
  - exists (String a s). split; [now apply blank_all_space | now rewrite append_nil].
  - exists post. split; [exact Hpost|]. rewrite append_cons. now rewrite <- E.
Qed.

Lemma lower_append (a b : string) : PyStr.lower (a ++ b) = PyStr.lower a ++ PyStr.lower b.
Proof.
  induction a as [|x a IH]; [reflexivity|].
  rewrite append_cons. simpl. rewrite append_cons. now rewrite IH.
Qed.

Lemma lower_ascii_space (a : ascii) :
  space_byte (PyStr.lower_ascii a) = space_byte a.
Proof.
  destruct a as [[] [] [] [] [] [] [] []]; reflexivity.
Qed.

Lemma lower_all_space (s : string) : all_space (PyStr.lower s) = all_space s.
Proof.
  induction s as [|a s IH]; [reflexivity|].
  cbn [PyStr.lower all_space]. now rewrite lower_ascii_space, IH.
Qed.

Lemma contains_after_space (needle pre s : string) (b : ascii) (n : string) :
  needle = String b n -> space_byte b = false ->
  all_space pre = true ->
  PyStr.contains needle (pre ++ s) = PyStr.contains needle s.
Proof.
  intros -> Hb. induction pre as [|a pre IH]; intros Hpre; [reflexivity|].
  cbn [all_space] in Hpre. apply andb_true_iff in Hpre as [Ha Hpre].
  rewrite append_cons. cbn [PyStr.contains PyStr.startswith].
  destruct (Ascii.eqb_spec a b) as [-> | _]; [congruence|].
  simpl. now apply IH.
Qed.

Lemma startswith_before_space (p s post : string) :
  space_free p = true -> all_space post = true ->
  PyStr.startswith (s ++ post) p = PyStr.startswith s p.
Proof.
  revert s. induction p as [|b p IH]; intros s Hp Hpost; [reflexivity|].
  cbn [space_free] in Hp. apply andb_true_iff in Hp as [Hb Hp]. apply negb_true_iff in Hb.
  destruct s as [|a s].
  - rewrite append_nil. destruct post as [|c post]; [reflexivity|].
    cbn [all_space] in Hpost. apply andb_true_iff in Hpost as [Hc _].
    cbn [PyStr.startswith].
    destruct (Ascii.eqb_spec c b) as [-> | _]; [congruence | reflexivity].
  - rewrite append_cons. cbn [PyStr.startswith]. now rewrite IH.
Qed.

Lemma contains_before_space (needle s post : string) (b : ascii) (n : string) :
  needle = String b n -> space_free needle = true ->
  all_space post = true ->
  PyStr.contains needle (s ++ post) = PyStr.contains needle s.
Proof.
  intros E Hfree Hpost. induction s as [|a s IH].
  - rewrite append_nil. subst needle. cbn [space_free] in Hfree.
    apply andb_true_iff in Hfree as [Hb _]. apply negb_true_iff in Hb.
    rewrite <- (contains_after_space (String b n) post EmptyString b n eq_refl Hb Hpost).
    now rewrite append_empty.
  - rewrite append_cons. cbn [PyStr.contains].
    rewrite <- append_cons, startswith_before_space by assumption.
    now rewrite IH.
Qed.

Lemma contains_lower_strip (needle raw : string) (b : ascii) (n : string) :
  needle = String b n -> space_free needle = true ->
  PyStr.contains needle (PyStr.lower (PyStr.strip raw))
  = PyStr.contains needle (PyStr.lower raw).
Proof.
  intros E Hfree.
  destruct (lstrip_decompose raw) as [pre [Hpre E1]].
  destruct (rstrip_decompose (PyStr.lstrip raw)) as [post [Hpost E2]].
  fold (PyStr.strip raw) in E2.
  rewrite E1 at 2. rewrite E2, !lower_append.
  assert (Hb : space_byte b = false).
  { subst needle. cbn [space_free] in Hfree. apply andb_true_iff in Hfree as [Hb _].
    now apply negb_true_iff. }
  rewrite (contains_after_space needle _ _ b n E Hb) by now rewrite lower_all_space.
  now rewrite (contains_before_space needle _ _ b n E Hfree) by now rewrite lower_all_space.
Qed.

(** X26.  The whitespace around the answer of the model has no part in
    the reply: the label that is stored is trimmed, but the reply chosen
    from it is the reply the untrimmed lower-cased answer would get. *)
Theorem reply_ignores_surrounding_whitespace (raw : string) :
  sentiment_reply (PyStr.lower (PyStr.strip raw)) = sentiment_reply (PyStr.lower raw).
Proof.
  unfold sentiment_reply.
  rewrite (contains_lower_strip "positive" raw "p" "ositive" eq_refl eq_refl).
  rewrite (contains_lower_strip "negative" raw "n" "egative" eq_refl eq_refl).
  reflexivity.
Qed.


(* ===================================================================== *)
(** ** Whitespace beyond ASCII, and results that lack a key *)
(* ===================================================================== *)

Example strip_beyond_ascii :
  PyStr.strip ideographic_space = EmptyString /\
  PyStr.strip (nbsp ++ " hi" ++ nbsp ++ "there " ++ ideographic_space) = "hi" ++ nbsp ++ "there" /\
  PyStr.strip ("né" ++ PyStr.nl) = "né".
Proof. repeat split; reflexivity. Qed.

(** A text made of an ideographic space is no text for the sentiment
    handler, for the search and for the chat; a no-break space after the
    text is not stored; a PDF whose only text is a no-break space has no
    text. *)
Example blank_texts_beyond_ascii :
  analyze_sentiment (calm_env "Positive" [] []) (text_message 7 ideographic_space) fresh_world
    = (fresh_world, Ret tt) /\
  sentiments_collection
    (fst (analyze_sentiment (calm_env "Positive" [] []) (text_message 7 ("hi" ++ nbsp))
                            fresh_world))
    = [mkSentiment 7 "hi" "positive" 1] /\
  process_web_search (calm_env "" four_results []) (text_message 7 ideographic_space) fresh_world
    = (push_sent (mkSent 0 7 search_cancelled Plain) (bump_tick fresh_world), Ret tt) /\
  chat_with_gemini (calm_env "42" [] []) (text_message 7 nbsp) fresh_world
    = (push_sent (mkSent 0 7 invalid_query Plain) (bump_tick fresh_world), Ret tt) /\
  (let w' := fst (handle_pdf (calm_env "" [] [PageText (Some nbsp)]) (pdf_message 7)
                             fresh_world) in
   outbox w' = [mkSent 0 7 processing_pdf Plain; mkSent 1 7 no_text_found Plain] /\
   gateway_calls w' = []).
Proof. repeat split; vm_compute; reflexivity. Qed.

(** A result without its link among the first three: the search fails. *)
Example result_without_link :
  outbox (fst (process_web_search
                 (calm_env "" [mkResult (Some "Rust vs Go") (Some "https://a.example/1");
                               mkResult (Some "Go or Rust") None] [])
                 (text_message 7 "rust vs go") fresh_world))
  = [mkSent 0 7 searching_notice Plain; mkSent 1 7 search_failed Plain].
Proof. vm_compute. reflexivity. Qed.
